(** * ckb-next daemon: the per-device command interpreter [readcmd]

    A shallow embedding of [readcmd] and [timespec_diff_ns] (command.c of the
    daemon) and the properties of the command dispatcher that its
    specification states, followed by properties of the code itself: what
    a whole line keeps and never does, the tokenizer, key names and the
    split at the colon, single commands, and the value returned.

    Conventions of the embedding

    - C integers are [Z]; where the source computes in [long], [int] or
      [uint] the wrap-around is written out ([wrap_long], [wrap_int],
      [wrap_uint]).
    - A line is a [string]; [strtok_r(.., " ", ..)] becomes [strtok_words].
    - Every call that leaves [readcmd] (a vtable member, [mknotifynode],
      [usb_tryreset], [clock_nanosleep], ...) is a constructor of [call]; the
      collaborators are one oracle [ext : call -> usbdevice -> usbdevice * Z]
      giving the device after the call and the returned status.  Every call
      is logged together with the device it was made on.
    - The [TRY_WITH_RESET] loops need not terminate; they take fuel and the
      outcome [OutOfFuel] stands for a loop that is still running.
    - A variable read before anything was written to it holds no value the
      source determines: every such reading asks the oracle [indeterminate]
      of the build, by the number of the reading, so that two readings need
      not agree. *)

From Stdlib Require Import ZArith List String Ascii Bool Lia.
Import ListNotations.
Local Open Scope string_scope.
Local Open Scope Z_scope.

(** ** Machine integers (LP64) *)

Definition LONG_MAX : Z := 9223372036854775807.
Definition LONG_MIN : Z := -9223372036854775808.
Definition ULONG_MAX : Z := 18446744073709551615.
Definition UINT_MAX : Z := 4294967295.

(** Two's complement wrap-around of a [long] result. *)
Definition wrap_long (z : Z) : Z := (z + 2 ^ 63) mod 2 ^ 64 - 2 ^ 63.
(** Conversion to [int] and to [unsigned int]. *)
Definition wrap_int (z : Z) : Z := (z + 2 ^ 31) mod 2 ^ 32 - 2 ^ 31.
Definition wrap_uint (z : Z) : Z := z mod 2 ^ 32.

(** ** [timespec_diff_ns] *)

Record timespec : Type := { tv_sec : Z; tv_nsec : Z }.

Definition HERTZ_LIM : Z := 16528925.

(** [time_t] and [long] are both 64-bit signed; [/] on the non-negative
    [LONG_MAX - diff_ns] is [Z.quot]. *)
Definition timespec_diff_ns (a b : timespec) : Z :=
  let diff_s := wrap_long (tv_sec a - tv_sec b) in
  let diff_ns := wrap_long (tv_nsec a - tv_nsec b) in
  if (0 <? diff_ns) && (Z.quot (LONG_MAX - diff_ns) 1000000000 <=? diff_s)
  then LONG_MAX
  else wrap_long (diff_ns + wrap_long (diff_s * 1000000000)).

(** The difference of two instants in nanoseconds, as a mathematical integer. *)
Definition true_diff_ns (a b : timespec) : Z :=
  (tv_sec a - tv_sec b) * 1000000000 + (tv_nsec a - tv_nsec b).

(** ** Characters and the [sscanf] directives the interpreter uses *)

Definition code (c : ascii) : Z := Z.of_N (N_of_ascii c).

(** [isspace] in the C locale. *)
Definition isspace (c : ascii) : bool :=
  ((9 <=? code c) && (code c <=? 13)) || (code c =? 32).

(** Value of [c] as a digit of [base] (10 or 16), if it is one. *)
Definition digit_val (base : Z) (c : ascii) : option Z :=
  let n := code c in
  if (48 <=? n) && (n <=? 57) then Some (n - 48)
  else if base =? 16 then
    if (97 <=? n) && (n <=? 102) then Some (n - 87)
    else if (65 <=? n) && (n <=? 70) then Some (n - 55)
    else None
  else None.

Fixpoint skip_space (s : string) : string :=
  match s with
  | String c s' => if isspace c then skip_space s' else s
  | EmptyString => s
  end.

(** A field width: [None] is no width given. *)
Definition width_left (w : option nat) : bool :=
  match w with Some O => false | _ => true end.
Definition width_dec (w : option nat) : option nat := option_map Nat.pred w.

(** Digits of [base], at most [w] of them: value, count, rest of the input. *)
Fixpoint read_digits (base : Z) (w : option nat) (s : string) (acc : Z) (n : nat)
  : Z * nat * string :=
  if width_left w then
    match s with
    | String c s' =>
        match digit_val base c with
        | Some d => read_digits base (width_dec w) s' (acc * base + d) (S n)
        | None => (acc, n, s)
        end
    | EmptyString => (acc, n, s)
    end
  else (acc, n, s).

(** Result of one conversion directive: converted (with the rest of the
    input), matching failure, or input failure (end of input). *)
Inductive scan (A : Type) : Type :=
| Conv (v : A) (rest : string)
| NoMatch
| Eof.
Arguments Conv {A} v rest.
Arguments NoMatch {A}.
Arguments Eof {A}.

(** What [strtol] / [strtoul] return for sign [neg] and magnitude [v]. *)
Definition strtol_val (neg : bool) (v : Z) : Z :=
  if neg then Z.max (- v) LONG_MIN else Z.min v LONG_MAX.
Definition strtoul_val (neg : bool) (v : Z) : Z :=
  if ULONG_MAX <? v then ULONG_MAX else if neg then (- v) mod 2 ^ 64 else v.

(** [%d], [%u], [%x] with an optional width, as glibc reads them: white space
    is skipped, a sign and (for base 16) a [0x] prefix count against the
    width, at least one digit or a leading [0] is needed; the number goes
    through [strtol]/[strtoul] and is then stored in an [int]/[unsigned]
    (ISO C leaves a value that does not fit undefined; glibc truncates). *)
Definition scan_int (signed : bool) (base : Z) (w : option nat) (s : string)
  : scan Z :=
  match skip_space s with
  | EmptyString => Eof
  | String c s1 as s0 =>
      let '(neg, w1, s2) :=
        if (c =? "-")%char then (true, width_dec w, s1)
        else if (c =? "+")%char then (false, width_dec w, s1)
        else (false, w, s0) in
      let '(zero, w2, s3) :=
        match s2 with
        | String c0 s' =>
            if (c0 =? "0")%char && width_left w1 then
              match s' with
              | String x s'' =>
                  if ((x =? "x")%char || (x =? "X")%char)
                     && width_left (width_dec w1) && (base =? 16)
                  then (true, width_dec (width_dec w1), s'')
                  else (true, width_dec w1, s')
              | EmptyString => (true, width_dec w1, s')
              end
            else (false, w1, s2)
        | EmptyString => (false, w1, s2)
        end in
      let '(v, n, rest) := read_digits base w2 s3 0 0 in
      if zero || negb (Nat.eqb n 0) then
        Conv (if signed then wrap_int (strtol_val neg v)
              else wrap_uint (strtoul_val neg v)) rest
      else NoMatch
  end.

(** [sscanf(word, "%d", &v)] and [sscanf(word, "%u", &v)]. *)
Definition sscanf_d (word : string) : scan Z := scan_int true 10 None word.
Definition sscanf_u (word : string) : scan Z := scan_int false 10 None word.

(** A literal character of the format. *)
Definition scan_lit {A} (c : ascii) (s : string) (k : string -> scan A) : scan A :=
  match s with
  | EmptyString => Eof
  | String c' s' => if (c' =? c)%char then k s' else NoMatch
  end.

(** [sscanf(word, "@%d", &newnotify)]. *)
Definition sscanf_at_d (word : string) : scan Z := scan_lit "@" word sscanf_d.

(** [sscanf(keyname, "#%u", &keycode)] and [sscanf(keyname, "#x%x", &keycode)]. *)
Definition sscanf_hash_u (keyname : string) : scan Z :=
  scan_lit "#" keyname sscanf_u.
Definition sscanf_hash_x (keyname : string) : scan Z :=
  scan_lit "#" keyname (fun s => scan_lit "x" s (scan_int false 16 None)).

(** The value [sscanf(word, "%02x%02x%02x", &r, &g, &b)] returns: the number
    of fields converted, or [EOF] when the input ends before the first. *)
Definition sscanf_rgb (word : string) : Z :=
  match scan_int false 16 (Some 2%nat) word with
  | Eof => -1
  | NoMatch => 0
  | Conv _ s1 =>
      match scan_int false 16 (Some 2%nat) s1 with
      | Conv _ s2 =>
          match scan_int false 16 (Some 2%nat) s2 with
          | Conv _ _ => 3
          | _ => 2
          end
      | _ => 1
      end
  end.

(** [%[^...]]: the longest prefix, of at most [w] characters, none of which
    satisfies [stop]. *)
Fixpoint span_until (stop : ascii -> bool) (w : option nat) (s : string)
  : string * string :=
  match s with
  | String c s' =>
      if width_left w && negb (stop c) then
        let '(p, r) := span_until stop (width_dec w) s' in (String c p, r)
      else (EmptyString, s)
  | EmptyString => (EmptyString, s)
  end.

Definition is_colon (c : ascii) : bool := (c =? ":")%char.
Definition is_colon_or_comma (c : ascii) : bool :=
  (c =? ":")%char || (c =? ",")%char.

(** [left = -1; sscanf(word, "%*[^:]%n", &left)]: the value of [left]
    afterwards; [%n] is reached only if the scanset matched something. *)
Definition sscanf_left (word : string) : Z :=
  let '(p, _) := span_until is_colon None word in
  match p with
  | EmptyString => -1
  | _ => Z.of_nat (String.length p)
  end.

(** [sscanf(s, "%10[^:,]%n", keyname, &field) == 1]: the key name and
    [field], if it matched. *)
Definition sscanf_keyname (s : string) : option (string * nat) :=
  let '(p, _) := span_until is_colon_or_comma (Some 10%nat) s in
  match p with
  | EmptyString => None
  | _ => Some (p, String.length p)
  end.

(** [strtok_r(line, " ", &ptr)] called until it returns NULL: the maximal
    runs of characters other than the space. *)
Fixpoint strtok_from (s : string) (tok : string) : list string :=
  match s with
  | EmptyString => match tok with EmptyString => [] | _ => [tok] end
  | String c s' =>
      if (c =? " ")%char then
        match tok with
        | EmptyString => strtok_from s' EmptyString
        | _ => tok :: strtok_from s' EmptyString
        end
      else strtok_from s' (tok ++ String c EmptyString)
  end.
Definition strtok_words (line : string) : list string :=
  strtok_from line EmptyString.

(** [word + n] and [word[n]] on a nul-terminated string. *)
Fixpoint str_drop (n : nat) (s : string) : string :=
  match n, s with
  | S n', String _ s' => str_drop n' s'
  | _, _ => s
  end.
Fixpoint str_take (n : nat) (s : string) : string :=
  match n, s with
  | S n', String c s' => String c (str_take n' s')
  | _, _ => EmptyString
  end.

(** ** The command vocabulary *)

(** The [cmd] enumeration (command.h), in the order of [cmd_strings]. *)
Inductive cmd : Type :=
| NONE
| DELAY | MODE | SWITCH | LAYOUT | ACCEL | SCROLLSPEED | NOTIFYON | NOTIFYOFF
| FPS | DITHER
| HWLOAD | HWSAVE | FWUPDATE | POLLRATE
| ACTIVE | IDLE
| ERASE | ERASEPROFILE | NAME | PROFILENAME | ID | PROFILEID
| RGB | HWANIM | IOFF | ION | IAUTO
| BIND | UNBIND | REBIND | MACRO
| DPI | DPISEL | LIFT | SNAP
| NOTIFY | INOTIFY | GET
| RESET.

(** [cmd_strings[i]] paired with [i + CMD_FIRST]. *)
Definition cmd_strings : list (string * cmd) :=
  [ ("delay", DELAY); ("mode", MODE); ("switch", SWITCH); ("layout", LAYOUT);
    ("accel", ACCEL); ("scrollspeed", SCROLLSPEED); ("notifyon", NOTIFYON);
    ("notifyoff", NOTIFYOFF); ("fps", FPS); ("dither", DITHER);
    ("hwload", HWLOAD); ("hwsave", HWSAVE); ("fwupdate", FWUPDATE);
    ("pollrate", POLLRATE);
    ("active", ACTIVE); ("idle", IDLE);
    ("erase", ERASE); ("eraseprofile", ERASEPROFILE); ("name", NAME);
    ("profilename", PROFILENAME); ("id", ID); ("profileid", PROFILEID);
    ("rgb", RGB); ("hwanim", HWANIM); ("ioff", IOFF); ("ion", ION);
    ("iauto", IAUTO);
    ("bind", BIND); ("unbind", UNBIND); ("rebind", REBIND); ("macro", MACRO);
    ("dpi", DPI); ("dpisel", DPISEL); ("lift", LIFT); ("snap", SNAP);
    ("notify", NOTIFY); ("inotify", INOTIFY); ("get", GET);
    ("reset", RESET) ].

(** The first [i] with [!strcmp(word, cmd_strings[i])]. *)
Fixpoint find_cmd (tbl : list (string * cmd)) (word : string) : option cmd :=
  match tbl with
  | [] => None
  | (s, c) :: tbl' => if String.eqb word s then Some c else find_cmd tbl' word
  end.

(** The verbs that are actions in and of themselves. *)
Definition is_action (c : cmd) : bool :=
  match c with
  | SWITCH | HWLOAD | HWSAVE | ACTIVE | IDLE | ERASE | ERASEPROFILE => true
  | _ => false
  end.

Inductive pollrate_t : Type :=
| POLLRATE_8MS | POLLRATE_4MS | POLLRATE_2MS | POLLRATE_1MS
| POLLRATE_05MS | POLLRATE_025MS | POLLRATE_01MS.

(** ** The device *)

Set Implicit Arguments.

(** A mode: [light.forceupdate] and [bind.macros[i].triggered] for
    [i < bind.macrocount]. *)
Record usbmode : Type := {
  light_forceupdate : Z;
  macros_triggered : list Z
}.

(** A profile: [mode[]] and [currentmode], a pointer into [mode[]] kept as
    its index.  The same holds for the local [mode] of [readcmd]. *)
Record usbprofile : Type := {
  currentmode : nat;
  modes : list usbmode
}.

(** The fields of [usbdevice] that [readcmd] reads or writes; [hw] is
    everything else the collaborators own (the hardware, the notification
    nodes, the clock). *)
Record usbdevice (E : Type) : Type := {
  features : Z;
  active : bool;
  needs_fw_update : bool;
  usbdelay : Z;
  dither : Z;
  scroll_rate : Z;
  maxpollrate : Z;
  keymap : list (option string);
  last_rgb : timespec;
  encounteredleds : list Z;
  profile : usbprofile;
  hw : E
}.
(** ** Calls that leave [readcmd] *)

Inductive call : Type :=
| mknotifynode (notify : Z)
| rmnotifynode (notify : Z)
| vt_get (mode : nat) (notifynumber : Z) (word : string)
| vt_reset (mode : nat) (notifynumber : Z) (word : string)
| vt_active (mode : nat) (notifynumber : Z)
| vt_idle (mode : nat) (notifynumber : Z)
| vt_setmodeindex (index : nat)
| vt_do_io (command : cmd) (mode : nat) (notifynumber : Z)
| vt_updatergb (force : Z)
| vt_updatedpi (force : Z)
| vt_fwupdate (mode : nat) (notifynumber : Z) (word : string)
| vt_pollrate (rate : pollrate_t)
| vt_eraseprofile (mode : nat) (notifynumber : Z)
| vt_do_cmd (command : cmd) (mode : nat) (notifynumber : Z) (key : Z)
            (word : string)
| vt_rgb (mode : nat) (notifynumber : Z) (key : Z) (word : string)
| vt_macro (mode : nat) (notifynumber : Z)
| vt_do_macro (command : cmd) (mode : nat) (notifynumber : Z)
              (left right : string)
| usb_tryreset
| clock_nanosleep (sleep_ns : Z)
| queued_mutex_lock
| queued_mutex_unlock
| ckb_err (word : string)
| ckb_warn (diff : Z).

(** The build, the constants of the headers that are not part of this
    file, and the collaborators. *)
Record config (E : Type) : Type := {
  cfg_OS_MAC : bool;
  cfg_OS_MAC_LEGACY : bool;
  cfg_NDEBUG : bool;
  cfg_OUTFIFO_MAX : Z;
  cfg_MODE_COUNT : Z;
  cfg_N_KEYS_EXTENDED : nat;
  cfg_FEAT_BIND : Z;
  cfg_FEAT_NOTIFY : Z;
  cfg_FEAT_ADJRATE : Z;
  cfg_FEAT_LMASK : Z;
  cfg_FEAT_ANSI : Z;
  cfg_FEAT_ISO : Z;
  cfg_FEAT_MOUSEACCEL : Z;
  cfg_SCROLL_MIN : Z;
  cfg_SCROLL_MAX : Z;
  cfg_SCROLL_ACCELERATED : Z;
  cfg_IS_MOUSE_DEV : usbdevice E -> bool;
  cfg_IS_FULLRANGE : usbdevice E -> bool;
  (** numeric value of a [pollrate_t] *)
  cfg_pollrate : pollrate_t -> Z;
  (** the bits the [n]-th reading of an uninitialised [uint keycode] finds
      in it: any, and other ones at every reading *)
  cfg_indeterminate : nat -> Z;
  (** [clock_gettime(CLOCK_MONOTONIC, &now)] *)
  cfg_clock_gettime : usbdevice E -> timespec;
  (** the device after a call, and the status the call returns *)
  cfg_ext : call -> usbdevice E -> usbdevice E * Z
}.

(** Field updates. *)
Definition set_features {E} (v : Z) (k : usbdevice E) : usbdevice E :=
  {| features := v; active := active k; needs_fw_update := needs_fw_update k;
     usbdelay := usbdelay k; dither := dither k; scroll_rate := scroll_rate k;
     maxpollrate := maxpollrate k; keymap := keymap k; last_rgb := last_rgb k;
     encounteredleds := encounteredleds k; profile := profile k; hw := hw k |}.
Definition set_usbdelay {E} (v : Z) (k : usbdevice E) : usbdevice E :=
  {| features := features k; active := active k;
     needs_fw_update := needs_fw_update k;
     usbdelay := v; dither := dither k; scroll_rate := scroll_rate k;
     maxpollrate := maxpollrate k; keymap := keymap k; last_rgb := last_rgb k;
     encounteredleds := encounteredleds k; profile := profile k; hw := hw k |}.
Definition set_dither {E} (v : Z) (k : usbdevice E) : usbdevice E :=
  {| features := features k; active := active k;
     needs_fw_update := needs_fw_update k;
     usbdelay := usbdelay k; dither := v; scroll_rate := scroll_rate k;
     maxpollrate := maxpollrate k; keymap := keymap k; last_rgb := last_rgb k;
     encounteredleds := encounteredleds k; profile := profile k; hw := hw k |}.
Definition set_scroll_rate {E} (v : Z) (k : usbdevice E) : usbdevice E :=
  {| features := features k; active := active k;
     needs_fw_update := needs_fw_update k;
     usbdelay := usbdelay k; dither := dither k; scroll_rate := v;
     maxpollrate := maxpollrate k; keymap := keymap k; last_rgb := last_rgb k;
     encounteredleds := encounteredleds k; profile := profile k; hw := hw k |}.
Definition set_last_rgb {E} (v : timespec) (k : usbdevice E) : usbdevice E :=
  {| features := features k; active := active k;
     needs_fw_update := needs_fw_update k;
     usbdelay := usbdelay k; dither := dither k; scroll_rate := scroll_rate k;
     maxpollrate := maxpollrate k; keymap := keymap k; last_rgb := v;
     encounteredleds := encounteredleds k; profile := profile k; hw := hw k |}.
Definition set_encounteredleds {E} (v : list Z) (k : usbdevice E) : usbdevice E :=
  {| features := features k; active := active k;
     needs_fw_update := needs_fw_update k;
     usbdelay := usbdelay k; dither := dither k; scroll_rate := scroll_rate k;
     maxpollrate := maxpollrate k; keymap := keymap k; last_rgb := last_rgb k;
     encounteredleds := v; profile := profile k; hw := hw k |}.
Definition set_profile {E} (v : usbprofile) (k : usbdevice E) : usbdevice E :=
  {| features := features k; active := active k;
     needs_fw_update := needs_fw_update k;
     usbdelay := usbdelay k; dither := dither k; scroll_rate := scroll_rate k;
     maxpollrate := maxpollrate k; keymap := keymap k; last_rgb := last_rgb k;
     encounteredleds := encounteredleds k; profile := v; hw := hw k |}.

(** [l[i] = f(l[i])]; nothing is written when [i] is outside the array. *)
Fixpoint update_nth {A} (i : nat) (f : A -> A) (l : list A) : list A :=
  match l, i with
  | [], _ => []
  | x :: l', O => f x :: l'
  | x :: l', S i' => x :: update_nth i' f l'
  end.

(** [profile->mode[i].light.forceupdate = 1]. *)
Definition force_light (i : nat) (p : usbprofile) : usbprofile :=
  {| currentmode := currentmode p;
     modes := update_nth i (fun m => {| light_forceupdate := 1;
                                        macros_triggered := macros_triggered m |})
                         (modes p) |}.

(** The body of [SWITCH] under the mutex: every [triggered] of the current
    mode is cleared, then [currentmode = mode]. *)
Definition switch_mode (mode : nat) (p : usbprofile) : usbprofile :=
  {| currentmode := mode;
     modes := update_nth (currentmode p)
                (fun m => {| light_forceupdate := light_forceupdate m;
                             macros_triggered :=
                               map (fun _ => 0) (macros_triggered m) |})
                (modes p) |}.

(** The locals of [readcmd] that live across words. *)
Record locals : Type := {
  command : cmd;
  notifynumber : Z;
  mode : nat
}.
Definition with_command (c : cmd) (l : locals) : locals :=
  {| command := c; notifynumber := notifynumber l; mode := mode l |}.
Definition with_notifynumber (n : Z) (l : locals) : locals :=
  {| command := command l; notifynumber := n; mode := mode l |}.
Definition with_mode (m : nat) (l : locals) : locals :=
  {| command := command l; notifynumber := notifynumber l; mode := m |}.

(** Modelled from the spec: [HAS_FEATURES] of device.h, which is not part
    of this file; a capability is present when all its bits are set in
    [features]. *)
Definition HAS_FEATURES {E} (k : usbdevice E) (feat : Z) : bool :=
  Z.land (features k) feat =? feat.

(** ** The interpreter *)

Section Interpreter.

Variable E : Type.
Variable cfg : config E.

Local Abbreviation OS_MAC := (cfg_OS_MAC cfg).
Local Abbreviation OS_MAC_LEGACY := (cfg_OS_MAC_LEGACY cfg).
Local Abbreviation NDEBUG := (cfg_NDEBUG cfg).
Local Abbreviation OUTFIFO_MAX := (cfg_OUTFIFO_MAX cfg).
Local Abbreviation MODE_COUNT := (cfg_MODE_COUNT cfg).
Local Abbreviation N_KEYS_EXTENDED := (cfg_N_KEYS_EXTENDED cfg).
Local Abbreviation FEAT_BIND := (cfg_FEAT_BIND cfg).
Local Abbreviation FEAT_NOTIFY := (cfg_FEAT_NOTIFY cfg).
Local Abbreviation FEAT_ADJRATE := (cfg_FEAT_ADJRATE cfg).
Local Abbreviation FEAT_LMASK := (cfg_FEAT_LMASK cfg).
Local Abbreviation FEAT_ANSI := (cfg_FEAT_ANSI cfg).
Local Abbreviation FEAT_ISO := (cfg_FEAT_ISO cfg).
Local Abbreviation FEAT_MOUSEACCEL := (cfg_FEAT_MOUSEACCEL cfg).
Local Abbreviation SCROLL_MIN := (cfg_SCROLL_MIN cfg).
Local Abbreviation SCROLL_MAX := (cfg_SCROLL_MAX cfg).
Local Abbreviation SCROLL_ACCELERATED := (cfg_SCROLL_ACCELERATED cfg).
Local Abbreviation IS_MOUSE_DEV := (cfg_IS_MOUSE_DEV cfg).
Local Abbreviation IS_FULLRANGE := (cfg_IS_FULLRANGE cfg).
Local Abbreviation clock_gettime := (cfg_clock_gettime cfg).
Local Abbreviation ext := (cfg_ext cfg).

(** The device and the log of the calls made so far, each with the device
    it was made on; [reads] counts the readings of an uninitialised variable
    so far, which tells them apart. *)
Record world : Type := {
  kb : usbdevice E;
  log : list (call * usbdevice E);
  reads : nat
}.

(** How a piece of [readcmd] ends: it falls through ([Done]), it executes
    [return r], or a retry loop is still running when the fuel is spent. *)
Inductive outcome (A : Type) : Type :=
| Done (a : A) (w : world)
| Return (r : Z) (w : world)
| OutOfFuel.
Arguments Return {A} r w.
Arguments OutOfFuel {A}.

Definition M (A : Type) : Type := world -> outcome A.

Definition ret {A} (a : A) : M A := fun w => Done a w.
Definition bind {A B} (m : M A) (k : A -> M B) : M B :=
  fun w =>
    match m w with
    | Done a w' => k a w'
    | Return r w' => Return r w'
    | OutOfFuel => OutOfFuel
    end.
Definition return_ {A} (r : Z) : M A := fun w => Return r w.

Local Notation "x <- m ;; k" := (bind m (fun x => k))
  (at level 61, m at next level, right associativity).
Local Notation "m ;; k" := (bind m (fun _ => k))
  (at level 61, right associativity).

Definition get_kb : M (usbdevice E) := fun w => Done (kb w) w.
Definition modify (f : usbdevice E -> usbdevice E) : M unit :=
  fun w => Done tt {| kb := f (kb w); log := log w; reads := reads w |}.

(** A call to a collaborator: logged, the device replaced by what the call
    leaves, the status returned. *)
Definition invoke (c : call) : M Z :=
  fun w =>
    Done (snd (ext c (kb w)))
         {| kb := fst (ext c (kb w)); log := log w ++ [(c, kb w)];
            reads := reads w |}.

(** Logging and the mode mutex leave the device as it is. *)
Definition emit (c : call) : M unit :=
  fun w =>
    Done tt {| kb := kb w; log := log w ++ [(c, kb w)]; reads := reads w |}.

(** Reading a [uint] that nothing was written to: what is found there,
    taken as an unsigned number; a reading by itself. *)
Definition uninitialised : M Z :=
  fun w =>
    Done (wrap_uint (cfg_indeterminate cfg (reads w)))
         {| kb := kb w; log := log w; reads := S (reads w) |}.

(** [while(action){ if(usb_tryreset(kb)){ return 1; } }] *)
Fixpoint TRY_WITH_RESET (fuel : nat) (action : call) : M unit :=
  match fuel with
  | O => fun _ => OutOfFuel
  | S fuel' =>
      r <- invoke action;;
      if r =? 0 then ret tt
      else
        rr <- invoke usb_tryreset;;
        if rr =? 0 then TRY_WITH_RESET fuel' action else return_ 1
  end.

(** [for(int i = 0; i < N_KEYS_EXTENDED; i++) f(i)], from [i] with [n] keys
    to go. *)
Fixpoint for_keys (f : Z -> call) (i n : nat) : M unit :=
  match n with
  | O => ret tt
  | S n' => invoke (f (Z.of_nat i));; for_keys f (S i) n'
  end.

(** The for loop over [cmd_strings], with the demotion of the verbs that are
    only used on macOS. *)
Definition demote (c : cmd) : cmd :=
  if OS_MAC then c
  else match c with LAYOUT | ACCEL | SCROLLSPEED => NONE | _ => c end.

Definition lookup_command (word : string) : option cmd :=
  option_map demote (find_cmd cmd_strings word).

(** The first [i < N_KEYS_EXTENDED] whose key has a name equal to [keyname],
    from [i] with [n] keys to go. *)
Fixpoint find_key (km : list (option string)) (keyname : string) (i n : nat)
  : option nat :=
  match n with
  | O => None
  | S n' =>
      match nth i km None with
      | Some name =>
          if String.eqb keyname name then Some i
          else find_key km keyname (S i) n'
      | None => find_key km keyname (S i) n'
      end
  end.

(** The condition [(sscanf(keyname, "#%u", &keycode) && keycode < N) ||
    (sscanf(keyname, "#x%x", &keycode) && keycode < N)] and, when it
    holds, [keycode]; [keycode0] is what the variable holds before the
    first [sscanf].  [sscanf] returns [EOF], which is not zero, when the
    name ends after the prefix; [keycode] is then whatever it held. *)
Definition numeric_key (keycode0 : Z) (keyname : string) : option Z :=
  let in_range k := k <? Z.of_nat N_KEYS_EXTENDED in
  let '(r1, keycode1) :=
    match sscanf_hash_u keyname with
    | Conv k _ => (1, k)
    | NoMatch => (0, keycode0)
    | Eof => (-1, keycode0)
    end in
  if negb (r1 =? 0) && in_range keycode1 then Some keycode1
  else
    let '(r2, keycode2) :=
      match sscanf_hash_x keyname with
      | Conv k _ => (1, k)
      | NoMatch => (0, keycode1)
      | Eof => (-1, keycode1)
      end in
    if negb (r2 =? 0) && in_range keycode2 then Some keycode2 else None.

(** Whether the condition compares [keycode] before anything was written
    to it: after an [EOF] of the first [sscanf], or, when the first matched
    nothing, after an [EOF] of the second. *)
Definition keycode_unwritten (keyname : string) : bool :=
  match sscanf_hash_u keyname with
  | Conv _ _ => false
  | NoMatch => match sscanf_hash_x keyname with Eof => true | _ => false end
  | Eof => true
  end.

(** One key name of the left side.  [uint keycode] is declared without a
    value in every round of the key loop; where the condition reads it
    unwritten it finds what [uninitialised] finds, and where it does not,
    what it holds is of no account. *)
Definition key_command (l : locals) (keyname right : string) : M unit :=
  if String.eqb keyname "all" then
    for_keys (fun i => vt_do_cmd (command l) (mode l) (notifynumber l) i right)
             0 N_KEYS_EXTENDED
  else
    keycode0 <- (if keycode_unwritten keyname then uninitialised else ret 0);;
    match numeric_key keycode0 keyname with
    | Some keycode =>
        invoke (vt_do_cmd (command l) (mode l) (notifynumber l) keycode right);;
        ret tt
    | None =>
        k <- get_kb;;
        match find_key (keymap k) keyname 0 N_KEYS_EXTENDED with
        | Some i =>
            invoke (vt_do_cmd (command l) (mode l) (notifynumber l)
                              (Z.of_nat i) right);;
            ret tt
        | None => ret tt
        end
    end.

(** [while(position < left && sscanf(word + position, "%10[^:,]%n", ..) == 1)].
    Every round advances [position] by [field >= 1], so [left] rounds are
    enough: [n] counts them down. *)
Fixpoint scan_keys (n : nat) (l : locals) (word right : string)
  (left position : nat) : M unit :=
  match n with
  | O => ret tt
  | S n' =>
      if (position <? left)%nat then
        match sscanf_keyname (str_drop position word) with
        | Some (keyname, field) =>
            key_command l keyname right;;
            let position := (position + field)%nat in
            let position :=
              match str_drop position word with
              | String c _ => if (c =? ",")%char then S position else position
              | EmptyString => position
              end in
            scan_keys n' l word right left position
        | None => ret tt
        end
      else ret tt
  end.

(** "For anything else, split the parameter at the colon". *)
Definition colon_split (l : locals) (word : string) : M locals :=
  let left := sscanf_left word in
  if left <=? 0 then ret l
  else
    let left := Z.to_nat left in
    let right := str_drop left word in
    let right :=
      match right with
      | String c r => if (c =? ":")%char then r else right
      | EmptyString => right
      end in
    match command l with
    | MACRO | DPI =>
        invoke (vt_do_macro (command l) (mode l) (notifynumber l)
                            (str_take left word) right);;
        ret l
    | _ => scan_keys left l word right left 0;; ret l
    end.

Definition pollrate_of_word (word : string) : option pollrate_t :=
  if String.eqb word "8" then Some POLLRATE_8MS
  else if String.eqb word "4" then Some POLLRATE_4MS
  else if String.eqb word "2" then Some POLLRATE_2MS
  else if String.eqb word "1" then Some POLLRATE_1MS
  else if String.eqb word "0.5" then Some POLLRATE_05MS
  else if String.eqb word "0.25" then Some POLLRATE_025MS
  else if String.eqb word "0.1" then Some POLLRATE_01MS
  else None.

(** The second switch: "Specially handled commands only available when
    keyboard is ACTIVE", and below it the split at the colon. *)
Definition dispatch_active (fuel : nat) (l : locals) (word : string) : M locals :=
  match command l with
  | IDLE =>
      TRY_WITH_RESET fuel (vt_idle (mode l) (notifynumber l));;
      ret l
  | SWITCH =>
      k <- get_kb;;
      if negb (Nat.eqb (currentmode (profile k)) (mode l)) then
        emit queued_mutex_lock;;
        modify (fun k => set_profile (switch_mode (mode l) (profile k)) k);;
        emit queued_mutex_unlock;;
        invoke (vt_setmodeindex (mode l));;
        ret l
      else ret l
  | HWLOAD | HWSAVE =>
      k <- get_kb;;
      let delay := usbdelay k in
      (if delay <? 10 then modify (set_usbdelay 10) else ret tt);;
      TRY_WITH_RESET fuel (vt_do_io (command l) (mode l) (notifynumber l));;
      TRY_WITH_RESET fuel (vt_updatergb 1);;
      modify (set_usbdelay delay);;
      ret l
  | FWUPDATE =>
      r <- invoke (vt_fwupdate (mode l) (notifynumber l) word);;
      if negb (r =? 0) then return_ 1 else ret l
  | POLLRATE =>
      k <- get_kb;;
      if HAS_FEATURES k FEAT_ADJRATE then
        match pollrate_of_word word with
        | None => ret l
        | Some rate =>
            if cfg_pollrate cfg rate >? maxpollrate k then
              emit (ckb_err word);;
              ret l
            else
              TRY_WITH_RESET fuel (vt_pollrate rate);;
              ret l
        end
      else ret l
  | ERASEPROFILE =>
      invoke (vt_eraseprofile (mode l) (notifynumber l));;
      k <- get_kb;;
      ret (with_mode (currentmode (profile k)) l)
  | ERASE | NAME | IOFF | ION | IAUTO | INOTIFY | PROFILENAME | ID | PROFILEID
  | DPISEL | LIFT | SNAP =>
      invoke (vt_do_cmd (command l) (mode l) (notifynumber l) 0 word);;
      ret l
  | RGB =>
      if sscanf_rgb word =? 3 then
        for_keys (fun i => vt_rgb (mode l) (-1) i word) 0 N_KEYS_EXTENDED;;
        ret l
      else colon_split l word
  | MACRO =>
      if String.eqb word "clear" then
        invoke (vt_macro (mode l) (notifynumber l));;
        ret l
      else colon_split l word
  | _ => colon_split l word
  end.

(** "If a keyboard is inactive, it must be activated before receiving any
    other commands". *)
Definition active_gate (fuel : nat) (l : locals) (word : string) : M locals :=
  k <- get_kb;;
  if negb (active k) then
    match command l with
    | ACTIVE =>
        TRY_WITH_RESET fuel (vt_active (mode l) (notifynumber l));;
        ret l
    | _ => ret l
    end
  else dispatch_active fuel l word.

(** The first switch: "Specially handled commands - these are available even
    when keyboard is IDLE". *)
Definition dispatch_always (fuel : nat) (l : locals) (word : string) : M locals :=
  match command l with
  | NOTIFYON =>
      match sscanf_d word with
      | Conv notify _ => invoke (mknotifynode notify);; ret l
      | _ => ret l
      end
  | NOTIFYOFF =>
      match sscanf_d word with
      | Conv notify _ =>
          if negb (notify =? 0) then invoke (rmnotifynode notify);; ret l
          else ret l
      | _ => ret l
      end
  | GET =>
      invoke (vt_get (mode l) (notifynumber l) word);;
      ret l
  | LAYOUT =>
      if String.eqb word "ansi" then
        modify (fun k =>
          set_features
            (Z.lor (Z.land (features k) (Z.lnot FEAT_LMASK)) FEAT_ANSI) k);;
        ret l
      else if String.eqb word "iso" then
        modify (fun k =>
          set_features
            (Z.lor (Z.land (features k) (Z.lnot FEAT_LMASK)) FEAT_ISO) k);;
        ret l
      else ret l
  | ACCEL =>
      if OS_MAC_LEGACY then
        if String.eqb word "on" then
          modify (fun k => set_features (Z.lor (features k) FEAT_MOUSEACCEL) k);;
          ret l
        else if String.eqb word "off" then
          modify (fun k =>
            set_features (Z.land (features k) (Z.lnot FEAT_MOUSEACCEL)) k);;
          ret l
        else ret l
      else active_gate fuel l word
  | SCROLLSPEED =>
      if OS_MAC_LEGACY then
        match sscanf_d word with
        | Conv newscroll _ =>
            let newscroll :=
              if newscroll <? SCROLL_MIN then SCROLL_ACCELERATED
              else newscroll in
            let newscroll :=
              if newscroll >? SCROLL_MAX then SCROLL_MAX else newscroll in
            modify (set_scroll_rate newscroll);;
            ret l
        | _ => active_gate fuel l word
        end
      else active_gate fuel l word
  | MODE =>
      match sscanf_d word with
      | Conv newmode _ =>
          if (newmode >? 0) && (newmode <=? MODE_COUNT)
          then ret (with_mode (Z.to_nat (newmode - 1)) l)
          else ret l
      | _ => ret l
      end
  | FPS =>
      match sscanf_u word with
      | Conv framerate _ =>
          if framerate >? 0 then
            k <- get_kb;;
            let per_frame :=
              if IS_MOUSE_DEV k then 2 else if IS_FULLRANGE k then 14 else 5 in
            let delay := 1000 / framerate / per_frame in
            let delay :=
              if delay <? 2 then 2 else if delay >? 10 then 10 else delay in
            modify (set_usbdelay delay);;
            ret l
          else ret l
      | _ => ret l
      end
  | DITHER =>
      match sscanf_u word with
      | Conv d _ =>
          if d <=? 1 then
            modify (fun k =>
              set_profile
                (force_light (mode l)
                   (force_light (currentmode (profile k)) (profile k)))
                (set_dither d k));;
            ret l
          else ret l
      | _ => ret l
      end
  | DELAY => ret l
  | RESET =>
      invoke (vt_reset (mode l) (notifynumber l) word);;
      ret l
  | _ => active_gate fuel l word
  end.

(** "Reject unrecognized commands. Reject bind or notify related commands if
    the keyboard doesn't have the feature enabled." *)
Definition rejected (k : usbdevice E) (c : cmd) : bool :=
  match c with
  | NONE => true
  | BIND | UNBIND | REBIND | MACRO | DELAY => negb (HAS_FEATURES k FEAT_BIND)
  | NOTIFY => negb (HAS_FEATURES k FEAT_NOTIFY)
  | _ => false
  end.

(** "Reject anything not related to fwupdate if device has a bricked FW". *)
Definition fw_rejected (k : usbdevice E) (c : cmd) : bool :=
  needs_fw_update k
  && match c with
     | FWUPDATE | NOTIFYON | NOTIFYOFF | RESET => false
     | _ => true
     end.

(** The two rejections, then the first switch. *)
Definition gates (fuel : nat) (l : locals) (word : string) : M locals :=
  k <- get_kb;;
  if rejected k (command l) || fw_rejected k (command l) then ret l
  else dispatch_always fuel l word.

(** One round of the while loop from the notification selector on. *)
Definition readcmd_body (fuel : nat) (l : locals) (word : string) : M locals :=
  match sscanf_at_d word with
  | Conv newnotify _ =>
      if newnotify <? OUTFIFO_MAX then ret (with_notifynumber newnotify l)
      else gates fuel l word
  | _ => gates fuel l word
  end.

(** One round of the while loop: a command word sets [command]; unless it is
    an action the round ends there ([goto next_loop]). *)
Definition readcmd_word (fuel : nat) (l : locals) (word : string) : M locals :=
  match lookup_command word with
  | Some c =>
      if is_action c then readcmd_body fuel (with_command c l) word
      else ret (with_command c l)
  | None => readcmd_body fuel l word
  end.

Fixpoint read_words (fuel : nat) (l : locals) (words : list string) : M locals :=
  match words with
  | [] => ret l
  | word :: words' =>
      l' <- readcmd_word fuel l word;;
      read_words fuel l' words'
  end.

(** The throttle of "Finish up". *)
Definition rgb_ratelimit : M unit :=
  k <- get_kb;;
  let now := clock_gettime k in
  let diff := timespec_diff_ns now (last_rgb k) in
  if (diff >? 0) && (diff <? HERTZ_LIM) then
    (if NDEBUG then ret tt else emit (ckb_warn diff));;
    let sleep_ns := HERTZ_LIM - diff in
    invoke (clock_nanosleep sleep_ns);;
    modify (set_last_rgb {| tv_sec := tv_sec now;
                            tv_nsec := wrap_long (tv_nsec now + sleep_ns) |})
  else modify (set_last_rgb now).

(** "Finish up", the debug-build [memset] and [return 0]. *)
Definition finish (fuel : nat) (l : locals) : M unit :=
  k <- get_kb;;
  (if negb (needs_fw_update k) then
     (match command l with RGB => rgb_ratelimit | _ => ret tt end);;
     TRY_WITH_RESET fuel (vt_updatergb 0);;
     TRY_WITH_RESET fuel (vt_updatedpi 0)
   else ret tt);;
  (if NDEBUG then ret tt
   else match command l with
        | RGB => modify (fun k =>
                   set_encounteredleds (map (fun _ => 0) (encounteredleds k)) k)
        | _ => ret tt
        end);;
  return_ 0.

Definition start (k : usbdevice E) : world :=
  {| kb := k; log := []; reads := 0 |}.
Definition initial (k : usbdevice E) : locals :=
  {| command := NONE; notifynumber := 0; mode := currentmode (profile k) |}.

(** [readcmd(kb, line)]: [Return r w] when it returns [r] leaving [w]. *)
Definition readcmd (fuel : nat) (k : usbdevice E) (line : string) : outcome unit :=
  (l <- read_words fuel (initial k) (strtok_words line);;
   finish fuel l) (start k).

(** The calls of a log, without the devices. *)
Definition calls (w : world) : list call := map fst (log w).

End Interpreter.

Arguments Done {E A} a w.
Arguments Return {E A} r w.
Arguments OutOfFuel {E A}.

(** ** Vocabulary of the statements *)

(** The calls a device that needs a firmware update may still receive. *)
Definition brick_call (c : call) : bool :=
  match c with
  | vt_fwupdate _ _ _ | mknotifynode _ | rmnotifynode _ | vt_reset _ _ _ => true
  | _ => false
  end.

(** The calls an inactive device may receive while a line is read. *)
Definition idle_call (c : call) : bool :=
  match c with
  | mknotifynode _ | rmnotifynode _ | vt_get _ _ _ | vt_reset _ _ _
  | vt_active _ _ | usb_tryreset => true
  | _ => false
  end.

Section Vocabulary.

Variable E : Type.
Variable cfg : config E.

(** The world after one call to a collaborator. *)
Definition after_call (c : call) (w : world E) : world E :=
  {| kb := fst (cfg_ext cfg c (kb w)); log := log w ++ [(c, kb w)];
     reads := reads w |}.

(** The device the collaborators leave when called in turn. *)
Fixpoint replay (cs : list call) (k : usbdevice E) : usbdevice E :=
  match cs with
  | [] => k
  | c :: cs' => replay cs' (fst (cfg_ext cfg c k))
  end.

(** The retry policy as the specification words it: the call is made; while
    it returns non-zero the transport is asked to reset the device; a failed
    reset ends the line with 1. *)
Inductive retries (a : call) : world E -> outcome E unit -> Prop :=
| retries_ok w :
    snd (cfg_ext cfg a (kb w)) = 0 ->
    retries a w (Done tt (after_call a w))
| retries_abort w :
    snd (cfg_ext cfg a (kb w)) <> 0 ->
    snd (cfg_ext cfg usb_tryreset (kb (after_call a w))) <> 0 ->
    retries a w (Return 1 (after_call usb_tryreset (after_call a w)))
| retries_again w o :
    snd (cfg_ext cfg a (kb w)) <> 0 ->
    snd (cfg_ext cfg usb_tryreset (kb (after_call a w))) = 0 ->
    retries a (after_call usb_tryreset (after_call a w)) o ->
    retries a w o.

(** What one round does to a device that needs a firmware update: nothing,
    or one of the calls that are still allowed, once. *)
Inductive brick_round (w : world E) : outcome E locals -> Prop :=
| brick_skip l' : brick_round w (Done l' w)
| brick_one l' c :
    brick_call c = true -> brick_round w (Done l' (after_call c w))
| brick_abort c :
    brick_call c = true -> brick_round w (Return 1 (after_call c w)).

(** Messages per frame of the [FPS] verb. *)
Definition per_frame (k : usbdevice E) : Z :=
  if cfg_IS_MOUSE_DEV cfg k then 2
  else if cfg_IS_FULLRANGE cfg k then 14 else 5.

End Vocabulary.

Definition clamp (x lo hi : Z) : Z := Z.max lo (Z.min x hi).

(** The world with [usbdelay] raised to 10 if it was below. *)
Definition raise_usbdelay {E} (w : world E) : world E :=
  if usbdelay (kb w) <? 10
  then {| kb := set_usbdelay 10 (kb w); log := log w; reads := reads w |}
  else w.

(** [w'] continues the log of [w] with entries that all satisfy [P]. *)
Definition grows {E} (P : call * usbdevice E -> Prop) (w w' : world E) : Prop :=
  exists evs, log w' = (log w ++ evs)%list /\ Forall P evs.

(** The commands of the first switch. *)
Definition always_available (c : cmd) : bool :=
  match c with
  | NOTIFYON | NOTIFYOFF | GET | LAYOUT | ACCEL | SCROLLSPEED | MODE | FPS
  | DITHER | DELAY | RESET => true
  | _ => false
  end.

(** The commands that parse the whole word and pass it on with key 0. *)
Definition whole_word (c : cmd) : bool :=
  match c with
  | ERASE | NAME | IOFF | ION | IAUTO | INOTIFY | PROFILENAME | ID | PROFILEID
  | DPISEL | LIFT | SNAP => true
  | _ => false
  end.

(** A device that is neither active nor in need of a firmware update. *)
Definition asleep {E} (k : usbdevice E) : Prop :=
  active k = false /\ needs_fw_update k = false.

(** What one round may do to such a device: it stays as it is, and the
    calls made are among [idle_call]. *)
Definition idle_round {E} (w : world E) (o : outcome E locals) : Prop :=
  match o with
  | Done _ w' | Return _ w' =>
      asleep (kb w') /\ grows (fun e => idle_call (fst e) = true) w w'
  | OutOfFuel => True
  end.

(** The hex-colour argument as the specification words it: exactly six
    lowercase hex digits. *)
Definition lower_hex (c : ascii) : bool :=
  ((48 <=? code c) && (code c <=? 57)) || ((97 <=? code c) && (code c <=? 102)).
Definition six_lower_hex (word : string) : bool :=
  match word with
  | String a (String b (String c (String d (String e (String f EmptyString))))) =>
      lower_hex a && lower_hex b && lower_hex c && lower_hex d && lower_hex e
      && lower_hex f
  | _ => false
  end.

(** The value of a string of decimal digits, continuing from [acc]; [None]
    if another character occurs. *)
Fixpoint numeral_value (s : string) (acc : Z) : option Z :=
  match s with
  | EmptyString => Some acc
  | String c s' =>
      match digit_val 10 c with
      | Some d => numeral_value s' (acc * 10 + d)
      | None => None
      end
  end.

(** [s] is a decimal numeral that denotes [v]. *)
Definition numeral (s : string) (v : Z) : Prop :=
  s <> EmptyString /\ numeral_value s 0 = Some v.

(** [memset(kb->encounteredleds, 0, sizeof(kb->encounteredleds))]. *)
Definition clear_leds {E} (k : usbdevice E) : usbdevice E :=
  set_encounteredleds (map (fun _ => 0) (encounteredleds k)) k.

(** ** The calls [readcmd] can make *)

Section Protocol_vocabulary.

Variable E : Type.
Variable cfg : config E.

(** The calls of the source, one constructor for each place that makes
    one; [l] are the locals there and [k] the device when the round (or the
    flush) began, on which the command passed the rejections. *)
Inductive site (l : locals) (k : usbdevice E) : call -> Prop :=
| site_mknotifynode n : site l k (mknotifynode n)
| site_rmnotifynode n : n <> 0 -> site l k (rmnotifynode n)
| site_get word : site l k (vt_get (mode l) (notifynumber l) word)
| site_reset word : site l k (vt_reset (mode l) (notifynumber l) word)
| site_active : site l k (vt_active (mode l) (notifynumber l))
| site_idle : site l k (vt_idle (mode l) (notifynumber l))
| site_setmodeindex : site l k (vt_setmodeindex (mode l))
| site_do_io c :
    c = HWLOAD \/ c = HWSAVE ->
    site l k (vt_do_io c (mode l) (notifynumber l))
| site_updatergb force : force = 0 \/ force = 1 -> site l k (vt_updatergb force)
| site_updatedpi : site l k (vt_updatedpi 0)
| site_fwupdate word : site l k (vt_fwupdate (mode l) (notifynumber l) word)
| site_pollrate rate :
    HAS_FEATURES k (cfg_FEAT_ADJRATE cfg) = true ->
    cfg_pollrate cfg rate <= maxpollrate k ->
    site l k (vt_pollrate rate)
| site_eraseprofile : site l k (vt_eraseprofile (mode l) (notifynumber l))
| site_whole c word :
    whole_word c = true -> rejected cfg k c = false ->
    site l k (vt_do_cmd c (mode l) (notifynumber l) 0 word)
| site_key c key right :
    rejected cfg k c = false ->
    0 <= key < Z.of_nat (cfg_N_KEYS_EXTENDED cfg) ->
    site l k (vt_do_cmd c (mode l) (notifynumber l) key right)
| site_rgb key word :
    0 <= key < Z.of_nat (cfg_N_KEYS_EXTENDED cfg) ->
    site l k (vt_rgb (mode l) (-1) key word)
| site_macro :
    rejected cfg k MACRO = false -> site l k (vt_macro (mode l) (notifynumber l))
| site_do_macro c left right :
    c = MACRO \/ c = DPI -> rejected cfg k c = false -> left <> EmptyString ->
    site l k (vt_do_macro c (mode l) (notifynumber l) left right)
| site_tryreset : site l k usb_tryreset
| site_nanosleep ns : 0 < ns < HERTZ_LIM -> site l k (clock_nanosleep ns)
| site_lock : site l k queued_mutex_lock
| site_unlock : site l k queued_mutex_unlock
| site_err word : site l k (ckb_err word)
| site_warn diff : site l k (ckb_warn diff).

(** A log entry under a device invariant [P] and an invariant [L] of the
    locals: made on a device that satisfies [P], at one of the sites. *)
Definition seen (P : usbdevice E -> Prop) (L : locals -> Prop)
  (e : call * usbdevice E) : Prop :=
  P (snd e) /\ exists l k, L l /\ P k /\ site l k (fst e).

(** A piece of [readcmd] keeps the invariants: the device it leaves
    satisfies [P], its result [LA], and what it logged was [seen]. *)
Definition keeps (P : usbdevice E -> Prop) (L : locals -> Prop) {A : Type}
  (LA : A -> Prop) (w : world E) (o : outcome E A) : Prop :=
  match o with
  | Done a w' => P (kb w') /\ LA a /\ grows (seen P L) w w'
  | Return r w' => (r = 0 \/ r = 1) /\ P (kb w') /\ grows (seen P L) w w'
  | OutOfFuel => True
  end.

End Protocol_vocabulary.

(** The key index, the notification channel and the mode a call carries. *)
Definition key_of_call (c : call) : option Z :=
  match c with
  | vt_do_cmd _ _ _ key _ | vt_rgb _ _ key _ => Some key
  | _ => None
  end.

Definition channel_of_call (c : call) : option Z :=
  match c with
  | vt_get _ n _ | vt_reset _ n _ | vt_active _ n | vt_idle _ n
  | vt_do_io _ _ n | vt_fwupdate _ n _ | vt_eraseprofile _ n
  | vt_do_cmd _ _ n _ _ | vt_rgb _ n _ _ | vt_macro _ n
  | vt_do_macro _ _ n _ _ => Some n
  | _ => None
  end.

Definition mode_of_call (c : call) : option nat :=
  match c with
  | vt_get m _ _ | vt_reset m _ _ | vt_active m _ | vt_idle m _
  | vt_do_io _ m _ | vt_fwupdate m _ _ | vt_eraseprofile m _
  | vt_do_cmd _ m _ _ _ | vt_rgb m _ _ _ | vt_macro m _
  | vt_do_macro _ m _ _ _ => Some m
  | vt_setmodeindex m => Some m
  | _ => None
  end.

(** The calls made for the commands that need [FEAT_BIND], and for the one
    that needs [FEAT_NOTIFY]. *)
Definition bind_call (c : call) : bool :=
  match c with
  | vt_do_cmd (BIND | UNBIND | REBIND | MACRO | DELAY) _ _ _ _
  | vt_do_macro MACRO _ _ _ _ | vt_macro _ _ => true
  | _ => false
  end.

Definition notify_call (c : call) : bool :=
  match c with
  | vt_do_cmd NOTIFY _ _ _ _ => true
  | _ => false
  end.

(** A string without the delimiter of [strtok_r]. *)
Fixpoint no_space (s : string) : bool :=
  match s with
  | EmptyString => true
  | String c s' => negb (c =? " ")%char && no_space s'
  end.

(** What [strtok_r] returns: not empty, no space. *)
Definition is_word (s : string) : Prop := s <> EmptyString /\ no_space s = true.

(** No character of [s] satisfies [stop]. *)
Fixpoint none_of (stop : ascii -> bool) (s : string) : bool :=
  match s with
  | EmptyString => true
  | String c s' => negb (stop c) && none_of stop s'
  end.

(** A key name as [%10[^:,]] reads it whole: not empty, at most ten
    characters, neither colon nor comma. *)
Definition key_name (s : string) : Prop :=
  s <> EmptyString /\ (String.length s <= 10)%nat
  /\ none_of is_colon_or_comma s = true.

(** The body of the key loop for one name after the other. *)
Fixpoint each_key {E} (cfg : config E) (l : locals) (names : list string)
  (right : string) : M E unit :=
  match names with
  | [] => ret tt
  | name :: names' =>
      bind (key_command cfg l name right)
           (fun _ => each_key cfg l names' right)
  end.

(** The two calls whose failure ends the line. *)
Definition abort_call (c : call) : bool :=
  match c with
  | usb_tryreset | vt_fwupdate _ _ _ => true
  | _ => false
  end.

(** The last call was a reset or a firmware update, and it failed. *)
Definition failed_last {E} (cfg : config E) (evs : list (call * usbdevice E))
  : Prop :=
  exists pre c k,
    evs = (pre ++ [(c, k)])%list /\ abort_call c = true
    /\ snd (cfg_ext cfg c k) <> 0.

(** How a part of [readcmd] can end: going on, or returning 0, or
    returning 1 right after a failed reset or firmware update. *)
Definition stops {E} (cfg : config E) {A} (w : world E) (o : outcome E A)
  : Prop :=
  match o with
  | Done _ w' => exists evs, log w' = (log w ++ evs)%list
  | Return r w' =>
      r = 0
      \/ (r = 1 /\ exists evs, log w' = (log w ++ evs)%list
                               /\ failed_last cfg evs)
  | OutOfFuel => True
  end.

(** The calls whose status [readcmd] looks at. *)
Definition checked_call (c : call) : bool :=
  match c with
  | vt_active _ _ | vt_idle _ _ | vt_do_io _ _ _ | vt_updatergb _
  | vt_updatedpi _ | vt_pollrate _ | vt_fwupdate _ _ _ => true
  | _ => false
  end.

(** A part of [readcmd] that runs to its end without returning. *)
Definition goes_on {E A} (o : outcome E A) : Prop :=
  match o with
  | Done _ _ => True
  | _ => False
  end.

(** ** A state of the device that restricts the calls *)

Section Phase_vocabulary.

Variable E : Type.
Variable cfg : config E.
(** The state, the calls allowed in it, and how the device may change
    between two calls while it lasts. *)
Variable G : usbdevice E -> Prop.
Variable A : call -> bool.
Variable R : usbdevice E -> usbdevice E -> Prop.

(** The device a logged call left. *)
Definition left_by (e : call * usbdevice E) : usbdevice E :=
  fst (cfg_ext cfg (fst e) (snd e)).

(** An allowed call, made on a device in the state, that leaves it there. *)
Definition keeps_state (e : call * usbdevice E) : Prop :=
  A (fst e) = true /\ G (snd e) /\ G (left_by e).

(** From [k] to [k'] through the calls [evs]: before the first call,
    between two calls and after the last the device changes as [R] allows,
    and at a call as the call changes it. *)
Fixpoint linked (k : usbdevice E) (evs : list (call * usbdevice E))
  (k' : usbdevice E) : Prop :=
  match evs with
  | [] => R k k'
  | e :: evs' => R k (snd e) /\ linked (left_by e) evs' k'
  end.

(** The state lasted from [k] through all of [evs] to [k']. *)
Definition quiet (k : usbdevice E) (evs : list (call * usbdevice E))
  (k' : usbdevice E) : Prop :=
  Forall keeps_state evs /\ linked k evs k' /\ G k'.

(** The state lasted until a call [e], itself allowed and made in the state,
    ended it; what was called after [e] is not restricted. *)
Definition sprung (k : usbdevice E) (evs : list (call * usbdevice E)) : Prop :=
  exists pre e post,
    evs = (pre ++ e :: post)%list /\ Forall keeps_state pre
    /\ linked k pre (snd e) /\ A (fst e) = true /\ G (snd e)
    /\ ~ G (left_by e).

(** A part of [readcmd] begun in the state: the calls it adds to the log
    are of one of the two kinds, and while the state lasts it returns
    nothing but 1. *)
Definition phase {X} (w : world E) (o : outcome E X) : Prop :=
  match o with
  | Done _ w' =>
      exists evs,
        log w' = (log w ++ evs)%list
        /\ (quiet (kb w) evs (kb w') \/ sprung (kb w) evs)
  | Return r w' =>
      exists evs,
        log w' = (log w ++ evs)%list
        /\ (r = 1 /\ quiet (kb w) evs (kb w') \/ sprung (kb w) evs)
  | OutOfFuel => True
  end.

End Phase_vocabulary.

(** A part of [readcmd] only adds to the log. *)
Definition extends {E X} (w : world E) (o : outcome E X) : Prop :=
  match o with
  | Done _ w' | Return _ w' => exists evs, log w' = (log w ++ evs)%list
  | OutOfFuel => True
  end.

(** A device that needs a firmware update. *)
Definition bricked {E} (k : usbdevice E) : Prop := needs_fw_update k = true.

(** No restriction on how the device changes between two calls. *)
Definition any_change {E} (k k' : usbdevice E) : Prop := True.

(** The command pending after [words], when [c] was pending before them. *)
Definition last_command {E} (cfg : config E) (c : cmd) (words : list string)
  : cmd :=
  fold_left (fun c word => match lookup_command cfg word with
                           | Some c' => c'
                           | None => c
                           end) words c.

(** Whether a line that returned [r] ran the [memset] of the debug build:
    it returned 0 and its last command word was [rgb]. *)
Definition scratch_cleared {E} (cfg : config E) (r : Z) (line : string)
  : bool :=
  (r =? 0) && negb (cfg_NDEBUG cfg)
  && match last_command cfg NONE (strtok_words line) with
     | RGB => true
     | _ => false
     end.

(** A word that starts like a selector. *)
Definition selector_like (s : string) : bool :=
  match s with
  | String c _ => (c =? "@")%char
  | EmptyString => false
  end.

(** The commands whose parameter is a list of keys and a value. *)
Definition key_list_command (c : cmd) : bool :=
  match c with
  | RGB | HWANIM | BIND | UNBIND | REBIND | NOTIFY => true
  | _ => false
  end.

(** [a] is the later of two instants. *)
Definition later (a b : timespec) : Prop :=
  tv_sec b < tv_sec a \/ (tv_sec a = tv_sec b /\ tv_nsec b < tv_nsec a).

(** A [timespec] as the clock gives it, within 292 years of the epoch. *)
Definition normalised (a : timespec) : Prop :=
  0 <= tv_sec a <= 9223372034 /\ 0 <= tv_nsec a < 1000000000.

(** ** Concrete devices and collaborators, for the examples *)

(** A build for Linux with six keys; [ndebug] is [NDEBUG], [ext] the
    collaborators and [now] what the monotonic clock shows. *)
Definition test_cfg (E : Type) (ndebug : bool)
  (ext : call -> usbdevice E -> usbdevice E * Z) (now : timespec) : config E :=
  {| cfg_OS_MAC := false; cfg_OS_MAC_LEGACY := false; cfg_NDEBUG := ndebug;
     cfg_OUTFIFO_MAX := 10; cfg_MODE_COUNT := 6; cfg_N_KEYS_EXTENDED := 6;
     cfg_FEAT_BIND := 16; cfg_FEAT_NOTIFY := 32; cfg_FEAT_ADJRATE := 8;
     cfg_FEAT_LMASK := 1536; cfg_FEAT_ANSI := 512; cfg_FEAT_ISO := 1024;
     cfg_FEAT_MOUSEACCEL := 2048;
     cfg_SCROLL_MIN := 1; cfg_SCROLL_MAX := 10; cfg_SCROLL_ACCELERATED := 0;
     cfg_IS_MOUSE_DEV := fun _ => false;
     cfg_IS_FULLRANGE := fun _ => false;
     cfg_pollrate := fun r =>
       match r with
       | POLLRATE_8MS => 0 | POLLRATE_4MS => 1 | POLLRATE_2MS => 2
       | POLLRATE_1MS => 3 | POLLRATE_05MS => 4 | POLLRATE_025MS => 5
       | POLLRATE_01MS => 6
       end;
     cfg_indeterminate := fun _ => 0;
     cfg_clock_gettime := fun _ => now;
     cfg_ext := ext |}.

(** Collaborators that always succeed, and ones that always fail, without
    touching the device. *)
Definition ext_ok (E : Type) (c : call) (k : usbdevice E) : usbdevice E * Z :=
  (k, 0).
Definition ext_fail (E : Type) (c : call) (k : usbdevice E) : usbdevice E * Z :=
  (k, 1).

Definition test_mode : usbmode :=
  {| light_forceupdate := 0; macros_triggered := [1; 0] |}.

(** A keyboard with bindings and notifications, [usbdelay] 5, mode 0
    current; [act] and [brick] are [active] and [needs_fw_update], [leds]
    the debug scratch and [h] the hardware. *)
Definition test_kb (E : Type) (act brick : bool) (leds : list Z) (h : E)
  : usbdevice E :=
  {| features := 16 + 32 + 8 + 512; active := act; needs_fw_update := brick;
     usbdelay := 5; dither := 0; scroll_rate := 0; maxpollrate := 3;
     keymap := [Some "esc"; Some "a"; Some "b"; None; Some "c"; Some "d"];
     last_rgb := {| tv_sec := 100; tv_nsec := 0 |};
     encounteredleds := leds;
     profile := {| currentmode := 0%nat;
                   modes := repeat test_mode 6 |};
     hw := h |}.

(** Collaborators over a counter [hw]: while it is positive every call fails
    and a reset, which succeeds, counts it down. *)
Definition ext_flaky (c : call) (k : usbdevice nat) : usbdevice nat * Z :=
  match hw k with
  | O => (k, 0)
  | S n =>
      match c with
      | usb_tryreset =>
          ({| features := features k; active := active k;
              needs_fw_update := needs_fw_update k; usbdelay := usbdelay k;
              dither := dither k; scroll_rate := scroll_rate k;
              maxpollrate := maxpollrate k; keymap := keymap k;
              last_rgb := last_rgb k; encounteredleds := encounteredleds k;
              profile := profile k; hw := n |}, 0)
      | _ => (k, 1)
      end
  end.

(** A firmware update that fails; everything else succeeds. *)
Definition ext_fwfail (c : call) (k : usbdevice unit) : usbdevice unit * Z :=
  match c with
  | vt_fwupdate _ _ _ => (k, 1)
  | _ => (k, 0)
  end.

Definition at_time (s ns : Z) : timespec := {| tv_sec := s; tv_nsec := ns |}.

(** The usual build: no debug code, collaborators that succeed, the clock
    at 200 s; and the same with the clock 1000 ns after [last_rgb]. *)
Definition cfg_ok : config unit := test_cfg true (@ext_ok unit) (at_time 200 0).
Definition cfg_soon : config unit :=
  test_cfg true (@ext_ok unit) (at_time 100 1000).
(** A debug build. *)
Definition cfg_debug : config unit :=
  test_cfg false (@ext_ok unit) (at_time 200 0).
(** Collaborators that always fail, that fail [hw] times, and a failing
    firmware update. *)
Definition cfg_fail : config unit :=
  test_cfg true (@ext_fail unit) (at_time 200 0).
Definition cfg_flaky : config nat := test_cfg true ext_flaky (at_time 200 0).
Definition cfg_fwfail : config unit := test_cfg true ext_fwfail (at_time 200 0).

(** An active keyboard, an inactive one, and one that needs a firmware
    update and has two marks in its debug scratch. *)
Definition kb_on : usbdevice unit := test_kb true false [] tt.
Definition kb_off : usbdevice unit := test_kb false false [] tt.
Definition kb_brick : usbdevice unit := test_kb true true [1; 1] tt.

(** The device with [active] and [needs_fw_update] as given. *)
Definition with_flags (act brick : bool) (k : usbdevice unit)
  : usbdevice unit :=
  {| features := features k; active := act; needs_fw_update := brick;
     usbdelay := usbdelay k; dither := dither k; scroll_rate := scroll_rate k;
     maxpollrate := maxpollrate k; keymap := keymap k;
     last_rgb := last_rgb k; encounteredleds := encounteredleds k;
     profile := profile k; hw := hw k |}.

(** A firmware update after which the device needs none, and an activation
    that activates; everything succeeds. *)
Definition ext_fwclear (c : call) (k : usbdevice unit) : usbdevice unit * Z :=
  match c with
  | vt_fwupdate _ _ _ => (with_flags (active k) false k, 0)
  | _ => (k, 0)
  end.
Definition ext_wake (c : call) (k : usbdevice unit) : usbdevice unit * Z :=
  match c with
  | vt_active _ _ => (with_flags true (needs_fw_update k) k, 0)
  | _ => (k, 0)
  end.
Definition cfg_fwclear : config unit :=
  test_cfg true ext_fwclear (at_time 200 0).
Definition cfg_wake : config unit := test_cfg true ext_wake (at_time 200 0).

(** The usual build where the first reading of an unwritten [keycode] finds
    4294967295 and every later one 3. *)
Definition cfg_stale : config unit :=
  {| cfg_OS_MAC := cfg_OS_MAC cfg_ok;
     cfg_OS_MAC_LEGACY := cfg_OS_MAC_LEGACY cfg_ok;
     cfg_NDEBUG := cfg_NDEBUG cfg_ok;
     cfg_OUTFIFO_MAX := cfg_OUTFIFO_MAX cfg_ok;
     cfg_MODE_COUNT := cfg_MODE_COUNT cfg_ok;
     cfg_N_KEYS_EXTENDED := cfg_N_KEYS_EXTENDED cfg_ok;
     cfg_FEAT_BIND := cfg_FEAT_BIND cfg_ok;
     cfg_FEAT_NOTIFY := cfg_FEAT_NOTIFY cfg_ok;
     cfg_FEAT_ADJRATE := cfg_FEAT_ADJRATE cfg_ok;
     cfg_FEAT_LMASK := cfg_FEAT_LMASK cfg_ok;
     cfg_FEAT_ANSI := cfg_FEAT_ANSI cfg_ok;
     cfg_FEAT_ISO := cfg_FEAT_ISO cfg_ok;
     cfg_FEAT_MOUSEACCEL := cfg_FEAT_MOUSEACCEL cfg_ok;
     cfg_SCROLL_MIN := cfg_SCROLL_MIN cfg_ok;
     cfg_SCROLL_MAX := cfg_SCROLL_MAX cfg_ok;
     cfg_SCROLL_ACCELERATED := cfg_SCROLL_ACCELERATED cfg_ok;
     cfg_IS_MOUSE_DEV := cfg_IS_MOUSE_DEV cfg_ok;
     cfg_IS_FULLRANGE := cfg_IS_FULLRANGE cfg_ok;
     cfg_pollrate := cfg_pollrate cfg_ok;
     cfg_indeterminate := fun n => match n with
                                   | O => 4294967295
                                   | S _ => 3
                                   end;
     cfg_clock_gettime := cfg_clock_gettime cfg_ok;
     cfg_ext := cfg_ext cfg_ok |}.

(** A legacy macOS build with the same constants and collaborators. *)
Definition cfg_mac : config unit :=
  {| cfg_OS_MAC := true; cfg_OS_MAC_LEGACY := true;
     cfg_NDEBUG := cfg_NDEBUG cfg_ok;
     cfg_OUTFIFO_MAX := cfg_OUTFIFO_MAX cfg_ok;
     cfg_MODE_COUNT := cfg_MODE_COUNT cfg_ok;
     cfg_N_KEYS_EXTENDED := cfg_N_KEYS_EXTENDED cfg_ok;
     cfg_FEAT_BIND := cfg_FEAT_BIND cfg_ok;
     cfg_FEAT_NOTIFY := cfg_FEAT_NOTIFY cfg_ok;
     cfg_FEAT_ADJRATE := cfg_FEAT_ADJRATE cfg_ok;
     cfg_FEAT_LMASK := cfg_FEAT_LMASK cfg_ok;
     cfg_FEAT_ANSI := cfg_FEAT_ANSI cfg_ok;
     cfg_FEAT_ISO := cfg_FEAT_ISO cfg_ok;
     cfg_FEAT_MOUSEACCEL := cfg_FEAT_MOUSEACCEL cfg_ok;
     cfg_SCROLL_MIN := cfg_SCROLL_MIN cfg_ok;
     cfg_SCROLL_MAX := cfg_SCROLL_MAX cfg_ok;
     cfg_SCROLL_ACCELERATED := cfg_SCROLL_ACCELERATED cfg_ok;
     cfg_IS_MOUSE_DEV := cfg_IS_MOUSE_DEV cfg_ok;
     cfg_IS_FULLRANGE := cfg_IS_FULLRANGE cfg_ok;
     cfg_pollrate := cfg_pollrate cfg_ok;
     cfg_indeterminate := cfg_indeterminate cfg_ok;
     cfg_clock_gettime := cfg_clock_gettime cfg_ok;
     cfg_ext := cfg_ext cfg_ok |}.

(** An active keyboard that can adjust its poll rate and has neither
    bindings nor notifications. *)
Definition kb_plain : usbdevice unit := set_features 8 kb_on.

Definition pending (c : cmd) : locals :=
  {| command := c; notifynumber := 0; mode := 0 |}.

Definition calls_of {E} (o : outcome E unit) : list call :=
  match o with
  | Done _ w | Return _ w => calls w
  | OutOfFuel => []
  end.

Unset Implicit Arguments.

(** * Properties *)

(** ** Integer wrap-around and [timespec_diff_ns] *)

Lemma wrap_long_id (z : Z) : LONG_MIN <= z <= LONG_MAX -> wrap_long z = z.
Proof.
  unfold wrap_long, LONG_MIN, LONG_MAX; intros H.
  rewrite Z.mod_small; lia.
Qed.

(** On instants whose seconds fit 32 bits and whose nanoseconds stay below
    2^31 the function returns the true difference. *)
Lemma timespec_diff_ns_exact (a b : timespec) :
  0 <= tv_sec a < 2 ^ 32 -> 0 <= tv_sec b < 2 ^ 32 ->
  0 <= tv_nsec a < 2 ^ 31 -> 0 <= tv_nsec b < 2 ^ 31 ->
  timespec_diff_ns a b = true_diff_ns a b.
Proof.
  intros Ha Hb Hna Hnb.
  unfold timespec_diff_ns, true_diff_ns.
  rewrite (wrap_long_id (tv_sec a - tv_sec b))
    by (unfold LONG_MIN, LONG_MAX; lia).
  rewrite (wrap_long_id (tv_nsec a - tv_nsec b))
    by (unfold LONG_MIN, LONG_MAX; lia).
  set (ds := tv_sec a - tv_sec b). set (dn := tv_nsec a - tv_nsec b).
  assert (Hds : - 2 ^ 32 < ds < 2 ^ 32) by (unfold ds; lia).
  assert (Hdn : - 2 ^ 31 < dn < 2 ^ 31) by (unfold dn; lia).
  assert (Hq : 2 ^ 32 < Z.quot (LONG_MAX - dn) 1000000000).
  { rewrite Z.quot_div_nonneg by (unfold LONG_MAX; lia).
    apply Z.lt_le_trans with (9000000000 * 1000000000 / 1000000000).
    - rewrite Z.div_mul by lia. lia.
    - apply Z.div_le_mono; unfold LONG_MAX; lia. }
  replace (Z.quot (LONG_MAX - dn) 1000000000 <=? ds) with false
    by (symmetry; apply Z.leb_gt; lia).
  rewrite andb_false_r.
  rewrite (wrap_long_id (ds * 1000000000))
    by (unfold LONG_MIN, LONG_MAX; lia).
  rewrite wrap_long_id by (unfold LONG_MIN, LONG_MAX; lia).
  lia.
Qed.

(** With a positive nanosecond part the guard does saturate: whenever the
    true difference exceeds [LONG_MAX] the result is [LONG_MAX]. *)
Lemma timespec_diff_ns_saturates (a b : timespec) :
  LONG_MIN <= tv_sec a - tv_sec b <= LONG_MAX ->
  0 < tv_nsec a - tv_nsec b <= LONG_MAX ->
  LONG_MAX < true_diff_ns a b ->
  timespec_diff_ns a b = LONG_MAX.
Proof.
  intros Hs Hn Hd.
  unfold timespec_diff_ns, true_diff_ns in *.
  rewrite (wrap_long_id (tv_sec a - tv_sec b)) by assumption.
  rewrite (wrap_long_id (tv_nsec a - tv_nsec b))
    by (unfold LONG_MIN, LONG_MAX in *; lia).
  set (ds := tv_sec a - tv_sec b) in *. set (dn := tv_nsec a - tv_nsec b) in *.
  replace (0 <? dn) with true by (symmetry; apply Z.ltb_lt; lia).
  replace (Z.quot (LONG_MAX - dn) 1000000000 <=? ds) with true; [reflexivity|].
  symmetry; apply Z.leb_le.
  rewrite Z.quot_div_nonneg by lia.
  apply Z.lt_succ_r.
  apply Z.div_lt_upper_bound; lia.
Qed.

(** C8 (at the failing input).  The guard is skipped when the nanosecond
    parts do not differ positively: for [a = {9223372037 s, 0 ns}] and
    [b = {0, 0}] the true difference exceeds [LONG_MAX] and the function
    returns the wrapped product, not [LONG_MAX]; for
    [a = {4394217352542426 s, 0 ns}] the wrapped result is 1024, which the
    rate limiter takes to be inside its window. *)
Theorem timespec_diff_ns_wraps :
  LONG_MAX < true_diff_ns (at_time 9223372037 0) (at_time 0 0)
  /\ timespec_diff_ns (at_time 9223372037 0) (at_time 0 0)
     = -9223372036709551616
  /\ LONG_MAX < true_diff_ns (at_time 4394217352542426 0) (at_time 0 0)
  /\ timespec_diff_ns (at_time 4394217352542426 0) (at_time 0 0) = 1024
  /\ (0 <? 1024) && (1024 <? HERTZ_LIM) = true.
Proof. repeat split; vm_compute; reflexivity. Qed.

(** ** The command loop *)

Section Properties.

Variable E : Type.
Variable cfg : config E.

(** A word that starts with [@] is no command word. *)
Lemma find_cmd_at (r : string) : find_cmd cmd_strings (String "@" r) = None.
Proof. reflexivity. Qed.

Lemma lookup_command_at (r : string) : lookup_command cfg (String "@" r) = None.
Proof. unfold lookup_command. rewrite find_cmd_at. reflexivity. Qed.

Lemma sscanf_at_d_at (r : string) : sscanf_at_d (String "@" r) = sscanf_d r.
Proof. reflexivity. Qed.

(** The layers of one round, applied to a world. *)
Lemma gates_eq (fuel : nat) (l : locals) (word : string) (w : world E) :
  gates cfg fuel l word w =
  if rejected cfg (kb w) (command l) || fw_rejected (kb w) (command l)
  then Done l w else dispatch_always cfg fuel l word w.
Proof.
  unfold gates, bind, get_kb.
  destruct (rejected cfg (kb w) (command l) || fw_rejected (kb w) (command l));
    reflexivity.
Qed.

Lemma active_gate_eq (fuel : nat) (l : locals) (word : string) (w : world E) :
  active_gate cfg fuel l word w =
  if active (kb w) then dispatch_active cfg fuel l word w
  else match command l with
       | ACTIVE =>
           bind (TRY_WITH_RESET cfg fuel (vt_active (mode l) (notifynumber l)))
                (fun _ => ret l) w
       | _ => Done l w
       end.
Proof.
  unfold active_gate, bind at 1, get_kb.
  destruct (active (kb w)); [reflexivity|].
  simpl negb. cbv iota. destruct (command l); reflexivity.
Qed.

Lemma invoke_eq (c : call) (w : world E) :
  invoke cfg c w = Done (snd (cfg_ext cfg c (kb w))) (after_call cfg c w).
Proof. reflexivity. Qed.

(** A word that is neither a command nor a selector goes to the gates with
    the pending command. *)
Lemma argument_word (fuel : nat) (l : locals) (arg : string) (w : world E) :
  lookup_command cfg arg = None ->
  (forall m s, sscanf_at_d arg <> Conv m s) ->
  readcmd_word cfg fuel l arg w = gates cfg fuel l arg w.
Proof.
  intros Hl Hs. unfold readcmd_word. rewrite Hl. unfold readcmd_body.
  destruct (sscanf_at_d arg) as [m s| |]; [|reflexivity..].
  exfalso. exact (Hs m s eq_refl).
Qed.

(** A command word is no selector. *)
Lemma sscanf_at_d_verb (word : string) (c : cmd) :
  find_cmd cmd_strings word = Some c -> sscanf_at_d word = NoMatch.
Proof.
  intros H. destruct word as [|a r]; [discriminate|].
  unfold sscanf_at_d, scan_lit.
  destruct (Ascii.eqb a "@") eqn:Ha; [|reflexivity].
  apply Ascii.eqb_eq in Ha. subst a. rewrite find_cmd_at in H. discriminate.
Qed.

(** The selector: a word [@<number>] below [OUTFIFO_MAX] only sets the
    notification number. *)
Lemma selector_word (fuel : nat) (l : locals) (r rest : string) (n : Z)
  (w : world E) :
  sscanf_d r = Conv n rest -> n < cfg_OUTFIFO_MAX cfg ->
  readcmd_word cfg fuel l (String "@" r) w = Done (with_notifynumber n l) w.
Proof.
  intros Hs Hn. unfold readcmd_word. rewrite lookup_command_at.
  unfold readcmd_body. rewrite sscanf_at_d_at, Hs. apply Z.ltb_lt in Hn. rewrite Hn. reflexivity.
Qed.

(** A selector at or above [OUTFIFO_MAX] is treated like any other word. *)
Lemma selector_out_of_range (fuel : nat) (l : locals) (r rest : string) (n : Z)
  (w : world E) :
  sscanf_d r = Conv n rest -> cfg_OUTFIFO_MAX cfg <= n ->
  readcmd_word cfg fuel l (String "@" r) w = gates cfg fuel l (String "@" r) w.
Proof.
  intros Hs Hn. unfold readcmd_word. rewrite lookup_command_at.
  unfold readcmd_body. rewrite sscanf_at_d_at, Hs.
  apply Z.ltb_ge in Hn. rewrite Hn. reflexivity.
Qed.

(** A word that is a command, but not an action, only sets [command]. *)
Lemma verb_word (fuel : nat) (l : locals) (verb : string) (c : cmd)
  (w : world E) :
  lookup_command cfg verb = Some c -> is_action c = false ->
  readcmd_word cfg fuel l verb w = Done (with_command c l) w.
Proof.
  intros Hv Ha. unfold readcmd_word. rewrite Hv, Ha. reflexivity.
Qed.

(** The whole-word commands are not demoted on any platform. *)
Lemma demote_whole_word (c : cmd) : whole_word c = true -> demote cfg c = c.
Proof. unfold demote. destruct (cfg_OS_MAC cfg), c; simpl; congruence. Qed.



(** C5 (at the failing input).  The selector has no lower bound: on the
    line [@-1 get x] the word [@-1] is taken as a selector and [get] is
    called on channel [-1]. *)
Theorem negative_selector_accepted :
  readcmd_word (test_cfg true (@ext_ok unit) (at_time 200 0)) 1
    {| command := NONE; notifynumber := 0; mode := 0 |} "@-1"
    (start (test_kb true false [] tt))
  = Done {| command := NONE; notifynumber := -1; mode := 0 |}
         (start (test_kb true false [] tt))
  /\ calls_of (readcmd (test_cfg true (@ext_ok unit) (at_time 200 0)) 1
                 (test_kb true false [] tt) "@-1 get x")
     = [vt_get 0 (-1) "x"; vt_updatergb 0; vt_updatedpi 0].
Proof. split; vm_compute; reflexivity. Qed.

(** ** Decimal numerals *)

Lemma read_digits_numeral (s : string) :
  forall (acc v : Z) (n : nat),
    numeral_value s acc = Some v ->
    read_digits 10 None s acc n = (v, (n + String.length s)%nat, EmptyString).
Proof.
  induction s as [|c s IH]; intros acc v n H; simpl in *.
  - injection H as <-. rewrite Nat.add_0_r. reflexivity.
  - destruct (digit_val 10 c) as [d|]; [|discriminate].
    rewrite (IH _ _ _ H). rewrite Nat.add_succ_r. reflexivity.
Qed.

Lemma digit_val_char (c : ascii) (d : Z) :
  digit_val 10 c = Some d ->
  isspace c = false /\ (c =? "-")%char = false /\ (c =? "+")%char = false
  /\ (c =? "x")%char = false /\ (c =? "X")%char = false
  /\ (c =? "@")%char = false /\ 0 <= d <= 9
  /\ ((c =? "0")%char = true -> d = 0).
Proof.
  destruct c as [[] [] [] [] [] [] [] []]; intros H;
    try (vm_compute in H; discriminate);
    vm_compute in H; injection H as <-;
    repeat split; try reflexivity; try discriminate.
Qed.

Lemma numeral_value_mono (s : string) :
  forall acc v, 0 <= acc -> numeral_value s acc = Some v -> acc <= v.
Proof.
  induction s as [|c s IH]; intros acc v Ha H; simpl in H.
  - injection H as <-. lia.
  - destruct (digit_val 10 c) as [d|] eqn:Hd; [|discriminate].
    destruct (digit_val_char c d Hd) as (_ & _ & _ & _ & _ & _ & Hr & _).
    assert (Hacc : 0 <= acc * 10 + d) by lia.
    specialize (IH (acc * 10 + d) v Hacc H). lia.
Qed.

(** What the conversions make of a numeral: its value, through [strtol] or
    [strtoul] and the store into an [int] or [unsigned]. *)
Lemma scan_int_numeral (sg : bool) (s : string) (v : Z) :
  numeral s v ->
  scan_int sg 10 None s =
  Conv (if sg then wrap_int (strtol_val false v)
        else wrap_uint (strtoul_val false v)) EmptyString.
Proof.
  intros [Hne H]. destruct s as [|c s]; [congruence|]. clear Hne.
  simpl in H. destruct (digit_val 10 c) as [d|] eqn:Hd; [|discriminate].
  destruct (digit_val_char c d Hd) as (Hsp & Hm & Hp & _ & _ & _ & _ & H0).
  unfold scan_int. simpl skip_space. rewrite Hsp, Hm, Hp.
  destruct (c =? "0")%char eqn:Hz.
  - rewrite (H0 eq_refl) in H. simpl in H. simpl andb. cbv iota.
    assert (Hrd : forall n, read_digits 10 None s 0 n
                            = (v, (n + String.length s)%nat, EmptyString))
      by (intros n; apply read_digits_numeral; exact H).
    destruct s as [|x s'].
    + simpl. simpl in H. injection H as <-. reflexivity.
    + simpl andb. rewrite andb_false_r. cbv iota.
      rewrite Hrd. reflexivity.
  - simpl andb. cbv iota.
    assert (Hrd : read_digits 10 None (String c s) 0 0
                  = (v, (0 + String.length (String c s))%nat, EmptyString)).
    { apply read_digits_numeral. simpl. rewrite Hd. exact H. }
    rewrite Hrd. reflexivity.
Qed.

(** [%u] reads a numeral up to [UINT_MAX], and [%d] one up to [INT_MAX], as
    its value. *)
Lemma sscanf_u_numeral (s : string) (v : Z) :
  numeral s v -> v <= UINT_MAX -> sscanf_u s = Conv v EmptyString.
Proof.
  intros Hn Hv. unfold sscanf_u. rewrite (scan_int_numeral false s v Hn).
  assert (0 <= v).
  { destruct Hn as [_ H]. apply (numeral_value_mono s 0 v); [lia|exact H]. }
  unfold strtoul_val, wrap_uint, ULONG_MAX, UINT_MAX in *.
  replace (18446744073709551615 <? v) with false
    by (symmetry; apply Z.ltb_ge; lia).
  rewrite Z.mod_small by lia. reflexivity.
Qed.

Lemma sscanf_d_numeral (s : string) (v : Z) :
  numeral s v -> v <= 2147483647 -> sscanf_d s = Conv v EmptyString.
Proof.
  intros Hn Hv. unfold sscanf_d. rewrite (scan_int_numeral true s v Hn).
  assert (0 <= v).
  { destruct Hn as [_ H]. apply (numeral_value_mono s 0 v); [lia|exact H]. }
  unfold strtol_val, wrap_int, LONG_MAX.
  rewrite Z.min_l by lia.
  rewrite Z.mod_small by lia. f_equal. lia.
Qed.

(** A selector [@<numeral>]: the channel becomes the value of the numeral
    exactly when that is below [OUTFIFO_MAX]. *)
Lemma selector_numeral (fuel : nat) (l : locals) (s : string) (n : Z)
  (w : world E) :
  numeral s n -> n <= 2147483647 ->
  readcmd_word cfg fuel l (String "@" s) w =
  if n <? cfg_OUTFIFO_MAX cfg then Done (with_notifynumber n l) w
  else gates cfg fuel l (String "@" s) w.
Proof.
  intros Hn Hv. pose proof (sscanf_d_numeral s n Hn Hv) as Hs.
  destruct (n <? cfg_OUTFIFO_MAX cfg) eqn:Hlt.
  - apply Z.ltb_lt in Hlt. exact (selector_word fuel l s _ n w Hs Hlt).
  - apply Z.ltb_ge in Hlt. exact (selector_out_of_range fuel l s _ n w Hs Hlt).
Qed.

(** A word that [%u] or [%d] converts is neither a command word nor a
    selector. *)
Lemma numeric_not_verb (sg : bool) (word rest : string) (v : Z) :
  scan_int sg 10 None word = Conv v rest ->
  find_cmd cmd_strings word = None.
Proof.
  destruct word as [|c s]; [discriminate|].
  intros H.
  destruct c as [[] [] [] [] [] [] [] []];
    try reflexivity; cbn in H; discriminate.
Qed.

Lemma numeric_not_selector (sg : bool) (word rest : string) (v : Z) :
  scan_int sg 10 None word = Conv v rest ->
  forall m s, sscanf_at_d word <> Conv m s.
Proof.
  intros H m s. destruct word as [|c r]; [discriminate|].
  unfold sscanf_at_d, scan_lit.
  destruct (Ascii.eqb c "@") eqn:Hc; [|discriminate].
  apply Ascii.eqb_eq in Hc. subst c. cbn in H. discriminate.
Qed.

Lemma clamp_code (d : Z) :
  (if d <? 2 then 2 else if d >? 10 then 10 else d) = clamp d 2 10.
Proof.
  unfold clamp. destruct (d <? 2) eqn:H1; [apply Z.ltb_lt in H1; lia|].
  apply Z.ltb_ge in H1.
  destruct (d >? 10) eqn:H2; [apply Z.gtb_lt in H2; lia|].
  rewrite Z.gtb_ltb in H2. apply Z.ltb_ge in H2. lia.
Qed.

Lemma clamp_range (d : Z) : 2 <= clamp d 2 10 <= 10.
Proof. unfold clamp. lia. Qed.

(** The [FPS] case of the first switch. *)
Lemma dispatch_fps (fuel : nat) (l : locals) (word : string) (w : world E) :
  command l = FPS ->
  dispatch_always cfg fuel l word w =
  match sscanf_u word with
  | Conv framerate _ =>
      if framerate >? 0 then
        Done l {| kb := set_usbdelay
                          (clamp (1000 / framerate / per_frame cfg (kb w)) 2 10)
                          (kb w);
                  log := log w; reads := reads w |}
      else Done l w
  | _ => Done l w
  end.
Proof.
  intros Hc. unfold dispatch_always. rewrite Hc.
  destruct (sscanf_u word) as [f s| |]; [|reflexivity..].
  destruct (f >? 0); [|reflexivity].
  unfold bind, get_kb, modify, ret. rewrite clamp_code. reflexivity.
Qed.

Lemma gates_fps (fuel : nat) (l : locals) (word : string) (w : world E) :
  command l = FPS -> needs_fw_update (kb w) = false ->
  gates cfg fuel l word w = dispatch_always cfg fuel l word w.
Proof.
  intros Hc Hf. rewrite gates_eq. unfold fw_rejected. rewrite Hc, Hf.
  reflexivity.
Qed.

(** [FPS] with a numeral [F], [0 < F <= UINT_MAX], as its argument. *)
Lemma fps_numeral (fuel : nat) (l : locals) (s : string) (F : Z) (w : world E) :
  command l = FPS -> needs_fw_update (kb w) = false ->
  numeral s F -> 0 < F <= UINT_MAX ->
  readcmd_word cfg fuel l s w =
  Done l {| kb := set_usbdelay (clamp (1000 / F / per_frame cfg (kb w)) 2 10)
                               (kb w);
            log := log w; reads := reads w |}.
Proof.
  intros Hc Hf Hn [H0 Hmax]. pose proof (sscanf_u_numeral s F Hn Hmax) as Hs.
  rewrite argument_word.
  - rewrite (gates_fps fuel l s w Hc Hf), (dispatch_fps fuel l s w Hc), Hs.
    apply Z.gtb_lt in H0. rewrite H0. reflexivity.
  - unfold lookup_command. unfold sscanf_u in Hs.
    rewrite (numeric_not_verb _ _ _ _ Hs). reflexivity.
  - exact (numeric_not_selector _ _ _ _ Hs).
Qed.

(** C9 (as the code has it).  With [FPS] pending on a device that needs no
    firmware update, the argument is read by [%u]: a decimal numeral that
    denotes [v] is read as [v] when [v <= UINT_MAX], and otherwise as what
    [strtoul] makes of it reduced modulo 2^32.  An argument read as [F > 0]
    leaves [usbdelay] at [clamp(1000 / F / per_frame, 2, 10)], with
    [per_frame] 2 for a mouse, 14 for a full-range keyboard and 5 otherwise,
    and changes nothing else; one read as 0 changes nothing; and whatever
    word follows that is not itself a command, [usbdelay] stays within
    [2, 10] if it was, and nothing is called. *)
Theorem fps_sets_usbdelay
  (fuel : nat) (l : locals) (word rest word' : string) (F : Z) (w : world E) :
  command l = FPS -> needs_fw_update (kb w) = false ->
  sscanf_u word = Conv F rest ->
  (forall v, numeral word v ->
             F = wrap_uint (strtoul_val false v) /\ (v <= UINT_MAX -> F = v))
  /\ (0 < F ->
      exists w',
        readcmd_word cfg fuel l word w = Done l w'
        /\ usbdelay (kb w') = clamp (1000 / F / per_frame cfg (kb w)) 2 10
        /\ kb w' = set_usbdelay (usbdelay (kb w')) (kb w)
        /\ log w' = log w)
  /\ (F = 0 -> readcmd_word cfg fuel l word w = Done l w)
  /\ (per_frame cfg (kb w) =
      if cfg_IS_MOUSE_DEV cfg (kb w) then 2
      else if cfg_IS_FULLRANGE cfg (kb w) then 14 else 5)
  /\ (lookup_command cfg word' = None -> 2 <= usbdelay (kb w) <= 10 ->
      exists l' w',
        readcmd_word cfg fuel l word' w = Done l' w'
        /\ log w' = log w /\ 2 <= usbdelay (kb w') <= 10).
Proof.
  intros Hc Hf Hs.
  assert (Hw : readcmd_word cfg fuel l word w =
               dispatch_always cfg fuel l word w).
  { rewrite argument_word.
    - apply gates_fps; assumption.
    - unfold lookup_command. unfold sscanf_u in Hs.
      rewrite (numeric_not_verb _ _ _ _ Hs). reflexivity.
    - exact (numeric_not_selector _ _ _ _ Hs). }
  split.
  { intros v Hn. pose proof (scan_int_numeral false word v Hn) as Hv.
    unfold sscanf_u in Hs. rewrite Hs in Hv. injection Hv as HF _.
    split; [exact HF|]. intros Hmax.
    pose proof (sscanf_u_numeral word v Hn Hmax) as Hu.
    unfold sscanf_u in Hu. rewrite Hs in Hu. injection Hu as Hu _. exact Hu. }
  rewrite Hw, (dispatch_fps fuel l word w Hc), Hs.
  split; [|split; [|split; [reflexivity|]]].
  - intros HF. apply Z.gtb_lt in HF. rewrite HF. eexists.
    split; [reflexivity|]. split; [reflexivity|].
    split; reflexivity.
  - intros HF. subst F. reflexivity.
  - intros Hl Hd. unfold readcmd_word. rewrite Hl. unfold readcmd_body.
    assert (Hg : exists l' w',
               gates cfg fuel l word' w = Done l' w'
               /\ log w' = log w /\ 2 <= usbdelay (kb w') <= 10).
    { rewrite (gates_fps fuel l word' w Hc Hf), (dispatch_fps fuel l word' w Hc).
      destruct (sscanf_u word') as [f s| |];
        [destruct (f >? 0)|..]; eexists; eexists;
        (split; [reflexivity|]); (split; [reflexivity|]);
        try exact Hd.
      simpl. apply clamp_range. }
    destruct (sscanf_at_d word') as [m s| |]; try exact Hg.
    destruct (m <? cfg_OUTFIFO_MAX cfg); [|exact Hg].
    eexists; eexists. split; [reflexivity|]. split; [reflexivity|exact Hd].
Qed.

(** ** The hex colour of [RGB] *)

Lemma lower_hex_char (a : ascii) :
  lower_hex a = true ->
  isspace a = false /\ (a =? "-")%char = false /\ (a =? "+")%char = false
  /\ (a =? "x")%char = false /\ (a =? "X")%char = false
  /\ exists d, digit_val 16 a = Some d.
Proof.
  destruct a as [[] [] [] [] [] [] [] []]; intros H;
    try (vm_compute in H; discriminate);
    vm_compute; repeat split; eexists; reflexivity.
Qed.

Lemma read_digits_width0 (base : Z) (s : string) (acc : Z) (n : nat) :
  read_digits base (Some 0%nat) s acc n = (acc, n, s).
Proof. destruct s; reflexivity. Qed.

(** [%02x] on two hex digits converts and consumes exactly the two. *)
Lemma scan_hex_pair (a b : ascii) (s : string) :
  lower_hex a = true -> lower_hex b = true ->
  exists v, scan_int false 16 (Some 2%nat) (String a (String b s)) = Conv v s.
Proof.
  intros Ha Hb.
  destruct (lower_hex_char a Ha) as (Hsp & Hm & Hp & _ & _ & da & Hda).
  destruct (lower_hex_char b Hb) as (_ & _ & _ & Hx & HX & db & Hdb).
  unfold scan_int. simpl skip_space. rewrite Hsp, Hm, Hp.
  destruct (a =? "0")%char eqn:H0.
  - simpl. rewrite Hx, HX. simpl. rewrite Hdb. simpl.
    rewrite read_digits_width0. eexists. reflexivity.
  - simpl. rewrite Hda. simpl. rewrite Hdb. simpl.
    rewrite read_digits_width0. eexists. reflexivity.
Qed.

(** Six lowercase hex digits convert three fields, whatever follows them. *)
Lemma sscanf_rgb_six (a b c d e f : ascii) (tail : string) :
  lower_hex a = true -> lower_hex b = true -> lower_hex c = true ->
  lower_hex d = true -> lower_hex e = true -> lower_hex f = true ->
  sscanf_rgb
    (String a (String b (String c (String d (String e (String f tail))))))
  = 3.
Proof.
  intros Ha Hb Hc Hd He Hf. unfold sscanf_rgb.
  destruct (scan_hex_pair a b
              (String c (String d (String e (String f tail)))) Ha Hb)
    as [v1 H1].
  destruct (scan_hex_pair c d (String e (String f tail)) Hc Hd) as [v2 H2].
  destruct (scan_hex_pair e f tail He Hf) as [v3 H3].
  rewrite H1, H2, H3. reflexivity.
Qed.

Lemma six_lower_hex_matches (word : string) :
  six_lower_hex word = true -> sscanf_rgb word = 3.
Proof.
  destruct word as [|a [|b [|c [|d [|e [|f [|g t]]]]]]]; try discriminate.
  simpl. intros H.
  repeat (apply andb_prop in H; destruct H as [H ?]).
  apply sscanf_rgb_six; assumption.
Qed.

(** The broadcast loop calls [f 0], ..., [f (N-1)] in this order. *)
Lemma for_keys_done (f : Z -> call) (n i : nat) (w : world E) :
  exists w',
    for_keys cfg f i n w = Done tt w'
    /\ calls w' = (calls w ++ map (fun j => f (Z.of_nat j)) (seq i n))%list.
Proof.
  revert i w. induction n as [|n IH]; intros i w.
  - exists w. split; [reflexivity|]. simpl. rewrite app_nil_r. reflexivity.
  - simpl for_keys. unfold bind at 1. rewrite invoke_eq.
    destruct (IH (S i) (after_call cfg (f (Z.of_nat i)) w)) as (w' & Hw & Hc).
    exists w'. split; [exact Hw|]. rewrite Hc.
    unfold calls, after_call. simpl. rewrite map_app, <- app_assoc.
    reflexivity.
Qed.

(** C1 (as the code has it).  With [RGB] pending on an active device the
    dispatcher broadcasts exactly when [sscanf(word, "%02x%02x%02x")]
    converts three fields: then [vtable.rgb] is called once for every key
    index below [N_KEYS_EXTENDED], in order, on channel [-1] with the word,
    and nothing else is called; otherwise the word goes to the split at the
    colon.  Six lowercase hex digits do convert three fields, and so do six
    of them followed by anything and the five-digit word [abcde]; [abcd]
    does not. *)
Theorem rgb_broadcast (fuel : nat) (l : locals) (word : string) (w : world E) :
  command l = RGB -> active (kb w) = true ->
  (sscanf_rgb word = 3 ->
   exists w',
     dispatch_always cfg fuel l word w = Done l w'
     /\ calls w' = (calls w
                    ++ map (fun i => vt_rgb (mode l) (-1) (Z.of_nat i) word)
                           (seq 0 (cfg_N_KEYS_EXTENDED cfg)))%list)
  /\ (sscanf_rgb word <> 3 ->
      dispatch_always cfg fuel l word w = colon_split cfg l word w)
  /\ (six_lower_hex word = true -> sscanf_rgb word = 3)
  /\ sscanf_rgb "abcdef" = 3 /\ sscanf_rgb "abcdefg" = 3
  /\ sscanf_rgb "abcde" = 3 /\ sscanf_rgb "abcd" = 2.
Proof.
  intros Hc Ha.
  assert (Hd : dispatch_always cfg fuel l word w =
               if sscanf_rgb word =? 3
               then bind (for_keys cfg (fun i => vt_rgb (mode l) (-1) i word) 0
                            (cfg_N_KEYS_EXTENDED cfg)) (fun _ => ret l) w
               else colon_split cfg l word w).
  { unfold dispatch_always. rewrite Hc. rewrite active_gate_eq, Ha.
    unfold dispatch_active. rewrite Hc.
    destruct (sscanf_rgb word =? 3); reflexivity. }
  rewrite Hd. repeat split; try reflexivity.
  - intros H3. rewrite H3. simpl Z.eqb. cbv iota.
    destruct (for_keys_done (fun i => vt_rgb (mode l) (-1) i word)
                (cfg_N_KEYS_EXTENDED cfg) 0 w) as (w' & Hw & Hcalls).
    exists w'. unfold bind. rewrite Hw. split; [reflexivity|exact Hcalls].
  - intros H3. apply Z.eqb_neq in H3. rewrite H3. reflexivity.
  - apply six_lower_hex_matches.
Qed.

(** ** The retry harness *)

Lemma TRY_WITH_RESET_eq (fuel : nat) (a : call) (w : world E) :
  TRY_WITH_RESET cfg (S fuel) a w =
  if snd (cfg_ext cfg a (kb w)) =? 0 then Done tt (after_call cfg a w)
  else if snd (cfg_ext cfg usb_tryreset (kb (after_call cfg a w))) =? 0
       then TRY_WITH_RESET cfg fuel a
              (after_call cfg usb_tryreset (after_call cfg a w))
       else Return 1 (after_call cfg usb_tryreset (after_call cfg a w)).
Proof.
  simpl TRY_WITH_RESET. unfold bind at 1. rewrite invoke_eq.
  destruct (snd (cfg_ext cfg a (kb w)) =? 0); [reflexivity|].
  unfold bind at 1. rewrite invoke_eq.
  destruct (snd (cfg_ext cfg usb_tryreset (kb (after_call cfg a w))) =? 0);
    reflexivity.
Qed.

(** Whatever the loop ends with, it ends as the retry policy says. *)
Lemma TRY_WITH_RESET_sound (fuel : nat) (a : call) :
  forall (w : world E) (o : outcome E unit),
    TRY_WITH_RESET cfg fuel a w = o -> o <> OutOfFuel -> retries cfg a w o.
Proof.
  induction fuel as [|fuel IH]; intros w o Ho Hne.
  - simpl in Ho. congruence.
  - rewrite TRY_WITH_RESET_eq in Ho.
    destruct (snd (cfg_ext cfg a (kb w)) =? 0) eqn:Ha.
    + subst o. apply retries_ok. apply Z.eqb_eq. exact Ha.
    + apply Z.eqb_neq in Ha.
      destruct (snd (cfg_ext cfg usb_tryreset (kb (after_call cfg a w))) =? 0)
        eqn:Hr.
      * apply Z.eqb_eq in Hr. apply retries_again; auto.
      * apply Z.eqb_neq in Hr. subst o. apply retries_abort; auto.
Qed.

(** Every run the retry policy allows is what the loop does, given fuel. *)
Lemma TRY_WITH_RESET_complete (a : call) (w : world E) (o : outcome E unit) :
  retries cfg a w o ->
  exists n, forall fuel, (n <= fuel)%nat -> TRY_WITH_RESET cfg fuel a w = o.
Proof.
  induction 1 as [w Ha|w Ha Hr|w o Ha Hr _ [n IH]].
  - exists 1%nat. intros [|fuel] Hf; [lia|].
    rewrite TRY_WITH_RESET_eq. apply Z.eqb_eq in Ha. rewrite Ha. reflexivity.
  - exists 1%nat. intros [|fuel] Hf; [lia|].
    rewrite TRY_WITH_RESET_eq.
    apply Z.eqb_neq in Ha. apply Z.eqb_neq in Hr. rewrite Ha, Hr. reflexivity.
  - exists (S n). intros [|fuel] Hf; [lia|].
    rewrite TRY_WITH_RESET_eq.
    apply Z.eqb_neq in Ha. apply Z.eqb_eq in Hr. rewrite Ha, Hr.
    apply IH. lia.
Qed.

(** [FWUPDATE] passes both rejections whatever the device. *)
Lemma gates_fwupdate (fuel : nat) (l : locals) (word : string) (w : world E) :
  command l = FWUPDATE -> active (kb w) = true ->
  gates cfg fuel l word w =
  if snd (cfg_ext cfg (vt_fwupdate (mode l) (notifynumber l) word) (kb w)) =? 0
  then Done l (after_call cfg
                 (vt_fwupdate (mode l) (notifynumber l) word) w)
  else Return 1 (after_call cfg
                   (vt_fwupdate (mode l) (notifynumber l) word) w).
Proof.
  intros Hc Ha. rewrite gates_eq. unfold fw_rejected. rewrite Hc.
  rewrite andb_false_r. simpl orb. cbv iota.
  unfold dispatch_always. rewrite Hc. rewrite active_gate_eq, Ha.
  unfold dispatch_active. rewrite Hc.
  unfold bind. rewrite invoke_eq.
  destruct (snd (cfg_ext cfg (vt_fwupdate (mode l) (notifynumber l) word)
                   (kb w)) =? 0); reflexivity.
Qed.

Lemma dispatch_hwio (fuel : nat) (l : locals) (word : string) (w : world E) :
  command l = HWLOAD \/ command l = HWSAVE -> active (kb w) = true ->
  dispatch_always cfg fuel l word w =
  bind (TRY_WITH_RESET cfg fuel
          (vt_do_io (command l) (mode l) (notifynumber l)))
    (fun _ => bind (TRY_WITH_RESET cfg fuel (vt_updatergb 1))
       (fun _ => bind (modify (set_usbdelay (usbdelay (kb w))))
          (fun _ => ret l))) (raise_usbdelay w).
Proof.
  intros Hc Ha. unfold dispatch_always, raise_usbdelay.
  destruct Hc as [Hc|Hc]; rewrite Hc; rewrite active_gate_eq, Ha;
    unfold dispatch_active; rewrite Hc;
    unfold bind at 1, get_kb; unfold bind at 1;
    destruct (usbdelay (kb w) <? 10); reflexivity.
Qed.

Lemma grows_refl (P : call * usbdevice E -> Prop) (w : world E) : grows P w w.
Proof. exists []. rewrite app_nil_r. split; [reflexivity|constructor]. Qed.

Lemma grows_trans (P : call * usbdevice E -> Prop) (w1 w2 w3 : world E) :
  grows P w1 w2 -> grows P w2 w3 -> grows P w1 w3.
Proof.
  intros (e1 & H1 & F1) (e2 & H2 & F2). exists (e1 ++ e2)%list.
  split; [rewrite H2, H1, app_assoc; reflexivity|].
  apply Forall_app; split; assumption.
Qed.

Lemma grows_call (P : call * usbdevice E -> Prop) (c : call) (w : world E) :
  P (c, kb w) -> grows P w (after_call cfg c w).
Proof.
  intros H. exists [(c, kb w)]. split; [reflexivity|].
  constructor; [exact H|constructor].
Qed.

Lemma grows_weaken (P Q : call * usbdevice E -> Prop) (w w' : world E) :
  (forall e, P e -> Q e) -> grows P w w' -> grows Q w w'.
Proof.
  intros H (evs & Hl & HF). exists evs. split; [exact Hl|].
  eapply Forall_impl; [exact H|exact HF].
Qed.

(** The harness keeps a device invariant that the call and the reset keep,
    and logs nothing but the call and resets, each made on a device that
    satisfies the invariant. *)
Lemma TRY_WITH_RESET_inv (P : usbdevice E -> Prop) (a : call) :
  (forall k, P k -> P (fst (cfg_ext cfg a k))) ->
  (forall k, P k -> P (fst (cfg_ext cfg usb_tryreset k))) ->
  forall (fuel : nat) (w : world E),
    P (kb w) ->
    match TRY_WITH_RESET cfg fuel a w with
    | Done _ w' =>
        P (kb w')
        /\ grows (fun e => (fst e = a \/ fst e = usb_tryreset) /\ P (snd e)) w w'
    | Return r w' =>
        r = 1 /\ P (kb w')
        /\ grows (fun e => (fst e = a \/ fst e = usb_tryreset) /\ P (snd e)) w w'
    | OutOfFuel => True
    end.
Proof.
  intros Ha Hr. induction fuel as [|fuel IH]; intros w Hw; [exact I|].
  rewrite TRY_WITH_RESET_eq.
  set (Q := fun e : call * usbdevice E =>
              (fst e = a \/ fst e = usb_tryreset) /\ P (snd e)).
  assert (G1 : grows Q w (after_call cfg a w)).
  { apply grows_call. split; [left; reflexivity|exact Hw]. }
  assert (P1 : P (kb (after_call cfg a w))) by (apply Ha; exact Hw).
  destruct (snd (cfg_ext cfg a (kb w)) =? 0); [split; assumption|].
  assert (G2 : grows Q w (after_call cfg usb_tryreset (after_call cfg a w))).
  { eapply grows_trans; [exact G1|]. apply grows_call.
    split; [right; reflexivity|exact P1]. }
  assert (P2 : P (kb (after_call cfg usb_tryreset (after_call cfg a w))))
    by (apply Hr; exact P1).
  destruct (snd (cfg_ext cfg usb_tryreset (kb (after_call cfg a w))) =? 0).
  - specialize (IH _ P2).
    destruct (TRY_WITH_RESET cfg fuel a
                (after_call cfg usb_tryreset (after_call cfg a w)))
      as [u w'|r w'|]; [| |exact I].
    + destruct IH as (Pw & G). split; [exact Pw|].
      eapply grows_trans; [exact G2|exact G].
    + destruct IH as (Hr1 & Pw & G). repeat split; try assumption.
      eapply grows_trans; [exact G2|exact G].
  - repeat split; assumption.
Qed.

(** "Finish up" on a device that needs no firmware update. *)
Lemma finish_eq (fuel : nat) (l : locals) (w : world E) :
  needs_fw_update (kb w) = false ->
  finish cfg fuel l w =
  bind (match command l with RGB => rgb_ratelimit cfg | _ => ret tt end)
    (fun _ => bind (TRY_WITH_RESET cfg fuel (vt_updatergb 0))
       (fun _ => bind (TRY_WITH_RESET cfg fuel (vt_updatedpi 0))
          (fun _ => bind (if cfg_NDEBUG cfg then ret tt
                          else match command l with
                               | RGB => modify clear_leds
                               | _ => ret tt
                               end)
             (fun _ => return_ 0)))) w.
Proof.
  intros Hf. unfold finish. unfold bind at 1, get_kb. rewrite Hf.
  simpl negb. cbv iota. unfold bind.
  destruct (match command l with RGB => rgb_ratelimit cfg | _ => ret tt end w)
    as [u w0|r w0|]; try reflexivity.
  destruct (TRY_WITH_RESET cfg fuel (vt_updatergb 0) w0) as [u1 w1|r w1|];
    try reflexivity.
Qed.

(** C4.  The harness is the retry policy: whatever [TRY_WITH_RESET] ends
    with is a run in which the call is repeated while it returns non-zero
    with one successful reset before every repetition, ending with the first
    zero or, with 1, at the first failed reset; and every such run is what
    the loop does.  [IDLE], [ACTIVE], [HWLOAD]/[HWSAVE] (then
    [updatergb(1)]), [POLLRATE] and the [updatergb(0)]/[updatedpi(0)] of the
    flush go through it, and a round that returns leaves the whole function
    with that value.  [FWUPDATE] does not go through it: [vtable.fwupdate]
    is called once; if it returns non-zero the line returns 1 with that
    call as the last thing done, and no flush. *)
Theorem retry_with_reset_harness
  (fuel : nat) (l : locals) (word : string) (rate : pollrate_t)
  (words : list string) (w : world E) :
  (forall a o, TRY_WITH_RESET cfg fuel a w = o -> o <> OutOfFuel ->
               retries cfg a w o)
  /\ (forall a o, retries cfg a w o ->
                  exists n, forall fuel', (n <= fuel')%nat ->
                                          TRY_WITH_RESET cfg fuel' a w = o)
  /\ (command l = IDLE -> active (kb w) = true ->
      dispatch_always cfg fuel l word w =
      bind (TRY_WITH_RESET cfg fuel (vt_idle (mode l) (notifynumber l)))
           (fun _ => ret l) w)
  /\ (command l = ACTIVE -> active (kb w) = false ->
      dispatch_always cfg fuel l word w =
      bind (TRY_WITH_RESET cfg fuel (vt_active (mode l) (notifynumber l)))
           (fun _ => ret l) w)
  /\ (command l = HWLOAD \/ command l = HWSAVE -> active (kb w) = true ->
      dispatch_always cfg fuel l word w =
      bind (TRY_WITH_RESET cfg fuel
              (vt_do_io (command l) (mode l) (notifynumber l)))
        (fun _ => bind (TRY_WITH_RESET cfg fuel (vt_updatergb 1))
           (fun _ => bind (modify (set_usbdelay (usbdelay (kb w))))
              (fun _ => ret l))) (raise_usbdelay w))
  /\ (command l = POLLRATE -> active (kb w) = true ->
      HAS_FEATURES (kb w) (cfg_FEAT_ADJRATE cfg) = true ->
      pollrate_of_word word = Some rate ->
      cfg_pollrate cfg rate <= maxpollrate (kb w) ->
      dispatch_always cfg fuel l word w =
      bind (TRY_WITH_RESET cfg fuel (vt_pollrate rate)) (fun _ => ret l) w)
  /\ (needs_fw_update (kb w) = false ->
      finish cfg fuel l w =
      bind (match command l with RGB => rgb_ratelimit cfg | _ => ret tt end)
        (fun _ => bind (TRY_WITH_RESET cfg fuel (vt_updatergb 0))
           (fun _ => bind (TRY_WITH_RESET cfg fuel (vt_updatedpi 0))
              (fun _ => bind (if cfg_NDEBUG cfg then ret tt
                              else match command l with
                                   | RGB => modify clear_leds
                                   | _ => ret tt
                                   end)
                 (fun _ => return_ 0)))) w)
  /\ (command l = FWUPDATE -> active (kb w) = true ->
      lookup_command cfg word = None ->
      (forall m s, sscanf_at_d word <> Conv m s) ->
      let fw := vt_fwupdate (mode l) (notifynumber l) word in
      (snd (cfg_ext cfg fw (kb w)) = 0 ->
       readcmd_word cfg fuel l word w = Done l (after_call cfg fw w))
      /\ (snd (cfg_ext cfg fw (kb w)) <> 0 ->
          bind (read_words cfg fuel l (word :: words)) (finish cfg fuel) w
          = Return 1 (after_call cfg fw w)))
  /\ (forall r w', readcmd_word cfg fuel l word w = Return r w' ->
                   bind (read_words cfg fuel l (word :: words))
                        (finish cfg fuel) w = Return r w').
Proof.
  split; [intros a o; apply TRY_WITH_RESET_sound|].
  split; [intros a o; apply TRY_WITH_RESET_complete|].
  split.
  { intros Hc Ha. unfold dispatch_always. rewrite Hc.
    rewrite active_gate_eq, Ha. unfold dispatch_active. rewrite Hc.
    reflexivity. }
  split.
  { intros Hc Ha. unfold dispatch_always. rewrite Hc.
    rewrite active_gate_eq, Ha, Hc. reflexivity. }
  split; [apply dispatch_hwio|].
  split.
  { intros Hc Ha Hf Hp Hr. unfold dispatch_always. rewrite Hc.
    rewrite active_gate_eq, Ha. unfold dispatch_active. rewrite Hc.
    unfold bind at 1, get_kb. rewrite Hf, Hp.
    replace (cfg_pollrate cfg rate >? maxpollrate (kb w)) with false;
      [reflexivity|].
    symmetry. rewrite Z.gtb_ltb. apply Z.ltb_ge. exact Hr. }
  split.
  { intros Hf. apply finish_eq. exact Hf. }
  split.
  - intros Hc Ha Hl Hs fw.
    assert (Hw : readcmd_word cfg fuel l word w =
                 if snd (cfg_ext cfg fw (kb w)) =? 0
                 then Done l (after_call cfg fw w)
                 else Return 1 (after_call cfg fw w)).
    { rewrite argument_word by assumption. apply gates_fwupdate; assumption. }
    split; intros Hr.
    + rewrite Hw. apply Z.eqb_eq in Hr. rewrite Hr. reflexivity.
    + unfold bind at 1. simpl read_words. unfold bind at 1. rewrite Hw.
      apply Z.eqb_neq in Hr. rewrite Hr. reflexivity.
  - intros r w' Hr. unfold bind at 1. simpl read_words. unfold bind at 1.
    rewrite Hr. reflexivity.
Qed.

(** ** [HWLOAD] and [HWSAVE] *)

Lemma raise_usbdelay_log (w : world E) : log (raise_usbdelay w) = log w.
Proof. unfold raise_usbdelay. destruct (usbdelay (kb w) <? 10); reflexivity. Qed.

Lemma raise_usbdelay_max (w : world E) :
  usbdelay (kb (raise_usbdelay w)) = Z.max (usbdelay (kb w)) 10.
Proof.
  unfold raise_usbdelay. destruct (usbdelay (kb w) <? 10) eqn:H.
  - apply Z.ltb_lt in H. simpl. lia.
  - apply Z.ltb_ge in H. lia.
Qed.

(** Whatever the harness ends with, its first call was made on the device
    it started from. *)
Lemma TRY_WITH_RESET_first (fuel : nat) (a : call) (w : world E) :
  match TRY_WITH_RESET cfg fuel a w with
  | Done _ w' | Return _ w' =>
      exists evs, log w' = (log w ++ (a, kb w) :: evs)%list
  | OutOfFuel => True
  end.
Proof.
  destruct fuel as [|fuel]; [exact I|].
  rewrite TRY_WITH_RESET_eq.
  destruct (snd (cfg_ext cfg a (kb w)) =? 0); [exists []; reflexivity|].
  destruct (snd (cfg_ext cfg usb_tryreset (kb (after_call cfg a w))) =? 0).
  - pose proof (TRY_WITH_RESET_inv (fun _ => True) a
                  (fun _ _ => I) (fun _ _ => I) fuel
                  (after_call cfg usb_tryreset (after_call cfg a w)) I) as H.
    destruct (TRY_WITH_RESET cfg fuel a
                (after_call cfg usb_tryreset (after_call cfg a w)))
      as [u w'|r w'|]; [| |exact I].
    + destruct H as (_ & evs & Hl & _). rewrite Hl. simpl.
      eexists. rewrite <- !app_assoc. simpl. reflexivity.
    + destruct H as (_ & _ & evs & Hl & _). rewrite Hl. simpl.
      eexists. rewrite <- !app_assoc. simpl. reflexivity.
  - simpl. eexists. rewrite <- app_assoc. simpl. reflexivity.
Qed.

(** The two harness runs of [HWLOAD]/[HWSAVE] under a device invariant. *)
Lemma hwio_inv (P : usbdevice E -> Prop) (fuel : nat) (l : locals)
  (word : string) (w : world E) :
  command l = HWLOAD \/ command l = HWSAVE -> active (kb w) = true ->
  (forall c k, P k -> P (fst (cfg_ext cfg c k))) ->
  P (kb (raise_usbdelay w)) ->
  let io := vt_do_io (command l) (mode l) (notifynumber l) in
  let seen (e : call * usbdevice E) :=
    (fst e = io \/ fst e = vt_updatergb 1 \/ fst e = usb_tryreset)
    /\ P (snd e) in
  match dispatch_always cfg fuel l word w with
  | Done l' w' =>
      l' = l /\ usbdelay (kb w') = usbdelay (kb w) /\ grows seen w w'
      /\ exists evs,
           log w' = (log w ++ (io, kb (raise_usbdelay w)) :: evs)%list
  | Return r w' =>
      r = 1 /\ grows seen w w'
      /\ exists evs,
           log w' = (log w ++ (io, kb (raise_usbdelay w)) :: evs)%list
  | OutOfFuel => True
  end.
Proof.
  intros Hc Ha Hext HP io seen.
  rewrite dispatch_hwio by assumption. fold io.
  assert (Hw0 : forall w', grows seen (raise_usbdelay w) w' -> grows seen w w').
  { intros w' (evs & Hl & HF). exists evs. rewrite <- (raise_usbdelay_log w).
    split; assumption. }
  pose proof (TRY_WITH_RESET_inv P io (Hext io) (Hext usb_tryreset) fuel
                (raise_usbdelay w) HP) as H1.
  pose proof (TRY_WITH_RESET_first fuel io (raise_usbdelay w)) as F1.
  rewrite raise_usbdelay_log in F1.
  unfold bind at 1.
  destruct (TRY_WITH_RESET cfg fuel io (raise_usbdelay w)) as [u w1|r w1|];
    [| |exact I].
  - destruct H1 as (P1 & G1). destruct F1 as (ev1 & L1).
    assert (G1' : grows seen (raise_usbdelay w) w1).
    { eapply grows_weaken; [|exact G1]. intros e ([He|He] & HPe);
        (split; [tauto|exact HPe]). }
    pose proof (TRY_WITH_RESET_inv P (vt_updatergb 1)
                  (Hext (vt_updatergb 1)) (Hext usb_tryreset) fuel w1 P1) as H2.
    assert (W2 : forall w2,
               grows (fun e => (fst e = vt_updatergb 1 \/ fst e = usb_tryreset)
                               /\ P (snd e)) w1 w2 ->
               grows seen w w2
               /\ exists evs,
                    log w2 = (log w ++ (io, kb (raise_usbdelay w)) :: evs)%list).
    { intros w2 G2. split.
      - apply Hw0. eapply grows_trans; [exact G1'|].
        eapply grows_weaken; [|exact G2]. intros e ([He|He] & HPe);
          (split; [tauto|exact HPe]).
      - destruct G2 as (ev2 & L2 & _). rewrite L2, L1.
        eexists. rewrite <- app_assoc. simpl. reflexivity. }
    unfold bind at 1.
    destruct (TRY_WITH_RESET cfg fuel (vt_updatergb 1) w1) as [u2 w2|r w2|];
      [| |exact I].
    + destruct H2 as (P2 & G2). destruct (W2 w2 G2) as (G & L).
      simpl. repeat split; try assumption.
    + destruct H2 as (Hr & P2 & G2). destruct (W2 w2 G2) as (G & L).
      repeat split; assumption.
  - destruct H1 as (Hr & P1 & G1). destruct F1 as (ev1 & L1).
    repeat split; try assumption.
    + apply Hw0. eapply grows_weaken; [|exact G1]. intros e ([He|He] & HPe);
        (split; [tauto|exact HPe]).
    + exists ev1. exact L1.
Qed.

(** C7 (as the code has it).  [HWLOAD]/[HWSAVE] on an active device raise
    [usbdelay] to [max(usbdelay, 10)] before the first hardware call; if the
    collaborators do not lower it below 10, every call of the command
    ([do_io], [updatergb(1)], resets) is made with [usbdelay >= 10]; and
    when the command completes, [usbdelay] is what it was before the
    command.  (When a reset fails the function returns 1 at once; nothing
    is said about [usbdelay] then.) *)
Theorem hwio_usbdelay (fuel : nat) (l : locals) (word : string) (w : world E) :
  command l = HWLOAD \/ command l = HWSAVE -> active (kb w) = true ->
  let io := vt_do_io (command l) (mode l) (notifynumber l) in
  let hwcall (c : call) :=
    c = io \/ c = vt_updatergb 1 \/ c = usb_tryreset in
  usbdelay (kb (raise_usbdelay w)) = Z.max (usbdelay (kb w)) 10
  /\ match dispatch_always cfg fuel l word w with
     | Done l' w' =>
         l' = l /\ usbdelay (kb w') = usbdelay (kb w)
         /\ grows (fun e => hwcall (fst e)) w w'
         /\ exists evs,
              log w' = (log w ++ (io, kb (raise_usbdelay w)) :: evs)%list
     | Return r w' =>
         r = 1 /\ grows (fun e => hwcall (fst e)) w w'
         /\ exists evs,
              log w' = (log w ++ (io, kb (raise_usbdelay w)) :: evs)%list
     | OutOfFuel => True
     end
  /\ ((forall c k, 10 <= usbdelay k -> 10 <= usbdelay (fst (cfg_ext cfg c k))) ->
      match dispatch_always cfg fuel l word w with
      | Done _ w' | Return _ w' =>
          grows (fun e => hwcall (fst e) /\ 10 <= usbdelay (snd e)) w w'
      | OutOfFuel => True
      end).
Proof.
  intros Hc Ha io hwcall.
  split; [apply raise_usbdelay_max|]. split.
  - pose proof (hwio_inv (fun _ => True) fuel l word w Hc Ha
                  (fun _ _ _ => I) I) as H.
    destruct (dispatch_always cfg fuel l word w) as [l' w'|r w'|];
      [| |exact I].
    + destruct H as (Hl & Hd & G & L). repeat split; try assumption.
      eapply grows_weaken; [|exact G]. intros e (He & _). exact He.
    + destruct H as (Hr & G & L). repeat split; try assumption.
      eapply grows_weaken; [|exact G]. intros e (He & _). exact He.
  - intros Hext.
    assert (H10 : 10 <= usbdelay (kb (raise_usbdelay w)))
      by (rewrite raise_usbdelay_max; lia).
    pose proof (hwio_inv (fun k => 10 <= usbdelay k) fuel l word w Hc Ha
                  Hext H10) as H.
    destruct (dispatch_always cfg fuel l word w) as [l' w'|r w'|];
      [| |exact I].
    + destruct H as (_ & _ & G & _). exact G.
    + destruct H as (_ & G & _). exact G.
Qed.

(** ** The flush and its throttle *)

(** C2 (as the code has it).  On a device that needs no firmware update,
    when the last command word of the line was [RGB], the flush first runs
    the throttle: with [diff] the time since [last_rgb], if
    [0 < diff < HERTZ_LIM] it sleeps [HERTZ_LIM - diff] ns and sets
    [last_rgb] to the instant read plus that sleep, otherwise it sets
    [last_rgb] to the instant read without sleeping; then come
    [updatergb(0)] and [updatedpi(0)].  For instants in the exact range of
    [timespec_diff_ns] and [diff > 0] the new [last_rgb] is at least
    [HERTZ_LIM] after the old one. *)
Theorem rgb_rate_limit (fuel : nat) (l : locals) (w : world E) :
  command l = RGB -> needs_fw_update (kb w) = false ->
  let now := cfg_clock_gettime cfg (kb w) in
  let diff := timespec_diff_ns now (last_rgb (kb w)) in
  let warned :=
    if cfg_NDEBUG cfg then w
    else {| kb := kb w; log := (log w ++ [(ckb_warn diff, kb w)])%list; reads := reads w |} in
  let slept := after_call cfg (clock_nanosleep (HERTZ_LIM - diff)) warned in
  (0 < diff < HERTZ_LIM ->
   rgb_ratelimit cfg w =
   Done tt {| kb := set_last_rgb
                      {| tv_sec := tv_sec now;
                         tv_nsec := wrap_long (tv_nsec now + (HERTZ_LIM - diff)) |}
                      (kb slept);
              log := log slept; reads := reads slept |})
  /\ (~ 0 < diff < HERTZ_LIM ->
      rgb_ratelimit cfg w =
      Done tt {| kb := set_last_rgb now (kb w); log := log w; reads := reads w |})
  /\ finish cfg fuel l w =
     bind (rgb_ratelimit cfg)
       (fun _ => bind (TRY_WITH_RESET cfg fuel (vt_updatergb 0))
          (fun _ => bind (TRY_WITH_RESET cfg fuel (vt_updatedpi 0))
             (fun _ => bind (if cfg_NDEBUG cfg then ret tt
                             else modify clear_leds)
                (fun _ => return_ 0)))) w
  /\ (0 <= tv_sec now < 2 ^ 32 -> 0 <= tv_sec (last_rgb (kb w)) < 2 ^ 32 ->
      0 <= tv_nsec now < 2 ^ 30 -> 0 <= tv_nsec (last_rgb (kb w)) < 2 ^ 31 ->
      0 < diff ->
      exists w',
        rgb_ratelimit cfg w = Done tt w'
        /\ HERTZ_LIM <= true_diff_ns (last_rgb (kb w')) (last_rgb (kb w))).
Proof.
  intros Hc Hf now diff warned slept.
  assert (Hin : 0 < diff < HERTZ_LIM ->
    rgb_ratelimit cfg w =
    Done tt {| kb := set_last_rgb
                       {| tv_sec := tv_sec now;
                          tv_nsec := wrap_long (tv_nsec now + (HERTZ_LIM - diff)) |}
                       (kb slept);
               log := log slept; reads := reads slept |}).
  { intros [H0 H1]. unfold rgb_ratelimit. unfold bind at 1, get_kb.
    fold now. fold diff.
    replace (diff >? 0) with true by (symmetry; apply Z.gtb_lt; exact H0).
    replace (diff <? HERTZ_LIM) with true by (symmetry; apply Z.ltb_lt; exact H1).
    simpl andb. cbv iota. unfold slept, warned.
    destruct (cfg_NDEBUG cfg); reflexivity. }
  assert (Hout : ~ 0 < diff < HERTZ_LIM ->
    rgb_ratelimit cfg w =
    Done tt {| kb := set_last_rgb now (kb w); log := log w; reads := reads w |}).
  { intros Hn. unfold rgb_ratelimit. unfold bind at 1, get_kb.
    fold now. fold diff.
    replace ((diff >? 0) && (diff <? HERTZ_LIM)) with false; [reflexivity|].
    symmetry. apply andb_false_iff.
    destruct (Z.lt_ge_cases 0 diff) as [H0|H0].
    - right. apply Z.ltb_ge. lia.
    - left. rewrite Z.gtb_ltb. apply Z.ltb_ge. exact H0. }
  split; [exact Hin|]. split; [exact Hout|]. split.
  - rewrite finish_eq by exact Hf. rewrite Hc. reflexivity.
  - intros Hs1 Hs2 Hn1 Hn2 H0.
    assert (Hd : diff = true_diff_ns now (last_rgb (kb w))).
    { unfold diff. apply timespec_diff_ns_exact; lia. }
    destruct (Z.lt_ge_cases diff HERTZ_LIM) as [H1|H1].
    + eexists. split; [apply Hin; split; assumption|].
      cbn [kb last_rgb set_last_rgb].
      rewrite wrap_long_id
        by (unfold LONG_MIN, LONG_MAX, HERTZ_LIM in *; lia).
      unfold true_diff_ns in *. cbn [tv_sec tv_nsec]. lia.
    + eexists. split; [apply Hout; lia|].
      cbn [kb last_rgb set_last_rgb]. lia.
Qed.

(** ** A device that needs a firmware update *)

Lemma replay_app (cs1 cs2 : list call) (k : usbdevice E) :
  replay cfg (cs1 ++ cs2) k = replay cfg cs2 (replay cfg cs1 k).
Proof. revert k. induction cs1 as [|c cs1 IH]; intros k; simpl; auto. Qed.

Lemma calls_after_call (c : call) (w : world E) :
  calls (after_call cfg c w) = (calls w ++ [c])%list.
Proof. unfold calls, after_call. simpl. rewrite map_app. reflexivity. Qed.

Lemma brick_gates (fuel : nat) (l : locals) (word : string) (w : world E) :
  needs_fw_update (kb w) = true ->
  brick_round cfg w (gates cfg fuel l word w).
Proof.
  intros Hf. rewrite gates_eq. unfold fw_rejected. rewrite Hf.
  destruct (command l) eqn:Hc; simpl andb; rewrite ?orb_true_r;
    try apply brick_skip; unfold rejected; simpl orb; cbv iota;
    unfold dispatch_always; rewrite Hc.
  - (* NOTIFYON *)
    destruct (sscanf_d word) as [n s| |]; try apply brick_skip.
    unfold bind. rewrite invoke_eq. apply brick_one. reflexivity.
  - (* NOTIFYOFF *)
    destruct (sscanf_d word) as [n s| |]; try apply brick_skip.
    destruct (negb (n =? 0)); try apply brick_skip.
    unfold bind. rewrite invoke_eq. apply brick_one. reflexivity.
  - (* FWUPDATE *)
    rewrite active_gate_eq, Hc.
    destruct (active (kb w)); [|apply brick_skip].
    unfold dispatch_active. rewrite Hc. unfold bind. rewrite invoke_eq.
    destruct (negb (snd (cfg_ext cfg
                (vt_fwupdate (mode l) (notifynumber l) word) (kb w)) =? 0)).
    + apply brick_abort. reflexivity.
    + apply brick_one. reflexivity.
  - (* RESET *)
    unfold bind. rewrite invoke_eq. apply brick_one. reflexivity.
Qed.

Lemma brick_word (fuel : nat) (l : locals) (word : string) (w : world E) :
  needs_fw_update (kb w) = true ->
  brick_round cfg w (readcmd_word cfg fuel l word w).
Proof.
  intros Hf.
  assert (Hb : forall l0, brick_round cfg w (readcmd_body cfg fuel l0 word w)).
  { intros l0. unfold readcmd_body.
    destruct (sscanf_at_d word) as [n s| |]; try (apply brick_gates; exact Hf).
    destruct (n <? cfg_OUTFIFO_MAX cfg); [apply brick_skip|].
    apply brick_gates; exact Hf. }
  unfold readcmd_word. destruct (lookup_command cfg word) as [c|]; [|apply Hb].
  destruct (is_action c); [apply Hb|apply brick_skip].
Qed.

Lemma read_words_cons (fuel : nat) (l : locals) (word : string)
  (words : list string) (w : world E) :
  read_words cfg fuel l (word :: words) w =
  match readcmd_word cfg fuel l word w with
  | Done l' w' => read_words cfg fuel l' words w'
  | Return r w' => Return r w'
  | OutOfFuel => OutOfFuel
  end.
Proof. reflexivity. Qed.

(** The rounds of a line on such a device, as long as the allowed calls
    leave it needing the update: they end, all calls are allowed ones, and
    the device is what those calls made of it. *)
Lemma brick_words (fuel : nat) (words : list string) :
  (forall c k, brick_call c = true -> needs_fw_update k = true ->
               needs_fw_update (fst (cfg_ext cfg c k)) = true) ->
  forall (l : locals) (w : world E),
    needs_fw_update (kb w) = true ->
    exists cs,
      Forall (fun c => brick_call c = true) cs
      /\ ((exists l' w',
             read_words cfg fuel l words w = Done l' w'
             /\ needs_fw_update (kb w') = true
             /\ calls w' = (calls w ++ cs)%list
             /\ kb w' = replay cfg cs (kb w))
          \/ (exists w',
                read_words cfg fuel l words w = Return 1 w'
                /\ calls w' = (calls w ++ cs)%list
                /\ kb w' = replay cfg cs (kb w))).
Proof.
  intros Hext. induction words as [|word words IH]; intros l w Hf.
  - exists []. split; [constructor|]. left. exists l, w.
    rewrite app_nil_r. repeat split; auto.
  - rewrite read_words_cons.
    destruct (brick_word fuel l word w Hf) as [l'|l' c Hc|c Hc].
    + apply IH. exact Hf.
    + assert (Hf' : needs_fw_update (kb (after_call cfg c w)) = true)
        by (apply Hext; assumption).
      destruct (IH l' (after_call cfg c w) Hf') as (cs & HF & Hcs).
      exists (c :: cs). split; [constructor; assumption|].
      rewrite calls_after_call, <- app_assoc in Hcs. exact Hcs.
    + exists [c]. split; [constructor; [assumption|constructor]|].
      right. eexists. split; [reflexivity|].
      rewrite calls_after_call. split; reflexivity.
Qed.

(** "Finish up" on such a device: no flush; a debug build clears the
    scratch if the last command word was [RGB]. *)
Lemma finish_brick (fuel : nat) (l : locals) (w : world E) :
  needs_fw_update (kb w) = true ->
  finish cfg fuel l w =
  Return 0 (if cfg_NDEBUG cfg then w
            else match command l with
                 | RGB => {| kb := clear_leds (kb w); log := log w; reads := reads w |}
                 | _ => w
                 end).
Proof.
  intros Hf. unfold finish. unfold bind at 1, get_kb. rewrite Hf.
  simpl negb. cbv iota. unfold bind, ret.
  destruct (cfg_NDEBUG cfg); [reflexivity|].
  destruct (command l); reflexivity.
Qed.

(** ** An inactive device *)

Section Inactive.

(** The calls an inactive device may receive leave it inactive. *)
Hypothesis stays_asleep :
  forall c k, idle_call c = true -> asleep k -> asleep (fst (cfg_ext cfg c k)).

Lemma idle_round_done (l : locals) (w : world E) :
  asleep (kb w) -> idle_round w (Done l w).
Proof. intros H. split; [exact H|apply grows_refl]. Qed.

Lemma idle_round_invoke (c : call) (l : locals) (w : world E) :
  asleep (kb w) -> idle_call c = true ->
  idle_round w (bind (invoke cfg c) (fun _ => ret l) w).
Proof.
  intros H Hc. unfold bind. rewrite invoke_eq. split.
  - apply stays_asleep; assumption.
  - apply (grows_call (fun e => idle_call (fst e) = true)). exact Hc.
Qed.

Lemma idle_round_modify (f : usbdevice E -> usbdevice E) (l : locals)
  (w : world E) :
  asleep (f (kb w)) -> idle_round w (bind (modify f) (fun _ => ret l) w).
Proof.
  intros H. split; [exact H|]. exists []. simpl. rewrite app_nil_r.
  split; [reflexivity|constructor].
Qed.

Lemma idle_round_try (fuel : nat) (m : nat) (n : Z) (l : locals) (w : world E) :
  asleep (kb w) ->
  idle_round w (bind (TRY_WITH_RESET cfg fuel (vt_active m n))
                     (fun _ => ret l) w).
Proof.
  intros H.
  pose proof (TRY_WITH_RESET_inv asleep (vt_active m n)
                (fun k => stays_asleep (vt_active m n) k eq_refl)
                (fun k => stays_asleep usb_tryreset k eq_refl) fuel w H) as HT.
  unfold bind.
  destruct (TRY_WITH_RESET cfg fuel (vt_active m n) w) as [u w'|r w'|];
    [| |exact I].
  - destruct HT as (Ha & G). split; [exact Ha|].
    eapply grows_weaken; [|exact G].
    intros e ([He|He] & _); rewrite He; reflexivity.
  - destruct HT as (_ & Ha & G). split; [exact Ha|].
    eapply grows_weaken; [|exact G].
    intros e ([He|He] & _); rewrite He; reflexivity.
Qed.

Lemma idle_active_gate (fuel : nat) (l : locals) (word : string) (w : world E) :
  asleep (kb w) -> idle_round w (active_gate cfg fuel l word w).
Proof.
  intros H. rewrite active_gate_eq. destruct H as [Ha Hf]. rewrite Ha.
  destruct (command l); try (apply idle_round_done; split; assumption).
  apply idle_round_try. split; assumption.
Qed.

(** The ways a case of the first switch ends. *)
Ltac stay := apply idle_round_done; assumption.
Ltac change_field := apply idle_round_modify; assumption.
Ltac one_call := apply idle_round_invoke; [assumption|reflexivity].
Ltac gate := apply idle_active_gate; assumption.

Lemma idle_dispatch (fuel : nat) (l : locals) (word : string) (w : world E) :
  asleep (kb w) -> idle_round w (dispatch_always cfg fuel l word w).
Proof.
  intros H. unfold dispatch_always.
  destruct (command l) eqn:Hc; try gate.
  - (* DELAY *) stay.
  - (* MODE *)
    destruct (sscanf_d word) as [n s| |]; try stay.
    destruct ((n >? 0) && (n <=? cfg_MODE_COUNT cfg));
      stay.
  - (* LAYOUT *)
    destruct (word =? "ansi")%string; [change_field|].
    destruct (word =? "iso")%string; [change_field|].
    stay.
  - (* ACCEL *)
    destruct (cfg_OS_MAC_LEGACY cfg); [|gate].
    destruct (word =? "on")%string; [change_field|].
    destruct (word =? "off")%string; [change_field|].
    stay.
  - (* SCROLLSPEED *)
    destruct (cfg_OS_MAC_LEGACY cfg); [|gate].
    destruct (sscanf_d word) as [n s| |];
      try gate.
    change_field.
  - (* NOTIFYON *)
    destruct (sscanf_d word) as [n s| |]; try stay.
    one_call.
  - (* NOTIFYOFF *)
    destruct (sscanf_d word) as [n s| |]; try stay.
    destruct (negb (n =? 0)); [|stay].
    one_call.
  - (* FPS *)
    destruct (sscanf_u word) as [n s| |]; try stay.
    destruct (n >? 0); [|stay].
    unfold bind at 1, get_kb. change_field.
  - (* DITHER *)
    destruct (sscanf_u word) as [n s| |]; try stay.
    destruct (n <=? 1); [|stay].
    change_field.
  - (* GET *) one_call.
  - (* RESET *) one_call.
Qed.

Lemma idle_word (fuel : nat) (l : locals) (word : string) (w : world E) :
  asleep (kb w) -> idle_round w (readcmd_word cfg fuel l word w).
Proof.
  intros H.
  assert (Hg : forall l0, idle_round w (gates cfg fuel l0 word w)).
  { intros l0. rewrite gates_eq.
    destruct (rejected cfg (kb w) (command l0)
              || fw_rejected (kb w) (command l0));
      [apply idle_round_done; exact H|apply idle_dispatch; exact H]. }
  assert (Hb : forall l0, idle_round w (readcmd_body cfg fuel l0 word w)).
  { intros l0. unfold readcmd_body.
    destruct (sscanf_at_d word) as [n s| |]; try apply Hg.
    destruct (n <? cfg_OUTFIFO_MAX cfg); [|apply Hg].
    apply idle_round_done; exact H. }
  unfold readcmd_word. destruct (lookup_command cfg word) as [c|]; [|apply Hb].
  destruct (is_action c); [apply Hb|apply idle_round_done; exact H].
Qed.

Lemma idle_words (fuel : nat) (words : list string) :
  forall (l : locals) (w : world E),
    asleep (kb w) ->
    match read_words cfg fuel l words w with
    | Done _ w' | Return _ w' =>
        asleep (kb w') /\ grows (fun e => idle_call (fst e) = true) w w'
    | OutOfFuel => True
    end.
Proof.
  induction words as [|word words IH]; intros l w H.
  - split; [exact H|apply grows_refl].
  - rewrite read_words_cons. pose proof (idle_word fuel l word w H) as Hw.
    destruct (readcmd_word cfg fuel l word w) as [l' w'|r w'|];
      [|exact Hw|exact I].
    destruct Hw as (H' & G). specialize (IH l' w' H').
    destruct (read_words cfg fuel l' words w') as [l'' w''|r w''|];
      [| |exact I]; destruct IH as (H'' & G'');
      (split; [exact H''|eapply grows_trans; eassumption]).
Qed.

End Inactive.

End Properties.

(** * Examples on concrete devices *)


(** C9 on [fps 500]: 1000 / 500 / 5 = 0, clamped to 2. *)
Lemma fps_sets_usbdelay_witness :
  command (pending FPS) = FPS
  /\ needs_fw_update (kb (start kb_on)) = false
  /\ sscanf_u "500" = Conv 500 ""
  /\ 0 < 500
  /\ clamp (1000 / 500 / per_frame cfg_ok (kb (start kb_on))) 2 10 = 2
  /\ exists w',
       readcmd_word cfg_ok 0 (pending FPS) "500" (start kb_on)
       = Done (pending FPS) w'
       /\ usbdelay (kb w')
          = clamp (1000 / 500 / per_frame cfg_ok (kb (start kb_on))) 2 10
       /\ kb w' = set_usbdelay (usbdelay (kb w')) (kb (start kb_on))
       /\ log w' = log (start kb_on).
Proof.
  assert (H0 : 0 < 500) by lia.
  split; [reflexivity|]. split; [reflexivity|]. split; [reflexivity|].
  split; [exact H0|]. split; [reflexivity|].
  exact (proj1 (proj2 (fps_sets_usbdelay unit cfg_ok 0 (pending FPS) "500" ""
                         "x" 500 (start kb_on) eq_refl eq_refl eq_refl)) H0).
Defined.

(** C9, the counterexample to the claim as stated: the decimal argument
    4294967316 is greater than 0 and [clamp(1000 / 4294967316 / 5, 2, 10)]
    is 2, but [%u] stores 4294967316 - 2^32 = 20 and [usbdelay] becomes
    [clamp(1000 / 20 / 5, 2, 10)] = 10; and the argument 4294967296 is
    stored as 0, so that [usbdelay] stays 5. *)
Theorem fps_sets_usbdelay_counterexample :
  numeral "4294967316" 4294967316 /\ 0 < 4294967316
  /\ clamp (1000 / 4294967316 / per_frame cfg_ok kb_on) 2 10 = 2
  /\ (exists w,
        readcmd cfg_ok 1 kb_on "fps 4294967316" = Return 0 w
        /\ usbdelay (kb w) = 10)
  /\ numeral "4294967296" 4294967296 /\ 0 < 4294967296
  /\ clamp (1000 / 4294967296 / per_frame cfg_ok kb_on) 2 10 = 2
  /\ (exists w,
        readcmd cfg_ok 1 kb_on "fps 4294967296" = Return 0 w
        /\ usbdelay (kb w) = usbdelay kb_on /\ usbdelay kb_on = 5).
Proof.
  split; [split; [discriminate|reflexivity]|]. split; [reflexivity|].
  split; [reflexivity|].
  split; [eexists; split; [vm_compute; reflexivity|reflexivity]|].
  split; [split; [discriminate|reflexivity]|]. split; [reflexivity|].
  split; [reflexivity|].
  eexists. split; [vm_compute; reflexivity|]. split; reflexivity.
Qed.

(** C1 on the argument [ff0080]: six calls of [vtable.rgb]. *)
Lemma rgb_broadcast_witness :
  command (pending RGB) = RGB
  /\ active (kb (start kb_on)) = true
  /\ sscanf_rgb "ff0080" = 3
  /\ exists w',
       dispatch_always cfg_ok 0 (pending RGB) "ff0080" (start kb_on)
       = Done (pending RGB) w'
       /\ calls w'
          = [vt_rgb 0 (-1) 0 "ff0080"; vt_rgb 0 (-1) 1 "ff0080";
             vt_rgb 0 (-1) 2 "ff0080"; vt_rgb 0 (-1) 3 "ff0080";
             vt_rgb 0 (-1) 4 "ff0080"; vt_rgb 0 (-1) 5 "ff0080"].
Proof.
  split; [reflexivity|]. split; [reflexivity|]. split; [reflexivity|].
  exact (proj1 (rgb_broadcast unit cfg_ok 0 (pending RGB) "ff0080"
                  (start kb_on) eq_refl eq_refl) eq_refl).
Defined.

(** C1, the counterexample to the claim as stated: [abcde] and [abcdefg] are
    not six lowercase hex digits, yet [rgb abcde] and [rgb abcdefg]
    broadcast to all six keys and do not go to the split at the colon
    (which would call nothing here). *)
Lemma rgb_broadcast_counterexample :
  six_lower_hex "abcde" = false /\ six_lower_hex "abcdefg" = false
  /\ calls_of (readcmd cfg_ok 1 kb_on "rgb abcde")
     = [vt_rgb 0 (-1) 0 "abcde"; vt_rgb 0 (-1) 1 "abcde";
        vt_rgb 0 (-1) 2 "abcde"; vt_rgb 0 (-1) 3 "abcde";
        vt_rgb 0 (-1) 4 "abcde"; vt_rgb 0 (-1) 5 "abcde";
        vt_updatergb 0; vt_updatedpi 0]
  /\ calls_of (readcmd cfg_ok 1 kb_on "rgb abcdefg")
     = [vt_rgb 0 (-1) 0 "abcdefg"; vt_rgb 0 (-1) 1 "abcdefg";
        vt_rgb 0 (-1) 2 "abcdefg"; vt_rgb 0 (-1) 3 "abcdefg";
        vt_rgb 0 (-1) 4 "abcdefg"; vt_rgb 0 (-1) 5 "abcdefg";
        vt_updatergb 0; vt_updatedpi 0]
  /\ colon_split cfg_ok (pending RGB) "abcde" (start kb_on)
     = Done (pending RGB) (start kb_on)
  /\ ~ (forall word, sscanf_rgb word = 3 <-> six_lower_hex word = true).
Proof.
  split; [reflexivity|]. split; [reflexivity|].
  split; [vm_compute; reflexivity|]. split; [vm_compute; reflexivity|].
  split; [vm_compute; reflexivity|].
  intros H. destruct (H "abcde") as [H1 _].
  assert (H3 : sscanf_rgb "abcde" = 3) by (vm_compute; reflexivity).
  specialize (H1 H3). vm_compute in H1. discriminate.
Qed.

(** C4 on a device whose calls fail until the second reset: [idle] is
    tried three times with a reset in between; and a failing firmware
    update ends the line with 1 after that one call. *)
Lemma retry_with_reset_harness_witness :
  calls_of (readcmd cfg_flaky 3 (test_kb true false [] 2%nat) "idle")
  = [vt_idle 0 0; usb_tryreset; vt_idle 0 0; usb_tryreset; vt_idle 0 0;
     vt_updatergb 0; vt_updatedpi 0]
  /\ command (pending FWUPDATE) = FWUPDATE
  /\ active (kb (start kb_on)) = true
  /\ lookup_command cfg_fwfail "/tmp/blob" = None
  /\ snd (cfg_ext cfg_fwfail (vt_fwupdate 0 0 "/tmp/blob") kb_on) <> 0
  /\ bind (read_words cfg_fwfail 1 (pending FWUPDATE) ["/tmp/blob"; "rgb"; "ff"])
          (finish cfg_fwfail 1) (start kb_on)
     = Return 1 (after_call cfg_fwfail (vt_fwupdate 0 0 "/tmp/blob")
                   (start kb_on)).
Proof.
  split; [vm_compute; reflexivity|]. split; [reflexivity|].
  split; [reflexivity|]. split; [vm_compute; reflexivity|].
  split; [vm_compute; discriminate|].
  destruct (retry_with_reset_harness unit cfg_fwfail 1 (pending FWUPDATE)
              "/tmp/blob" POLLRATE_1MS ["rgb"; "ff"] (start kb_on))
    as (_ & _ & _ & _ & _ & _ & _ & H & _).
  apply H.
  - reflexivity.
  - reflexivity.
  - reflexivity.
  - intros m s Hs. vm_compute in Hs. discriminate.
  - vm_compute. discriminate.
Defined.

(** C7 on [hwload] with [usbdelay = 5]: the calls see 10, the command
    leaves 5. *)
Lemma hwio_usbdelay_witness :
  (command (pending HWLOAD) = HWLOAD \/ command (pending HWLOAD) = HWSAVE)
  /\ active (kb (start kb_on)) = true
  /\ usbdelay (kb (raise_usbdelay (start kb_on))) = 10
  /\ (exists w',
        dispatch_always cfg_ok 1 (pending HWLOAD) "hwload" (start kb_on)
        = Done (pending HWLOAD) w'
        /\ usbdelay (kb w') = 5
        /\ map (fun e => (fst e, usbdelay (snd e))) (log w')
           = [(vt_do_io HWLOAD 0 0, 10); (vt_updatergb 1, 10)]).
Proof.
  split; [left; reflexivity|]. split; [reflexivity|].
  pose proof (hwio_usbdelay unit cfg_ok 1 (pending HWLOAD) "hwload"
                (start kb_on) (or_introl eq_refl) eq_refl) as H.
  split; [exact (proj1 H)|].
  eexists. split; [vm_compute; reflexivity|].
  split; vm_compute; reflexivity.
Defined.

(** C7, the counterexample to the claim as stated: when the hardware call
    and the reset fail, [hwload] returns 1 and [usbdelay], 5 before, is
    left at 10. *)
Lemma hwio_usbdelay_counterexample :
  usbdelay kb_on = 5
  /\ exists w,
       readcmd cfg_fail 1 kb_on "hwload" = Return 1 w
       /\ calls w = [vt_do_io HWLOAD 0 0; usb_tryreset]
       /\ usbdelay (kb w) = 10.
Proof.
  split; [reflexivity|]. eexists.
  split; [vm_compute; reflexivity|]. split; vm_compute; reflexivity.
Qed.

(** C2 on a flush 1000 ns after the last one: it sleeps 16527925 ns and
    the new [last_rgb] is [HERTZ_LIM] after the old. *)
Lemma rgb_rate_limit_witness :
  command (pending RGB) = RGB
  /\ needs_fw_update (kb (start kb_on)) = false
  /\ timespec_diff_ns (cfg_clock_gettime cfg_soon kb_on) (last_rgb kb_on) = 1000
  /\ (exists w',
        rgb_ratelimit cfg_soon (start kb_on) = Done tt w'
        /\ calls w' = [clock_nanosleep 16527925]
        /\ last_rgb (kb w') = at_time 100 16528925
        /\ true_diff_ns (last_rgb (kb w')) (last_rgb kb_on) = HERTZ_LIM).
Proof.
  split; [reflexivity|]. split; [reflexivity|].
  split; [vm_compute; reflexivity|].
  pose proof (proj1 (rgb_rate_limit unit cfg_soon 1 (pending RGB)
                       (start kb_on) eq_refl eq_refl)) as H.
  eexists. split; [apply H; split; vm_compute; reflexivity|].
  split; [vm_compute; reflexivity|].
  split; vm_compute; reflexivity.
Defined.

(** C2, the counterexample to the claim as stated: the line
    [rgb ff0000 mode 1] contains an [RGB] verb and is flushed 1000 ns after
    the last flush, inside the window; since [mode] is the last command
    word there is no sleep and [last_rgb] stays as it was.  The line
    [rgb ff0000] at the same instant does sleep. *)
Lemma rgb_rate_limit_counterexample :
  needs_fw_update kb_on = false
  /\ timespec_diff_ns (cfg_clock_gettime cfg_soon kb_on) (last_rgb kb_on) = 1000
  /\ (exists w,
        readcmd cfg_soon 1 kb_on "rgb ff0000 mode 1" = Return 0 w
        /\ calls w
           = [vt_rgb 0 (-1) 0 "ff0000"; vt_rgb 0 (-1) 1 "ff0000";
              vt_rgb 0 (-1) 2 "ff0000"; vt_rgb 0 (-1) 3 "ff0000";
              vt_rgb 0 (-1) 4 "ff0000"; vt_rgb 0 (-1) 5 "ff0000";
              vt_updatergb 0; vt_updatedpi 0]
        /\ last_rgb (kb w) = last_rgb kb_on)
  /\ (exists w,
        readcmd cfg_soon 1 kb_on "rgb ff0000" = Return 0 w
        /\ In (clock_nanosleep 16527925) (calls w)
        /\ last_rgb (kb w) = at_time 100 16528925).
Proof.
  split; [reflexivity|]. split; [vm_compute; reflexivity|]. split.
  - eexists. split; [vm_compute; reflexivity|].
    split; vm_compute; reflexivity.
  - eexists. split; [vm_compute; reflexivity|].
    split; [vm_compute; tauto|vm_compute; reflexivity].
Qed.

(** * The scenarios of the specification *)

(** [FPS 0], [FPS 1], [FPS 500] and [FPS 100000] on a keyboard with
    [usbdelay = 5]. *)
Example fps_boundary_cases :
  map (fun line =>
         match readcmd cfg_ok 1 kb_on line with
         | Return 0 w => usbdelay (kb w)
         | _ => -1
         end) ["fps 0"; "fps 1"; "fps 500"; "fps 100000"]
  = [5; 10; 2; 2].
Proof. vm_compute. reflexivity. Qed.

(** [mode 2 switch] with mode 1 current: the mutex is taken, the macros of
    the old mode are no longer triggered, mode index 1 is current and is
    announced. *)
Example scenario_mode_switch :
  exists w,
    readcmd cfg_ok 1 kb_on "mode 2 switch" = Return 0 w
    /\ calls w = [queued_mutex_lock; queued_mutex_unlock; vt_setmodeindex 1;
                  vt_updatergb 0; vt_updatedpi 0]
    /\ currentmode (profile (kb w)) = 1%nat
    /\ map macros_triggered (modes (profile (kb w)))
       = [[0; 0]; [1; 0]; [1; 0]; [1; 0]; [1; 0]; [1; 0]].
Proof.
  eexists. split; [vm_compute; reflexivity|].
  repeat (split; [vm_compute; reflexivity|]). vm_compute. reflexivity.
Qed.

(** [@3 rgb ff0080]: one [vtable.rgb] per key on channel [-1], then the
    flush. *)
Example scenario_rgb :
  calls_of (readcmd cfg_ok 1 kb_on "@3 rgb ff0080")
  = [vt_rgb 0 (-1) 0 "ff0080"; vt_rgb 0 (-1) 1 "ff0080";
     vt_rgb 0 (-1) 2 "ff0080"; vt_rgb 0 (-1) 3 "ff0080";
     vt_rgb 0 (-1) 4 "ff0080"; vt_rgb 0 (-1) 5 "ff0080";
     vt_updatergb 0; vt_updatedpi 0].
Proof. vm_compute. reflexivity. Qed.

(** [bind a,b,#5:macro1]: the keys named [a] and [b] and scancode 5. *)
Example scenario_bind :
  calls_of (readcmd cfg_ok 1 kb_on "bind a,b,#5:macro1")
  = [vt_do_cmd BIND 0 0 1 "macro1"; vt_do_cmd BIND 0 0 2 "macro1";
     vt_do_cmd BIND 0 0 5 "macro1"; vt_updatergb 0; vt_updatedpi 0].
Proof. vm_compute. reflexivity. Qed.

(** [fwupdate /tmp/blob] with a failing update: 1 is returned, no flush. *)
Example scenario_fwupdate :
  exists w,
    readcmd cfg_fwfail 1 kb_on "fwupdate /tmp/blob" = Return 1 w
    /\ calls w = [vt_fwupdate 0 0 "/tmp/blob"].
Proof. eexists. split; vm_compute; reflexivity. Qed.

(** [pollrate 0.1] on a device limited to 1 ms: an error is logged and
    [vtable.pollrate] is not called. *)
Example scenario_pollrate :
  calls_of (readcmd cfg_ok 1 kb_on "pollrate 0.1")
  = [ckb_err "0.1"; vt_updatergb 0; vt_updatedpi 0].
Proof. vm_compute. reflexivity. Qed.

(** [@OUTFIFO_MAX] is not a selector: the channel stays as it was. *)
Example selector_at_limit :
  calls_of (readcmd cfg_ok 1 kb_on "@3 @10 get :x")
  = [vt_get 0 3 ":x"; vt_updatergb 0; vt_updatedpi 0].
Proof. vm_compute. reflexivity. Qed.

(** * Invariants of a whole line *)

Section Protocol.

Variable E : Type.
Variable cfg : config E.

(** An invariant [P] of the device and an invariant [L] of the locals. *)
Variable P : usbdevice E -> Prop.
Variable L : locals -> Prop.

(** The collaborators keep [P]. *)
Hypothesis ext_keeps : forall c k, P k -> P (fst (cfg_ext cfg c k)).
(** The writes of [readcmd] itself keep it. *)
Hypothesis layout_keeps :
  forall a k, a = cfg_FEAT_ANSI cfg \/ a = cfg_FEAT_ISO cfg -> P k ->
    P (set_features
         (Z.lor (Z.land (features k) (Z.lnot (cfg_FEAT_LMASK cfg))) a) k).
Hypothesis accel_keeps :
  forall k, P k ->
    P (set_features (Z.lor (features k) (cfg_FEAT_MOUSEACCEL cfg)) k)
    /\ P (set_features
            (Z.land (features k) (Z.lnot (cfg_FEAT_MOUSEACCEL cfg))) k).
Hypothesis scroll_keeps : forall v k, P k -> P (set_scroll_rate v k).
Hypothesis usbdelay_keeps : forall v k, 2 <= v <= 10 -> P k -> P (set_usbdelay v k).
Hypothesis usbdelay_restores :
  forall k0 k, P k0 -> P k -> P (set_usbdelay (usbdelay k0) k).
Hypothesis dither_keeps :
  forall d m k, 0 <= d <= 1 -> P k ->
    P (set_profile
         (force_light m (force_light (currentmode (profile k)) (profile k)))
         (set_dither d k)).
Hypothesis switch_keeps :
  forall l k, L l -> P k -> P (set_profile (switch_mode (mode l) (profile k)) k).
Hypothesis last_rgb_keeps : forall t k, P k -> P (set_last_rgb t k).
Hypothesis leds_keeps : forall k, P k -> P (clear_leds k).
(** The assignments to the locals keep [L]. *)
Hypothesis notify_keeps :
  forall n l, n < cfg_OUTFIFO_MAX cfg -> L l -> L (with_notifynumber n l).
Hypothesis mode_keeps :
  forall n l, 0 < n <= cfg_MODE_COUNT cfg -> L l ->
    L (with_mode (Z.to_nat (n - 1)) l).
Hypothesis refetch_keeps :
  forall k l, P k -> L l -> L (with_mode (currentmode (profile k)) l).

Local Abbreviation keeps_here := (keeps cfg P L).

Lemma keeps_ret {A} (LA : A -> Prop) (a : A) (w : world E) :
  P (kb w) -> LA a -> keeps_here LA w (Done a w).
Proof. intros HP HA. repeat split; try assumption. apply grows_refl. Qed.

Lemma keeps_bind {A B} (LA : A -> Prop) (LB : B -> Prop)
  (m : M E A) (f : A -> M E B) (w : world E) :
  keeps_here LA w (m w) ->
  (forall a w', P (kb w') -> LA a -> keeps_here LB w' (f a w')) ->
  keeps_here LB w (bind m f w).
Proof.
  intros Hm Hf. unfold bind. destruct (m w) as [a w'|r w'|]; [|exact Hm|exact I].
  destruct Hm as (HP & HA & G). specialize (Hf a w' HP HA).
  destruct (f a w') as [b w''|r w''|]; [| |exact I].
  - destruct Hf as (HP' & HB & G'). repeat split; try assumption.
    eapply grows_trans; eassumption.
  - destruct Hf as (Hr & HP' & G'). repeat split; try assumption.
    eapply grows_trans; eassumption.
Qed.

Lemma keeps_invoke (l : locals) (k0 : usbdevice E) (c : call) (w : world E) :
  P (kb w) -> L l -> P k0 -> site cfg l k0 c ->
  keeps_here (fun _ : Z => True) w (invoke cfg c w).
Proof.
  intros HP HL HP0 Hs. rewrite invoke_eq. split; [apply ext_keeps; exact HP|].
  split; [exact I|]. apply grows_call. split; [exact HP|].
  exists l, k0. auto.
Qed.

Lemma keeps_emit (l : locals) (k0 : usbdevice E) (c : call) (w : world E) :
  P (kb w) -> L l -> P k0 -> site cfg l k0 c ->
  keeps_here (fun _ : unit => True) w (emit c w).
Proof.
  intros HP HL HP0 Hs. split; [exact HP|]. split; [exact I|].
  exists [(c, kb w)]. split; [reflexivity|].
  constructor; [|constructor]. split; [exact HP|]. exists l, k0. auto.
Qed.

Lemma keeps_modify (f : usbdevice E -> usbdevice E) (w : world E) :
  P (f (kb w)) -> keeps_here (fun _ : unit => True) w (modify f w).
Proof.
  intros HP. split; [exact HP|]. split; [exact I|].
  exists []. simpl. rewrite app_nil_r. split; [reflexivity|constructor].
Qed.

Lemma keeps_TRY (l : locals) (k0 : usbdevice E) (fuel : nat) (a : call)
  (w : world E) :
  P (kb w) -> L l -> P k0 -> site cfg l k0 a ->
  keeps_here (fun _ : unit => True) w (TRY_WITH_RESET cfg fuel a w).
Proof.
  intros HP HL HP0 Hs.
  pose proof (TRY_WITH_RESET_inv E cfg P a (ext_keeps a)
                (ext_keeps usb_tryreset) fuel w HP) as H.
  assert (Hw : forall e, (fst e = a \/ fst e = usb_tryreset) /\ P (snd e) ->
                         seen cfg P L e).
  { intros e ([He|He] & HPe); (split; [exact HPe|]); exists l, k0;
      rewrite He; repeat split; try assumption. apply site_tryreset. }
  destruct (TRY_WITH_RESET cfg fuel a w) as [u w'|r w'|]; [| |exact I].
  - destruct H as (HP' & G). repeat split; try assumption.
    eapply grows_weaken; [exact Hw|exact G].
  - destruct H as (Hr & HP' & G). repeat split; try assumption.
    + right. exact Hr.
    + eapply grows_weaken; [exact Hw|exact G].
Qed.

(** A handler that ends with [ret l]. *)
Lemma keeps_then (l : locals) {A} (m : M E A) (w : world E) :
  L l -> keeps_here (fun _ : A => True) w (m w) ->
  keeps_here L w (bind m (fun _ => ret l) w).
Proof.
  intros HL Hm. eapply keeps_bind; [exact Hm|].
  intros a w' HP _. apply keeps_ret; assumption.
Qed.

Lemma keeps_for_keys (l : locals) (k0 : usbdevice E) (f : Z -> call) (n : nat) :
  L l -> P k0 ->
  forall (i : nat) (w : world E),
    (forall j, (i <= j < i + n)%nat -> site cfg l k0 (f (Z.of_nat j))) ->
    P (kb w) ->
    keeps_here (fun _ : unit => True) w (for_keys cfg f i n w).
Proof.
  intros HL HP0. induction n as [|n IH]; intros i w Hs HP.
  - apply keeps_ret; auto.
  - simpl for_keys. eapply keeps_bind.
    + apply (keeps_invoke l k0); try assumption. apply Hs. lia.
    + intros _ w' HP' _. apply IH; [|exact HP']. intros j Hj. apply Hs. lia.
Qed.

(** What [%u] and [%x] store is an [unsigned]. *)
Lemma scan_unsigned_range (base : Z) (wd : option nat) (s rest : string) (v : Z) :
  scan_int false base wd s = Conv v rest -> 0 <= v < 2 ^ 32.
Proof.
  unfold scan_int. intros H.
  repeat match type of H with
         | context [match ?x with _ => _ end] => destruct x
         end;
    try discriminate; injection H as <- _; apply Z.mod_pos_bound; lia.
Qed.

Lemma scan_lit_conv {A} (c : ascii) (s rest : string) (f : string -> scan A)
  (v : A) :
  scan_lit c s f = Conv v rest -> exists s', s = String c s' /\ f s' = Conv v rest.
Proof.
  destruct s as [|c' s']; [discriminate|]. simpl.
  destruct (Ascii.eqb c' c) eqn:Hc; [|discriminate].
  apply Ascii.eqb_eq in Hc. subst c'. intros H. exists s'. auto.
Qed.

Lemma sscanf_hash_u_range (kn rest : string) (v : Z) :
  sscanf_hash_u kn = Conv v rest -> 0 <= v < 2 ^ 32.
Proof.
  intros H. apply scan_lit_conv in H. destruct H as (s' & _ & H).
  exact (scan_unsigned_range _ _ _ _ _ H).
Qed.

Lemma sscanf_hash_x_range (kn rest : string) (v : Z) :
  sscanf_hash_x kn = Conv v rest -> 0 <= v < 2 ^ 32.
Proof.
  intros H. apply scan_lit_conv in H. destruct H as (s' & _ & H).
  apply scan_lit_conv in H. destruct H as (s'' & _ & H).
  exact (scan_unsigned_range _ _ _ _ _ H).
Qed.

(** A numeric key selector that is accepted is a key: an unsigned number
    below [N_KEYS_EXTENDED], whatever [keycode] held. *)
Lemma numeric_key_range (kc0 : Z) (kn : string) (kc : Z) :
  0 <= kc0 ->
  numeric_key cfg kc0 kn = Some kc ->
  0 <= kc < Z.of_nat (cfg_N_KEYS_EXTENDED cfg).
Proof.
  intros H0. unfold numeric_key.
  pose proof (sscanf_hash_u_range kn) as Hu.
  pose proof (sscanf_hash_x_range kn) as Hx.
  destruct (sscanf_hash_u kn) as [v1 r1| |];
    destruct (sscanf_hash_x kn) as [v2 r2| |]; simpl;
    repeat match goal with
           | |- context [?a <? ?b] => destruct (Z.ltb_spec a b)
           end; simpl; intros Hsome; try discriminate; injection Hsome as <-;
    (split; [|assumption]);
    try assumption;
    try (apply (Hu _ _ eq_refl)); try (apply (Hx _ _ eq_refl)).
Qed.

(** Where the condition does not read [keycode] unwritten, what it held is
    of no account. *)
Lemma numeric_key_written (kc0 kc0' : Z) (kn : string) :
  keycode_unwritten kn = false ->
  numeric_key cfg kc0 kn = numeric_key cfg kc0' kn.
Proof.
  unfold keycode_unwritten, numeric_key.
  destruct (sscanf_hash_u kn) as [v1 r1| |];
    destruct (sscanf_hash_x kn) as [v2 r2| |];
    intros H; try discriminate; reflexivity.
Qed.

Lemma keeps_uninitialised (w : world E) :
  P (kb w) -> keeps_here (fun v : Z => 0 <= v) w (uninitialised cfg w).
Proof.
  intros HP. split; [exact HP|]. split.
  - unfold wrap_uint. apply Z.mod_pos_bound. reflexivity.
  - exists []. split; [symmetry; apply app_nil_r|constructor].
Qed.

Lemma find_key_bound (km : list (option string)) (kn : string) (n : nat) :
  forall i j, find_key km kn i n = Some j -> (i <= j < i + n)%nat.
Proof.
  induction n as [|n IH]; intros i j H; simpl in H; [discriminate|].
  destruct (nth i km None) as [name|].
  - destruct (String.eqb kn name).
    + injection H as <-. lia.
    + apply IH in H. lia.
  - apply IH in H. lia.
Qed.

Lemma keeps_key_command (l : locals) (k0 : usbdevice E) (kn right : string)
  (w : world E) :
  P (kb w) -> L l -> P k0 -> rejected cfg k0 (command l) = false ->
  keeps_here (fun _ : unit => True) w (key_command cfg l kn right w).
Proof.
  intros HP HL HP0 Hrej. unfold key_command.
  destruct (String.eqb kn "all").
  - apply (keeps_for_keys l k0); try assumption.
    intros j Hj. apply site_key; [exact Hrej|lia].
  - apply keeps_bind with (LA := fun v : Z => 0 <= v).
    { destruct (keycode_unwritten kn);
        [apply keeps_uninitialised; exact HP|].
      apply keeps_ret; [exact HP|lia]. }
    intros kc0 w0 HP0' H0.
    destruct (numeric_key cfg kc0 kn) as [kc|] eqn:Hk.
    + pose proof (numeric_key_range _ _ _ H0 Hk) as H1.
      eapply keeps_bind.
      * apply (keeps_invoke l k0); try assumption.
        apply site_key; assumption.
      * intros _ w' HP' _. apply keeps_ret; auto.
    + unfold bind at 1, get_kb.
      destruct (find_key (keymap (kb w0)) kn 0 (cfg_N_KEYS_EXTENDED cfg))
        as [i|] eqn:Hf.
      * apply find_key_bound in Hf. eapply keeps_bind.
        -- apply (keeps_invoke l k0); try assumption.
           apply site_key; [exact Hrej|lia].
        -- intros _ w' HP' _. apply keeps_ret; auto.
      * apply keeps_ret; auto.
Qed.

Lemma keeps_scan_keys (l : locals) (k0 : usbdevice E) (word right : string)
  (left : nat) (n : nat) :
  L l -> P k0 -> rejected cfg k0 (command l) = false ->
  forall (position : nat) (w : world E),
    P (kb w) ->
    keeps_here (fun _ : unit => True) w
      (scan_keys cfg n l word right left position w).
Proof.
  intros HL HP0 Hrej. induction n as [|n IH]; intros position w HP.
  - apply keeps_ret; auto.
  - simpl scan_keys. destruct (position <? left)%nat; [|apply keeps_ret; auto].
    destruct (sscanf_keyname (str_drop position word)) as [[kn field]|];
      [|apply keeps_ret; auto].
    eapply keeps_bind.
    + apply (keeps_key_command l k0); assumption.
    + intros _ w' HP' _. apply IH. exact HP'.
Qed.

Lemma keeps_colon_split (l : locals) (word : string) (w : world E) :
  P (kb w) -> L l -> rejected cfg (kb w) (command l) = false ->
  keeps_here L w (colon_split cfg l word w).
Proof.
  intros HP HL Hrej. destruct word as [|a s]; [apply keeps_ret; assumption|].
  unfold colon_split.
  destruct (Z.leb_spec (sscanf_left (String a s)) 0) as [Hl|Hl];
    [apply keeps_ret; assumption|].
  assert (Hne : str_take (Z.to_nat (sscanf_left (String a s))) (String a s)
                <> EmptyString).
  { destruct (Z.to_nat (sscanf_left (String a s))) eqn:Hn; [lia|discriminate]. }
  destruct (command l) eqn:Hc;
    try (apply keeps_then; [exact HL|];
         apply (keeps_scan_keys l (kb w)); try assumption;
         rewrite Hc; exact Hrej);
    (apply keeps_then; [exact HL|]; apply (keeps_invoke l (kb w));
     try assumption; apply site_do_macro; [tauto|exact Hrej|exact Hne]).
Qed.

Lemma keeps_dispatch_active (fuel : nat) (l : locals) (word : string)
  (w : world E) :
  P (kb w) -> L l -> rejected cfg (kb w) (command l) = false ->
  keeps_here L w (dispatch_active cfg fuel l word w).
Proof.
  intros HP HL Hrej. unfold dispatch_active.
  destruct (command l) eqn:Hc;
    try (apply keeps_colon_split; try assumption; rewrite Hc; exact Hrej);
    try (apply keeps_then; [exact HL|]; apply (keeps_invoke l (kb w));
         try assumption; apply site_whole; [reflexivity|exact Hrej]).
  - (* SWITCH *)
    unfold bind at 1, get_kb.
    destruct (negb (Nat.eqb (currentmode (profile (kb w))) (mode l)));
      [|apply keeps_ret; assumption].
    eapply keeps_bind;
      [apply (keeps_emit l (kb w)); try assumption; apply site_lock|].
    intros _ w1 HP1 _. eapply keeps_bind;
      [apply keeps_modify; apply switch_keeps; assumption|].
    intros _ w2 HP2 _. eapply keeps_bind;
      [apply (keeps_emit l (kb w)); try assumption; apply site_unlock|].
    intros _ w3 HP3 _. apply keeps_then; [exact HL|].
    apply (keeps_invoke l (kb w)); try assumption. apply site_setmodeindex.
  - (* HWLOAD *)
    unfold bind at 1, get_kb.
    eapply keeps_bind with (LA := fun _ : unit => True).
    { destruct (usbdelay (kb w) <? 10); [|apply keeps_ret; auto].
      apply keeps_modify. apply usbdelay_keeps; [lia|exact HP]. }
    intros _ w1 HP1 _. eapply keeps_bind;
      [apply (keeps_TRY l (kb w)); try assumption; apply site_do_io; tauto|].
    intros _ w2 HP2 _. eapply keeps_bind;
      [apply (keeps_TRY l (kb w)); try assumption; apply site_updatergb; tauto|].
    intros _ w3 HP3 _. apply keeps_then; [exact HL|].
    apply keeps_modify. apply usbdelay_restores; assumption.
  - (* HWSAVE *)
    unfold bind at 1, get_kb.
    eapply keeps_bind with (LA := fun _ : unit => True).
    { destruct (usbdelay (kb w) <? 10); [|apply keeps_ret; auto].
      apply keeps_modify. apply usbdelay_keeps; [lia|exact HP]. }
    intros _ w1 HP1 _. eapply keeps_bind;
      [apply (keeps_TRY l (kb w)); try assumption; apply site_do_io; tauto|].
    intros _ w2 HP2 _. eapply keeps_bind;
      [apply (keeps_TRY l (kb w)); try assumption; apply site_updatergb; tauto|].
    intros _ w3 HP3 _. apply keeps_then; [exact HL|].
    apply keeps_modify. apply usbdelay_restores; assumption.
  - (* FWUPDATE *)
    eapply keeps_bind;
      [apply (keeps_invoke l (kb w)); try assumption; apply site_fwupdate|].
    intros r w1 HP1 _. destruct (negb (r =? 0)); [|apply keeps_ret; assumption].
    split; [right; reflexivity|]. split; [exact HP1|apply grows_refl].
  - (* POLLRATE *)
    unfold bind at 1, get_kb.
    destruct (HAS_FEATURES (kb w) (cfg_FEAT_ADJRATE cfg)) eqn:Hf;
      [|apply keeps_ret; assumption].
    destruct (pollrate_of_word word) as [rate|]; [|apply keeps_ret; assumption].
    destruct (cfg_pollrate cfg rate >? maxpollrate (kb w)) eqn:Hr.
    + apply keeps_then; [exact HL|].
      apply (keeps_emit l (kb w)); try assumption. apply site_err.
    + apply keeps_then; [exact HL|].
      apply (keeps_TRY l (kb w)); try assumption.
      apply site_pollrate; [exact Hf|].
      rewrite Z.gtb_ltb in Hr. apply Z.ltb_ge in Hr. exact Hr.
  - (* IDLE *)
    apply keeps_then; [exact HL|].
    apply (keeps_TRY l (kb w)); try assumption. apply site_idle.
  - (* ERASEPROFILE *)
    eapply keeps_bind;
      [apply (keeps_invoke l (kb w)); try assumption; apply site_eraseprofile|].
    intros _ w1 HP1 _. unfold bind, get_kb.
    apply keeps_ret; [exact HP1|]. apply refetch_keeps; assumption.
  - (* RGB *)
    destruct (sscanf_rgb word =? 3);
      [|apply keeps_colon_split; try assumption; rewrite Hc; exact Hrej].
    apply keeps_then; [exact HL|].
    apply (keeps_for_keys l (kb w)); try assumption.
    intros j Hj. apply site_rgb. lia.
  - (* MACRO *)
    destruct (String.eqb word "clear");
      [|apply keeps_colon_split; try assumption; rewrite Hc; exact Hrej].
    apply keeps_then; [exact HL|].
    apply (keeps_invoke l (kb w)); try assumption. apply site_macro.
    exact Hrej.
Qed.

Lemma keeps_active_gate (fuel : nat) (l : locals) (word : string) (w : world E) :
  P (kb w) -> L l -> rejected cfg (kb w) (command l) = false ->
  keeps_here L w (active_gate cfg fuel l word w).
Proof.
  intros HP HL Hrej. rewrite active_gate_eq.
  destruct (active (kb w)); [apply keeps_dispatch_active; assumption|].
  destruct (command l); try (apply keeps_ret; assumption).
  apply keeps_then; [exact HL|].
  apply (keeps_TRY l (kb w)); try assumption. apply site_active.
Qed.

Lemma keeps_dispatch_always (fuel : nat) (l : locals) (word : string)
  (w : world E) :
  P (kb w) -> L l -> rejected cfg (kb w) (command l) = false ->
  keeps_here L w (dispatch_always cfg fuel l word w).
Proof.
  intros HP HL Hrej. unfold dispatch_always.
  destruct (command l) eqn:Hc;
    try (apply keeps_active_gate; try assumption; rewrite Hc; exact Hrej).
  - (* DELAY *) apply keeps_ret; assumption.
  - (* MODE *)
    destruct (sscanf_d word) as [n s| |]; try (apply keeps_ret; assumption).
    destruct ((n >? 0) && (n <=? cfg_MODE_COUNT cfg)) eqn:Hn;
      [|apply keeps_ret; assumption].
    apply andb_prop in Hn. destruct Hn as [H0 H1].
    apply Z.gtb_lt in H0. apply Z.leb_le in H1.
    apply keeps_ret; [exact HP|]. apply mode_keeps; [lia|exact HL].
  - (* LAYOUT *)
    destruct (word =? "ansi")%string;
      [apply keeps_then; [exact HL|]; apply keeps_modify;
       apply layout_keeps; [left; reflexivity|exact HP]|].
    destruct (word =? "iso")%string;
      [apply keeps_then; [exact HL|]; apply keeps_modify;
       apply layout_keeps; [right; reflexivity|exact HP]|].
    apply keeps_ret; assumption.
  - (* ACCEL *)
    destruct (cfg_OS_MAC_LEGACY cfg);
      [|apply keeps_active_gate; try assumption; rewrite Hc; exact Hrej].
    destruct (word =? "on")%string;
      [apply keeps_then; [exact HL|]; apply keeps_modify;
       apply (proj1 (accel_keeps _ HP))|].
    destruct (word =? "off")%string;
      [apply keeps_then; [exact HL|]; apply keeps_modify;
       apply (proj2 (accel_keeps _ HP))|].
    apply keeps_ret; assumption.
  - (* SCROLLSPEED *)
    destruct (cfg_OS_MAC_LEGACY cfg);
      [|apply keeps_active_gate; try assumption; rewrite Hc; exact Hrej].
    destruct (sscanf_d word) as [n s| |];
      try (apply keeps_active_gate; try assumption; rewrite Hc; exact Hrej).
    apply keeps_then; [exact HL|]. apply keeps_modify.
    apply scroll_keeps. exact HP.
  - (* NOTIFYON *)
    destruct (sscanf_d word) as [n s| |]; try (apply keeps_ret; assumption).
    apply keeps_then; [exact HL|].
    apply (keeps_invoke l (kb w)); try assumption. apply site_mknotifynode.
  - (* NOTIFYOFF *)
    destruct (sscanf_d word) as [n s| |]; try (apply keeps_ret; assumption).
    destruct (n =? 0) eqn:Hn; simpl negb; cbv iota;
      [apply keeps_ret; assumption|].
    apply Z.eqb_neq in Hn. apply keeps_then; [exact HL|].
    apply (keeps_invoke l (kb w)); try assumption.
    apply site_rmnotifynode. exact Hn.
  - (* FPS *)
    destruct (sscanf_u word) as [n s| |]; try (apply keeps_ret; assumption).
    destruct (n >? 0); [|apply keeps_ret; assumption].
    unfold bind at 1, get_kb. apply keeps_then; [exact HL|].
    apply keeps_modify. rewrite clamp_code.
    apply usbdelay_keeps; [apply clamp_range|exact HP].
  - (* DITHER *)
    destruct (sscanf_u word) as [n s| |] eqn:Hs;
      try (apply keeps_ret; assumption).
    destruct (Z.leb_spec n 1) as [Hn|Hn]; [|apply keeps_ret; assumption].
    apply keeps_then; [exact HL|]. apply keeps_modify.
    apply dither_keeps; [|exact HP].
    pose proof (scan_unsigned_range _ _ _ _ _ Hs). lia.
  - (* GET *)
    apply keeps_then; [exact HL|].
    apply (keeps_invoke l (kb w)); try assumption. apply site_get.
  - (* RESET *)
    apply keeps_then; [exact HL|].
    apply (keeps_invoke l (kb w)); try assumption. apply site_reset.
Qed.

Lemma keeps_body (fuel : nat) (l : locals) (word : string) (w : world E) :
  P (kb w) -> L l -> keeps_here L w (readcmd_body cfg fuel l word w).
Proof.
  intros HP HL.
  assert (Hg : keeps_here L w (gates cfg fuel l word w)).
  { rewrite gates_eq.
    destruct (rejected cfg (kb w) (command l)) eqn:Hrej;
      [apply keeps_ret; assumption|]. simpl orb.
    destruct (fw_rejected (kb w) (command l));
      [apply keeps_ret; assumption|apply keeps_dispatch_always; assumption]. }
  unfold readcmd_body. destruct (sscanf_at_d word) as [n s| |]; try exact Hg.
  destruct (Z.ltb_spec n (cfg_OUTFIFO_MAX cfg)) as [Hn|Hn]; [|exact Hg].
  apply keeps_ret; [exact HP|]. apply notify_keeps; assumption.
Qed.

(** The assignment of a command word keeps [L]. *)
Hypothesis command_keeps : forall c l, L l -> L (with_command c l).

Lemma keeps_word (fuel : nat) (l : locals) (word : string) (w : world E) :
  P (kb w) -> L l -> keeps_here L w (readcmd_word cfg fuel l word w).
Proof.
  intros HP HL. unfold readcmd_word.
  destruct (lookup_command cfg word) as [c|];
    [|apply keeps_body; assumption].
  destruct (is_action c).
  - apply keeps_body; [exact HP|]. apply command_keeps. exact HL.
  - apply keeps_ret; [exact HP|]. apply command_keeps. exact HL.
Qed.

Lemma keeps_words (fuel : nat) (words : list string) :
  forall (l : locals) (w : world E),
    P (kb w) -> L l -> keeps_here L w (read_words cfg fuel l words w).
Proof.
  induction words as [|word words IH]; intros l w HP HL.
  - apply keeps_ret; assumption.
  - simpl read_words. eapply keeps_bind; [apply keeps_word; assumption|].
    intros l' w' HP' HL'. apply IH; assumption.
Qed.

Lemma keeps_ratelimit (l : locals) (w : world E) :
  P (kb w) -> L l ->
  keeps_here (fun _ : unit => True) w (rgb_ratelimit cfg w).
Proof.
  intros HP HL. unfold rgb_ratelimit. unfold bind at 1, get_kb.
  set (diff := timespec_diff_ns (cfg_clock_gettime cfg (kb w)) (last_rgb (kb w))).
  destruct (diff >? 0) eqn:H0; simpl andb; cbv iota;
    [|apply keeps_modify; apply last_rgb_keeps; exact HP].
  destruct (diff <? HERTZ_LIM) eqn:H1;
    [|apply keeps_modify; apply last_rgb_keeps; exact HP].
  apply Z.gtb_lt in H0. apply Z.ltb_lt in H1.
  eapply keeps_bind with (LA := fun _ : unit => True).
  { destruct (cfg_NDEBUG cfg); [apply keeps_ret; auto|].
    apply (keeps_emit l (kb w)); try assumption. apply site_warn. }
  intros _ w1 HP1 _. eapply keeps_bind.
  { apply (keeps_invoke l (kb w)); try assumption.
    apply site_nanosleep. lia. }
  intros _ w2 HP2 _. apply keeps_modify. apply last_rgb_keeps. exact HP2.
Qed.

Lemma keeps_finish (fuel : nat) (l : locals) (w : world E) :
  P (kb w) -> L l ->
  keeps_here (fun _ : unit => True) w (finish cfg fuel l w).
Proof.
  intros HP HL. unfold finish. unfold bind at 1, get_kb.
  eapply keeps_bind with (LA := fun _ : unit => True).
  { destruct (negb (needs_fw_update (kb w))); [|apply keeps_ret; auto].
    eapply keeps_bind with (LA := fun _ : unit => True).
    { destruct (command l); try (apply keeps_ret; auto).
      apply (keeps_ratelimit l); assumption. }
    intros _ w1 HP1 _. eapply keeps_bind.
    { apply (keeps_TRY l (kb w)); try assumption. apply site_updatergb. tauto. }
    intros _ w2 HP2 _.
    apply (keeps_TRY l (kb w)); try assumption. apply site_updatedpi. }
  intros _ w1 HP1 _. eapply keeps_bind with (LA := fun _ : unit => True).
  { destruct (cfg_NDEBUG cfg); [apply keeps_ret; auto|].
    destruct (command l); try (apply keeps_ret; auto).
    apply keeps_modify. apply leds_keeps. exact HP1. }
  intros _ w2 HP2 _. split; [left; reflexivity|].
  split; [exact HP2|apply grows_refl].
Qed.

(** A whole line keeps the invariants: [readcmd] returns 0 or 1, on a
    device that satisfies [P], and every call was [seen]. *)
Lemma keeps_readcmd (fuel : nat) (k : usbdevice E) (line : string) :
  P k -> L (initial k) ->
  match readcmd cfg fuel k line with
  | Return r w =>
      (r = 0 \/ r = 1) /\ P (kb w) /\ Forall (seen cfg P L) (log w)
  | Done _ _ => False
  | OutOfFuel => True
  end.
Proof.
  intros HP HL. unfold readcmd.
  pose proof (keeps_words fuel (strtok_words line) (initial k) (start k) HP HL)
    as Hw.
  unfold bind.
  destruct (read_words cfg fuel (initial k) (strtok_words line) (start k))
    as [l w|r w|]; [| |exact I].
  - destruct Hw as (HP' & HL' & (e1 & L1 & F1)).
    pose proof (keeps_finish fuel l w HP' HL') as Hf.
    assert (Hnd : forall u w', finish cfg fuel l w <> Done u w').
    { intros u w' H. unfold finish, bind, return_ in H.
      repeat match type of H with
             | context [match ?x with _ => _ end] => destruct x
             end; discriminate. }
    destruct (finish cfg fuel l w) as [u w'|r w'|]; [|  |exact I].
    + exact (Hnd u w' eq_refl).
    + destruct Hf as (Hr & HP'' & (e2 & L2 & F2)).
      repeat split; try assumption. rewrite L2, L1. simpl.
      apply Forall_app; split; assumption.
  - destruct Hw as (Hr & HP' & (e1 & L1 & F1)).
    repeat split; try assumption. rewrite L1. exact F1.
Qed.

End Protocol.

(** Every call of the log was made at one of the sites. *)
Lemma seen_calls {E} (cfg : config E) (P : usbdevice E -> Prop)
  (L : locals -> Prop) (w : world E) :
  Forall (seen cfg P L) (log w) ->
  forall c, In c (calls w) -> exists l k, L l /\ P k /\ site cfg l k c.
Proof.
  intros HF c Hin. unfold calls in Hin. apply in_map_iff in Hin.
  destruct Hin as (e & <- & He). rewrite Forall_forall in HF.
  destruct (HF e He) as (_ & H). exact H.
Qed.

Lemma seen_devices {E} (cfg : config E) (P : usbdevice E -> Prop)
  (L : locals -> Prop) (w : world E) :
  Forall (seen cfg P L) (log w) -> Forall (fun e => P (snd e)) (log w).
Proof. apply Forall_impl. intros e [H _]. exact H. Qed.

(** The obligations of [keeps_readcmd] that hold by computation. *)
Ltac kept := intros; first [assumption | exact I | split; assumption].

(** ** What a line keeps *)

(** X1.  [usbdelay] stays within [2, 10]: if the collaborators keep it there,
    [readcmd] returns (0 or 1) with [usbdelay] in [2, 10], also when it
    gives up after a failed reset, and every call it made saw it there. *)
Theorem usbdelay_stays_in_range {E} (cfg : config E) (fuel : nat)
  (k : usbdevice E) (line : string) :
  (forall c k', 2 <= usbdelay k' <= 10 ->
                2 <= usbdelay (fst (cfg_ext cfg c k')) <= 10) ->
  2 <= usbdelay k <= 10 ->
  match readcmd cfg fuel k line with
  | Return r w =>
      (r = 0 \/ r = 1) /\ 2 <= usbdelay (kb w) <= 10
      /\ Forall (fun e => 2 <= usbdelay (snd e) <= 10) (log w)
  | Done _ _ => False
  | OutOfFuel => True
  end.
Proof.
  intros Hext Hk.
  assert (H : match readcmd cfg fuel k line with
              | Return r w =>
                  (r = 0 \/ r = 1) /\ 2 <= usbdelay (kb w) <= 10
                  /\ Forall (seen cfg (fun k => 2 <= usbdelay k <= 10)
                               (fun _ => True)) (log w)
              | Done _ _ => False
              | OutOfFuel => True
              end)
    by (apply (keeps_readcmd E cfg (fun k => 2 <= usbdelay k <= 10)
                           (fun _ => True)); try kept; exact Hext).
  destruct (readcmd cfg fuel k line) as [u w|r w|]; try exact H.
  destruct H as (Hr & HP & HF). repeat split; try tauto.
  exact (seen_devices _ _ _ _ HF).
Qed.

(** X2.  [dither] stays 0 or 1, under the same condition on the collaborators. *)
Theorem dither_stays_binary {E} (cfg : config E) (fuel : nat)
  (k : usbdevice E) (line : string) :
  (forall c k', dither k' = 0 \/ dither k' = 1 ->
                dither (fst (cfg_ext cfg c k')) = 0
                \/ dither (fst (cfg_ext cfg c k')) = 1) ->
  dither k = 0 \/ dither k = 1 ->
  match readcmd cfg fuel k line with
  | Return r w => dither (kb w) = 0 \/ dither (kb w) = 1
  | Done _ _ => False
  | OutOfFuel => True
  end.
Proof.
  intros Hext Hk.
  assert (H : match readcmd cfg fuel k line with
              | Return r w =>
                  (r = 0 \/ r = 1) /\ (dither (kb w) = 0 \/ dither (kb w) = 1)
                  /\ Forall (seen cfg (fun k => dither k = 0 \/ dither k = 1)
                               (fun _ => True)) (log w)
              | Done _ _ => False
              | OutOfFuel => True
              end).
  { apply (keeps_readcmd E cfg (fun k => dither k = 0 \/ dither k = 1)
                           (fun _ => True)); try kept; try exact Hext.
    intros d m k0 Hd _. simpl. lia. }
  destruct (readcmd cfg fuel k line) as [u w|r w|]; try exact H.
  tauto.
Qed.

(** X3.  The current mode stays one of the [MODE_COUNT] modes, and so does the
    mode every call is given: if the collaborators keep [currentmode]
    below [MODE_COUNT], it is below [MODE_COUNT] after the line and the mode
    argument of every call was. *)
Theorem mode_stays_in_range {E} (cfg : config E) (fuel : nat)
  (k : usbdevice E) (line : string) :
  let n := Z.to_nat (cfg_MODE_COUNT cfg) in
  (forall c k', (currentmode (profile k') < n)%nat ->
                (currentmode (profile (fst (cfg_ext cfg c k'))) < n)%nat) ->
  (currentmode (profile k) < n)%nat ->
  match readcmd cfg fuel k line with
  | Return r w =>
      (currentmode (profile (kb w)) < n)%nat
      /\ forall c m, In c (calls w) -> mode_of_call c = Some m -> (m < n)%nat
  | Done _ _ => False
  | OutOfFuel => True
  end.
Proof.
  intros n Hext Hk.
  assert (H : match readcmd cfg fuel k line with
              | Return r w =>
                  (r = 0 \/ r = 1) /\ (currentmode (profile (kb w)) < n)%nat
                  /\ Forall (seen cfg
                               (fun k => (currentmode (profile k) < n)%nat)
                               (fun l => (mode l < n)%nat)) (log w)
              | Done _ _ => False
              | OutOfFuel => True
              end).
  { apply (keeps_readcmd E cfg (fun k => (currentmode (profile k) < n)%nat)
                           (fun l => (mode l < n)%nat)); try kept; try exact Hext.
    intros v l Hv _. unfold n. simpl. lia. }
  destruct (readcmd cfg fuel k line) as [u w|r w|]; try exact H.
  destruct H as (_ & HP & HF). split; [exact HP|].
  intros c m Hin Hm.
  destruct (seen_calls _ _ _ _ HF c Hin) as (l & k0 & HL & _ & Hs).
  destruct Hs; simpl in Hm; try discriminate; injection Hm as <-; exact HL.
Qed.

(** ** What a line never does *)

(** X4.  Notification node 0 is never removed. *)
Theorem never_removes_node_zero {E} (cfg : config E) (fuel : nat)
  (k : usbdevice E) (line : string) :
  match readcmd cfg fuel k line with
  | Return r w => ~ In (rmnotifynode 0) (calls w)
  | Done _ _ => False
  | OutOfFuel => True
  end.
Proof.
  assert (H : match readcmd cfg fuel k line with
              | Return r w =>
                  (r = 0 \/ r = 1) /\ True
                  /\ Forall (seen cfg (fun _ => True) (fun _ => True)) (log w)
              | Done _ _ => False
              | OutOfFuel => True
              end)
    by (apply (keeps_readcmd E cfg (fun _ => True)
                           (fun _ => True)); kept).
  destruct (readcmd cfg fuel k line) as [u w|r w|]; try exact H.
  destruct H as (_ & _ & HF). intros Hin.
  destruct (seen_calls _ _ _ _ HF _ Hin) as (l & k0 & _ & _ & Hs).
  inversion Hs. congruence.
Qed.

(** X5.  The throttle sleeps less than [HERTZ_LIM]: every [clock_nanosleep] is
    for more than 0 and less than 16528925 ns. *)
Theorem sleep_below_limit {E} (cfg : config E) (fuel : nat)
  (k : usbdevice E) (line : string) :
  match readcmd cfg fuel k line with
  | Return r w =>
      forall ns, In (clock_nanosleep ns) (calls w) -> 0 < ns < 16528925
  | Done _ _ => False
  | OutOfFuel => True
  end.
Proof.
  assert (H : match readcmd cfg fuel k line with
              | Return r w =>
                  (r = 0 \/ r = 1) /\ True
                  /\ Forall (seen cfg (fun _ => True) (fun _ => True)) (log w)
              | Done _ _ => False
              | OutOfFuel => True
              end)
    by (apply (keeps_readcmd E cfg (fun _ => True)
                           (fun _ => True)); kept).
  destruct (readcmd cfg fuel k line) as [u w|r w|]; try exact H.
  destruct H as (_ & _ & HF). intros ns Hin.
  destruct (seen_calls _ _ _ _ HF _ Hin) as (l & k0 & _ & _ & Hs).
  inversion Hs. assumption.
Qed.

(** X6.  The function tables are indexed by their own commands only: [do_io] by
    [HWLOAD] and [HWSAVE], [do_macro] by [MACRO] and [DPI] and never with an
    empty left side; and [updatergb] is only forced by the two. *)
Theorem tables_indexed_by_their_commands {E} (cfg : config E) (fuel : nat)
  (k : usbdevice E) (line : string) :
  match readcmd cfg fuel k line with
  | Return r w =>
      forall c, In c (calls w) ->
        match c with
        | vt_do_io v _ _ => v = HWLOAD \/ v = HWSAVE
        | vt_do_macro v _ _ lhs _ =>
            (v = MACRO \/ v = DPI) /\ lhs <> EmptyString
        | vt_updatergb force => force = 0 \/ force = 1
        | vt_updatedpi force => force = 0
        | _ => True
        end
  | Done _ _ => False
  | OutOfFuel => True
  end.
Proof.
  assert (H : match readcmd cfg fuel k line with
              | Return r w =>
                  (r = 0 \/ r = 1) /\ True
                  /\ Forall (seen cfg (fun _ => True) (fun _ => True)) (log w)
              | Done _ _ => False
              | OutOfFuel => True
              end)
    by (apply (keeps_readcmd E cfg (fun _ => True)
                           (fun _ => True)); kept).
  destruct (readcmd cfg fuel k line) as [u w|r w|]; try exact H.
  destruct H as (_ & _ & HF). intros c Hin.
  destruct (seen_calls _ _ _ _ HF _ Hin) as (l & k0 & _ & _ & Hs).
  destruct Hs; auto.
Qed.

(** X7.  Key indices are within the key array: with at least one key, every
    key index given to [do_cmd] or [rgb] is in [0, N_KEYS_EXTENDED),
    whatever the uninitialised [keycode] holds each time it is read. *)
Theorem key_index_in_bounds {E} (cfg : config E) (fuel : nat)
  (k : usbdevice E) (line : string) :
  (0 < cfg_N_KEYS_EXTENDED cfg)%nat ->
  match readcmd cfg fuel k line with
  | Return r w =>
      forall c key, In c (calls w) -> key_of_call c = Some key ->
                    0 <= key < Z.of_nat (cfg_N_KEYS_EXTENDED cfg)
  | Done _ _ => False
  | OutOfFuel => True
  end.
Proof.
  intros HN.
  assert (H : match readcmd cfg fuel k line with
              | Return r w =>
                  (r = 0 \/ r = 1) /\ True
                  /\ Forall (seen cfg (fun _ => True) (fun _ => True)) (log w)
              | Done _ _ => False
              | OutOfFuel => True
              end)
    by (apply (keeps_readcmd E cfg (fun _ => True)
                           (fun _ => True)); kept).
  destruct (readcmd cfg fuel k line) as [u w|r w|]; try exact H.
  destruct H as (_ & _ & HF). intros c key Hin Hk.
  destruct (seen_calls _ _ _ _ HF _ Hin) as (l & k0 & _ & _ & Hs).
  destruct Hs; simpl in Hk; try discriminate; injection Hk as <-.
  - lia.
  - assumption.
  - assumption.
Qed.

(** X8.  The notification channel is below [OUTFIFO_MAX] in every call. *)
Theorem channel_below_outfifo_max {E} (cfg : config E) (fuel : nat)
  (k : usbdevice E) (line : string) :
  0 < cfg_OUTFIFO_MAX cfg ->
  match readcmd cfg fuel k line with
  | Return r w =>
      forall c n, In c (calls w) -> channel_of_call c = Some n ->
                  n < cfg_OUTFIFO_MAX cfg
  | Done _ _ => False
  | OutOfFuel => True
  end.
Proof.
  intros HO.
  assert (H : match readcmd cfg fuel k line with
              | Return r w =>
                  (r = 0 \/ r = 1) /\ True
                  /\ Forall (seen cfg (fun _ => True)
                               (fun l => notifynumber l < cfg_OUTFIFO_MAX cfg))
                            (log w)
              | Done _ _ => False
              | OutOfFuel => True
              end)
    by (apply (keeps_readcmd E cfg (fun _ => True)
                           (fun l => notifynumber l < cfg_OUTFIFO_MAX cfg)); kept).
  destruct (readcmd cfg fuel k line) as [u w|r w|]; try exact H.
  destruct H as (_ & _ & HF). intros c n Hin Hn.
  destruct (seen_calls _ _ _ _ HF _ Hin) as (l & k0 & HL & _ & Hs).
  destruct Hs; simpl in Hn; try discriminate; injection Hn as <-;
    try exact HL.
  lia.
Qed.

(** X9.  The poll rate is never set above [maxpollrate]: if the collaborators
    leave [maxpollrate] alone, every rate given to [vtable.pollrate] is at
    most the device's maximum, and the device can adjust its rate. *)
Theorem pollrate_within_max {E} (cfg : config E) (fuel : nat)
  (k : usbdevice E) (line : string) :
  (forall c k', maxpollrate (fst (cfg_ext cfg c k')) = maxpollrate k') ->
  match readcmd cfg fuel k line with
  | Return r w =>
      forall rate, In (vt_pollrate rate) (calls w) ->
                   cfg_pollrate cfg rate <= maxpollrate k
  | Done _ _ => False
  | OutOfFuel => True
  end.
Proof.
  intros Hext.
  assert (H : match readcmd cfg fuel k line with
              | Return r w =>
                  (r = 0 \/ r = 1) /\ maxpollrate (kb w) = maxpollrate k
                  /\ Forall (seen cfg
                               (fun k' => maxpollrate k' = maxpollrate k)
                               (fun _ => True)) (log w)
              | Done _ _ => False
              | OutOfFuel => True
              end).
  { apply (keeps_readcmd E cfg (fun k' => maxpollrate k' = maxpollrate k)
                           (fun _ => True)); try kept.
    intros c k' Hk. rewrite Hext. exact Hk. }
  destruct (readcmd cfg fuel k line) as [u w|r w|]; try exact H.
  destruct H as (_ & _ & HF). intros rate Hin.
  destruct (seen_calls _ _ _ _ HF _ Hin) as (l & k0 & _ & HP & Hs).
  inversion Hs; subst. simpl in HP. rewrite <- HP. assumption.
Qed.

(** ** Capabilities *)

Lemma land_lor_disjoint (f a b : Z) :
  Z.land a b = 0 -> Z.land (Z.lor f a) b = Z.land f b.
Proof. intros H. rewrite Z.land_lor_distr_l, H, Z.lor_0_r. reflexivity. Qed.

Lemma land_land_subset (f m b : Z) :
  Z.land (Z.land f m) b = b -> Z.land f b = b.
Proof.
  intros H. apply Z.bits_inj'. intros n Hn.
  apply (f_equal (fun z => Z.testbit z n)) in H.
  rewrite !Z.land_spec in *.
  destruct (Z.testbit f n), (Z.testbit m n), (Z.testbit b n);
    simpl in *; congruence.
Qed.

(** The writes of [LAYOUT] and [ACCEL] do not give a device a capability it
    lacks, when their bits are not bits of the capability. *)
Lemma lacking_kept {E} (cfg : config E) (feat : Z) :
  Z.land (cfg_FEAT_ANSI cfg) feat = 0 ->
  Z.land (cfg_FEAT_ISO cfg) feat = 0 ->
  Z.land (cfg_FEAT_MOUSEACCEL cfg) feat = 0 ->
  (forall a (k : usbdevice E),
     a = cfg_FEAT_ANSI cfg \/ a = cfg_FEAT_ISO cfg ->
     HAS_FEATURES k feat = false ->
     HAS_FEATURES
       (set_features
          (Z.lor (Z.land (features k) (Z.lnot (cfg_FEAT_LMASK cfg))) a) k)
       feat = false)
  /\ (forall k : usbdevice E,
        HAS_FEATURES k feat = false ->
        HAS_FEATURES
          (set_features (Z.lor (features k) (cfg_FEAT_MOUSEACCEL cfg)) k) feat
        = false
        /\ HAS_FEATURES
             (set_features
                (Z.land (features k) (Z.lnot (cfg_FEAT_MOUSEACCEL cfg))) k)
             feat = false).
Proof.
  intros HA HI HM. unfold HAS_FEATURES. simpl. split.
  - intros a k Ha Hk. apply Z.eqb_neq in Hk. apply Z.eqb_neq. intros H.
    apply Hk. rewrite land_lor_disjoint in H by (destruct Ha; subst; assumption).
    exact (land_land_subset _ _ _ H).
  - intros k Hk. apply Z.eqb_neq in Hk. split; apply Z.eqb_neq; intros H.
    + rewrite land_lor_disjoint in H by assumption. contradiction.
    + apply Hk. exact (land_land_subset _ _ _ H).
Qed.

(** X10.  Without [FEAT_BIND] nothing is bound: if the device lacks the
    capability, the collaborators do not add it and the layout and
    acceleration bits are not part of it, no line makes a call for [BIND],
    [UNBIND], [REBIND] or [MACRO]. *)
Theorem bind_needs_feature {E} (cfg : config E) (fuel : nat)
  (k : usbdevice E) (line : string) :
  Z.land (cfg_FEAT_ANSI cfg) (cfg_FEAT_BIND cfg) = 0 ->
  Z.land (cfg_FEAT_ISO cfg) (cfg_FEAT_BIND cfg) = 0 ->
  Z.land (cfg_FEAT_MOUSEACCEL cfg) (cfg_FEAT_BIND cfg) = 0 ->
  (forall c k', HAS_FEATURES k' (cfg_FEAT_BIND cfg) = false ->
                HAS_FEATURES (fst (cfg_ext cfg c k')) (cfg_FEAT_BIND cfg) = false) ->
  HAS_FEATURES k (cfg_FEAT_BIND cfg) = false ->
  match readcmd cfg fuel k line with
  | Return r w => forall c, In c (calls w) -> bind_call c = false
  | Done _ _ => False
  | OutOfFuel => True
  end.
Proof.
  intros HA HI HM Hext Hk.
  destruct (lacking_kept cfg (cfg_FEAT_BIND cfg) HA HI HM) as [Hlay Hacc].
  assert (H : match readcmd cfg fuel k line with
              | Return r w =>
                  (r = 0 \/ r = 1)
                  /\ HAS_FEATURES (kb w) (cfg_FEAT_BIND cfg) = false
                  /\ Forall (seen cfg
                               (fun k => HAS_FEATURES k (cfg_FEAT_BIND cfg) = false)
                               (fun _ => True)) (log w)
              | Done _ _ => False
              | OutOfFuel => True
              end)
    by (apply (keeps_readcmd E cfg
                 (fun k => HAS_FEATURES k (cfg_FEAT_BIND cfg) = false)
                 (fun _ => True)); try kept; assumption).
  destruct (readcmd cfg fuel k line) as [u w|r w|]; try exact H.
  destruct H as (_ & _ & HF). intros c Hin.
  destruct (seen_calls _ _ _ _ HF _ Hin) as (l & k0 & _ & HP & Hs).
  simpl in HP.
  destruct Hs as [| | | | | | | | | | | | | c0 word Hw Hr | c0 key right Hr
                 | | Hr | c0 lhs rhs Hc Hr | | | | | |];
    try reflexivity.
  - destruct c0; try reflexivity; discriminate.
  - unfold rejected in Hr. destruct c0; try reflexivity;
      rewrite HP in Hr; discriminate.
  - unfold rejected in Hr. rewrite HP in Hr. discriminate.
  - unfold rejected in Hr. destruct Hc; subst c0; [|reflexivity].
    rewrite HP in Hr. discriminate.
Qed.

(** X11.  Without [FEAT_NOTIFY] no key notification is set: under the same
    conditions for [FEAT_NOTIFY], no line calls [do_cmd[NOTIFY]]. *)
Theorem notify_needs_feature {E} (cfg : config E) (fuel : nat)
  (k : usbdevice E) (line : string) :
  Z.land (cfg_FEAT_ANSI cfg) (cfg_FEAT_NOTIFY cfg) = 0 ->
  Z.land (cfg_FEAT_ISO cfg) (cfg_FEAT_NOTIFY cfg) = 0 ->
  Z.land (cfg_FEAT_MOUSEACCEL cfg) (cfg_FEAT_NOTIFY cfg) = 0 ->
  (forall c k', HAS_FEATURES k' (cfg_FEAT_NOTIFY cfg) = false ->
                HAS_FEATURES (fst (cfg_ext cfg c k')) (cfg_FEAT_NOTIFY cfg)
                = false) ->
  HAS_FEATURES k (cfg_FEAT_NOTIFY cfg) = false ->
  match readcmd cfg fuel k line with
  | Return r w => forall c, In c (calls w) -> notify_call c = false
  | Done _ _ => False
  | OutOfFuel => True
  end.
Proof.
  intros HA HI HM Hext Hk.
  destruct (lacking_kept cfg (cfg_FEAT_NOTIFY cfg) HA HI HM) as [Hlay Hacc].
  assert (H : match readcmd cfg fuel k line with
              | Return r w =>
                  (r = 0 \/ r = 1)
                  /\ HAS_FEATURES (kb w) (cfg_FEAT_NOTIFY cfg) = false
                  /\ Forall (seen cfg
                               (fun k => HAS_FEATURES k (cfg_FEAT_NOTIFY cfg)
                                         = false)
                               (fun _ => True)) (log w)
              | Done _ _ => False
              | OutOfFuel => True
              end)
    by (apply (keeps_readcmd E cfg
                 (fun k => HAS_FEATURES k (cfg_FEAT_NOTIFY cfg) = false)
                 (fun _ => True)); try kept; assumption).
  destruct (readcmd cfg fuel k line) as [u w|r w|]; try exact H.
  destruct H as (_ & _ & HF). intros c Hin.
  destruct (seen_calls _ _ _ _ HF _ Hin) as (l & k0 & _ & HP & Hs).
  simpl in HP.
  destruct Hs as [| | | | | | | | | | | | | c0 word Hw Hr | c0 key right Hr
                 | | Hr | c0 lhs rhs Hc Hr | | | | | |];
    try reflexivity.
  - destruct c0; try reflexivity; discriminate.
  - unfold rejected in Hr. destruct c0; try reflexivity;
      rewrite HP in Hr; discriminate.
Qed.

(** * The tokenizer *)

Lemma no_space_app (s : string) (c : ascii) :
  no_space s = true -> (c =? " ")%char = false ->
  no_space (s ++ String c EmptyString) = true.
Proof.
  intros Hs Hc. induction s as [|a s IH]; simpl in *.
  - rewrite Hc. reflexivity.
  - apply andb_prop in Hs. destruct Hs as [Ha Hs]. rewrite Ha, (IH Hs).
    reflexivity.
Qed.

Lemma strtok_from_words (s : string) :
  forall tok, no_space tok = true -> Forall is_word (strtok_from s tok).
Proof.
  induction s as [|c s IH]; intros tok Ht; simpl.
  - destruct tok; [constructor|].
    constructor; [split; [discriminate|exact Ht]|constructor].
  - destruct (c =? " ")%char eqn:Hc.
    + destruct tok; [apply IH; reflexivity|].
      constructor; [split; [discriminate|exact Ht]|apply IH; reflexivity].
    + apply IH. apply no_space_app; assumption.
Qed.

Lemma strtok_from_space (s1 s2 : string) :
  forall tok,
    strtok_from (s1 ++ String " " s2) tok
    = (strtok_from s1 tok ++ strtok_words s2)%list.
Proof.
  induction s1 as [|c s1 IH]; intros tok; simpl.
  - destruct tok; reflexivity.
  - destruct (c =? " ")%char.
    + destruct tok; [apply IH|]. rewrite IH. reflexivity.
    + apply IH.
Qed.

Lemma app_empty_r (s : string) : (s ++ "")%string = s.
Proof. induction s; simpl; congruence. Qed.

Lemma app_cons_assoc (s t : string) (c : ascii) :
  ((s ++ String c "") ++ t)%string = (s ++ String c t)%string.
Proof. induction s; simpl; congruence. Qed.

Lemma strtok_from_word (s : string) :
  forall tok, no_space s = true ->
    strtok_from s tok
    = match (tok ++ s)%string with
      | EmptyString => []
      | String _ _ => [(tok ++ s)%string]
      end.
Proof.
  induction s as [|c s IH]; intros tok Hs; simpl in *.
  - rewrite app_empty_r. destruct tok; reflexivity.
  - apply andb_prop in Hs. destruct Hs as [Hc Hs].
    apply negb_true_iff in Hc. rewrite Hc. rewrite (IH _ Hs).
    rewrite app_cons_assoc. reflexivity.
Qed.

(** X12.  The words of a line are not empty and contain no space; a space
    between two parts of a line separates their words; and a line without
    words, such as one of spaces only, is read as the empty line. *)
Theorem strtok_words_wellformed (line1 line2 : string) :
  Forall is_word (strtok_words line1)
  /\ strtok_words (line1 ++ String " " line2)
     = (strtok_words line1 ++ strtok_words line2)%list
  /\ strtok_words (String " " line1) = strtok_words line1
  /\ strtok_words (line1 ++ " ") = strtok_words line1.
Proof.
  split; [apply strtok_from_words; reflexivity|].
  split; [apply strtok_from_space|]. split; [reflexivity|].
  unfold strtok_words. rewrite strtok_from_space. apply app_nil_r.
Qed.

(** X13.  Round trip: the words of a list of words joined by single spaces are
    that list. *)
Theorem strtok_words_concat (words : list string) :
  Forall is_word words ->
  strtok_words (String.concat " " words) = words.
Proof.
  induction 1 as [|w ws [Hne Hw] HF IH]; [reflexivity|].
  assert (H1 : strtok_words w = [w]).
  { unfold strtok_words. rewrite (strtok_from_word w "" Hw). simpl.
    destruct w; [congruence|reflexivity]. }
  destruct ws as [|w' ws]; [exact H1|].
  change (String.concat " " (w :: w' :: ws))
    with (w ++ String " " (String.concat " " (w' :: ws)))%string.
  unfold strtok_words at 1. rewrite strtok_from_space.
  fold (strtok_words w). rewrite H1, IH. reflexivity.
Qed.

(** * The command word and its arguments *)

Section Words.

Variable E : Type.
Variable cfg : config E.

Lemma quiet_word (fuel : nat) (l : locals) (word : string) (w : world E) :
  command l = NONE -> lookup_command cfg word = None ->
  exists l',
    readcmd_word cfg fuel l word w = Done l' w
    /\ command l' = NONE /\ mode l' = mode l.
Proof.
  intros Hc Hl. unfold readcmd_word. rewrite Hl. unfold readcmd_body.
  assert (Hg : gates cfg fuel l word w = Done l w).
  { rewrite gates_eq. unfold rejected. rewrite Hc. reflexivity. }
  destruct (sscanf_at_d word) as [n s| |];
    try (exists l; rewrite Hg; auto).
  destruct (n <? cfg_OUTFIFO_MAX cfg).
  - exists (with_notifynumber n l). auto.
  - exists l. rewrite Hg. auto.
Qed.

Lemma quiet_words (fuel : nat) (words : list string) :
  forall (l : locals) (w : world E),
    command l = NONE ->
    Forall (fun word => lookup_command cfg word = None) words ->
    exists l',
      read_words cfg fuel l words w = Done l' w
      /\ command l' = NONE /\ mode l' = mode l.
Proof.
  induction words as [|word words IH]; intros l w Hc HF.
  - exists l. auto.
  - inversion HF as [|? ? Hw HF']; subst.
    destruct (quiet_word fuel l word w Hc Hw) as (l1 & H1 & Hc1 & Hm1).
    destruct (IH l1 w Hc1 HF') as (l2 & H2 & Hc2 & Hm2).
    exists l2. rewrite read_words_cons, H1, H2. repeat split; congruence.
Qed.

Lemma finish_none (fuel : nat) (l : locals) (w : world E) :
  command l = NONE ->
  finish cfg fuel l w =
  if needs_fw_update (kb w) then Return 0 w
  else bind (TRY_WITH_RESET cfg fuel (vt_updatergb 0))
         (fun _ => bind (TRY_WITH_RESET cfg fuel (vt_updatedpi 0))
            (fun _ => return_ 0)) w.
Proof.
  intros Hc. unfold finish. unfold bind at 1, get_kb. rewrite Hc.
  destruct (needs_fw_update (kb w)); simpl negb; cbv iota; unfold bind, ret.
  - destruct (cfg_NDEBUG cfg); reflexivity.
  - destruct (TRY_WITH_RESET cfg fuel (vt_updatergb 0) w) as [u w1|r w1|];
      try reflexivity.
    destruct (TRY_WITH_RESET cfg fuel (vt_updatedpi 0) w1) as [u' w2|r w2|];
      try reflexivity.
    destruct (cfg_NDEBUG cfg); reflexivity.
Qed.

(** X14.  A line without a command word, and so the empty line, is only flushed:
    no word of it causes a call or a change, whatever selectors and other
    words it has; the flush is [updatergb(0)] and [updatedpi(0)] without the
    throttle, and nothing at all on a device that needs a firmware
    update. *)
Theorem line_without_command (fuel : nat) (k : usbdevice E) (line : string) :
  Forall (fun word => lookup_command cfg word = None) (strtok_words line) ->
  readcmd cfg fuel k line =
  if needs_fw_update k then Return 0 (start k)
  else bind (TRY_WITH_RESET cfg fuel (vt_updatergb 0))
         (fun _ => bind (TRY_WITH_RESET cfg fuel (vt_updatedpi 0))
            (fun _ => return_ 0)) (start k).
Proof.
  intros HF. unfold readcmd. unfold bind at 1.
  destruct (quiet_words fuel (strtok_words line) (initial k) (start k)
              eq_refl HF) as (l' & Hr & Hc & _).
  rewrite Hr. apply finish_none. exact Hc.
Qed.

(** X15.  The pending command stays pending: a word that is not a command word
    leaves [command] as it is, whatever the word does, so every further
    argument goes to the same command. *)
Theorem pending_command_persists (fuel : nat) (l : locals) (word : string)
  (w : world E) :
  lookup_command cfg word = None ->
  match readcmd_word cfg fuel l word w with
  | Done l' _ => command l' = command l
  | _ => True
  end.
Proof.
  intros Hl. unfold readcmd_word. rewrite Hl.
  pose proof (keeps_body E cfg (fun _ => True)
                (fun l' => command l' = command l)) as H.
  specialize (H ltac:(kept) ltac:(kept) ltac:(kept) ltac:(kept) ltac:(kept)
                ltac:(kept) ltac:(kept) ltac:(kept) ltac:(kept) ltac:(kept)
                ltac:(kept) fuel l word w I eq_refl).
  destruct (readcmd_body cfg fuel l word w) as [l' w'|r w'|]; try exact I.
  destruct H as (_ & H & _). exact H.
Qed.

End Words.

(** * Key names and the split at the colon *)

Lemma find_key_spec (km : list (option string)) (keyname : string) (n : nat) :
  forall i0 : nat,
    match find_key km keyname i0 n with
    | Some i =>
        (i0 <= i < i0 + n)%nat /\ nth i km None = Some keyname
        /\ forall j : nat, (i0 <= j < i)%nat -> nth j km None <> Some keyname
    | None =>
        forall j : nat, (i0 <= j < i0 + n)%nat -> nth j km None <> Some keyname
    end.
Proof.
  induction n as [|n IH]; intros i0; simpl.
  - intros j Hj. lia.
  - assert (Hstep :
      nth i0 km None <> Some keyname ->
      match find_key km keyname (S i0) n with
      | Some i =>
          (i0 <= i < i0 + S n)%nat /\ nth i km None = Some keyname
          /\ forall j : nat, (i0 <= j < i)%nat -> nth j km None <> Some keyname
      | None =>
          forall j : nat,
            (i0 <= j < i0 + S n)%nat -> nth j km None <> Some keyname
      end).
    { intros Hne. specialize (IH (S i0)).
      destruct (find_key km keyname (S i0) n) as [i|].
      - destruct IH as (Hi & Hk & Hm). split; [lia|]. split; [exact Hk|].
        intros j Hj. destruct (Nat.eq_dec j i0) as [->|Hd]; [exact Hne|].
        apply Hm. lia.
      - intros j Hj. destruct (Nat.eq_dec j i0) as [->|Hd]; [exact Hne|].
        apply IH. lia. }
    destruct (nth i0 km None) as [name|] eqn:Hnth.
    + destruct (String.eqb keyname name) eqn:Heq.
      * apply String.eqb_eq in Heq. subst name.
        split; [lia|]. split; [exact Hnth|]. intros j Hj. lia.
      * apply Hstep. intros H. injection H as ->.
        rewrite String.eqb_refl in Heq. discriminate.
    + apply Hstep. discriminate.
Qed.

(** X16.  The keymap loop finds the first key that carries the name, and none
    only if no key below [n] carries it: keys without a name are passed
    over, and of two keys with one name the later is never reached. *)
Theorem find_key_first_match (km : list (option string)) (keyname : string)
  (n : nat) :
  (forall i : nat,
     find_key km keyname 0 n = Some i <->
     (i < n)%nat /\ nth i km None = Some keyname
     /\ forall j : nat, (j < i)%nat -> nth j km None <> Some keyname)
  /\ (find_key km keyname 0 n = None <->
      forall j : nat, (j < n)%nat -> nth j km None <> Some keyname).
Proof.
  pose proof (find_key_spec km keyname n 0%nat) as H.
  destruct (find_key km keyname 0 n) as [i0|].
  - destruct H as (Hi & Hk & Hm). split.
    + intros i. split.
      * intros Heq. injection Heq as <-. split; [lia|]. split; [exact Hk|].
        intros j Hj. apply Hm. lia.
      * intros (Hi' & Hk' & Hm'). f_equal.
        destruct (Nat.lt_trichotomy i0 i) as [Hlt|[Heq|Hgt]]; [|exact Heq|].
        -- exfalso. exact (Hm' i0 Hlt Hk).
        -- exfalso. apply (Hm i ltac:(lia)). exact Hk'.
    + split; [discriminate|]. intros Hno. exfalso.
      apply (Hno i0 ltac:(lia)). exact Hk.
  - split.
    + intros i. split; [discriminate|]. intros (Hi' & Hk' & _). exfalso.
      apply (H i ltac:(lia)). exact Hk'.
    + split; [intros _ j Hj; apply H; lia|reflexivity].
Qed.

Section Keys.

Variable E : Type.
Variable cfg : config E.

(** X17.  A key given by number: [#] and a decimal numeral select that key when
    the number is below [N_KEYS_EXTENDED]; otherwise the word is looked up
    in the keymap as a name. *)
Theorem key_by_number (l : locals) (s right : string) (v : Z) (w : world E) :
  numeral s v -> v <= UINT_MAX ->
  key_command cfg l (String "#" s) right w =
  if v <? Z.of_nat (cfg_N_KEYS_EXTENDED cfg) then
    bind (invoke cfg (vt_do_cmd (command l) (mode l) (notifynumber l) v right))
         (fun _ => ret tt) w
  else
    match find_key (keymap (kb w)) (String "#" s) 0 (cfg_N_KEYS_EXTENDED cfg)
    with
    | Some i =>
        bind (invoke cfg (vt_do_cmd (command l) (mode l) (notifynumber l)
                            (Z.of_nat i) right))
             (fun _ => ret tt) w
    | None => Done tt w
    end.
Proof.
  intros Hn Hv. pose proof (sscanf_u_numeral s v Hn Hv) as Hu.
  unfold key_command.
  change (String.eqb (String "#" s) "all") with false. cbv iota.
  assert (Hw : keycode_unwritten (String "#" s) = false).
  { unfold keycode_unwritten, sscanf_hash_u, scan_lit.
    change ("#" =? "#")%char with true. cbv iota. rewrite Hu. reflexivity. }
  rewrite Hw. unfold bind at 1, ret at 1.
  unfold numeric_key, sscanf_hash_u, sscanf_hash_x.
  unfold scan_lit at 1. change ("#" =? "#")%char with true. cbv iota.
  rewrite Hu.
  change (negb (1 =? 0)) with true. rewrite andb_true_l.
  destruct (v <? Z.of_nat (cfg_N_KEYS_EXTENDED cfg)) eqn:Hlt; [reflexivity|].
  unfold scan_lit at 1. change ("#" =? "#")%char with true. cbv iota.
  destruct Hn as [Hne Hval]. destruct s as [|c s]; [congruence|].
  simpl in Hval. destruct (digit_val 10 c) as [d|] eqn:Hd; [|discriminate].
  destruct (digit_val_char c d Hd) as (_ & _ & _ & Hx & _).
  unfold scan_lit. rewrite Hx.
  change (negb (0 =? 0)) with false. rewrite andb_false_l.
  unfold bind, get_kb.
  destruct (find_key (keymap (kb w)) (String "#" (String c s)) 0
              (cfg_N_KEYS_EXTENDED cfg)); reflexivity.
Qed.

Lemma span_until_app (stop : ascii -> bool) (p : string) (d : ascii)
  (r : string) :
  forall wd : option nat,
    none_of stop p = true -> stop d = true ->
    match wd with Some n => (String.length p <= n)%nat | None => True end ->
    span_until stop wd (p ++ String d r) = (p, String d r).
Proof.
  induction p as [|c p IH]; intros wd Hp Hd Hw; simpl.
  - rewrite Hd. rewrite andb_false_r. reflexivity.
  - simpl in Hp. apply andb_prop in Hp. destruct Hp as [Hc Hp].
    assert (Hwl : width_left wd = true).
    { destruct wd as [[|n]|]; simpl in *; try reflexivity. lia. }
    rewrite Hwl, Hc. simpl andb. cbv iota.
    rewrite (IH (width_dec wd) Hp Hd); [reflexivity|].
    destruct wd as [[|n]|]; simpl in *; try exact I; lia.
Qed.

Lemma str_drop_app (p r : string) : str_drop (String.length p) (p ++ r) = r.
Proof. induction p as [|c p IH]; simpl; [destruct r; reflexivity|exact IH]. Qed.

Lemma str_take_app (p r : string) : str_take (String.length p) (p ++ r) = p.
Proof.
  induction p as [|c p IH]; simpl; [destruct r; reflexivity|].
  rewrite IH. reflexivity.
Qed.

Lemma str_length_app (p r : string) :
  String.length (p ++ r) = (String.length p + String.length r)%nat.
Proof. induction p as [|c p IH]; simpl; [reflexivity|]. rewrite IH. reflexivity. Qed.

Lemma str_app_assoc (p q r : string) :
  ((p ++ q) ++ r)%string = (p ++ (q ++ r))%string.
Proof. induction p as [|c p IH]; simpl; [reflexivity|]. rewrite IH. reflexivity. Qed.

Lemma sscanf_left_app (left right : string) :
  left <> EmptyString -> none_of is_colon left = true ->
  sscanf_left (left ++ String ":" right) = Z.of_nat (String.length left).
Proof.
  intros Hne Hl. unfold sscanf_left.
  rewrite (span_until_app is_colon left ":" right None Hl eq_refl I).
  destruct left; [congruence|reflexivity].
Qed.

Lemma span_until_whole (stop : ascii -> bool) (p : string) :
  none_of stop p = true -> span_until stop None p = (p, EmptyString).
Proof.
  induction p as [|c p IH]; intros Hp; simpl; [reflexivity|].
  simpl in Hp. apply andb_prop in Hp. destruct Hp as [Hc Hp].
  rewrite Hc, (IH Hp). reflexivity.
Qed.

Lemma str_drop_all (p : string) : str_drop (String.length p) p = EmptyString.
Proof. induction p as [|c p IH]; simpl; [reflexivity|exact IH]. Qed.

Lemma str_take_all (p : string) : str_take (String.length p) p = p.
Proof. induction p as [|c p IH]; simpl; [reflexivity|]. rewrite IH. reflexivity. Qed.

Lemma colon_split_macro (l : locals) (left right : string) (w : world E) :
  command l = MACRO \/ command l = DPI ->
  left <> EmptyString -> none_of is_colon left = true ->
  colon_split cfg l (left ++ String ":" right) w
  = bind (invoke cfg (vt_do_macro (command l) (mode l) (notifynumber l)
                        left right))
         (fun _ => ret l) w
  /\ colon_split cfg l left w
     = bind (invoke cfg (vt_do_macro (command l) (mode l) (notifynumber l)
                           left EmptyString))
            (fun _ => ret l) w
  /\ colon_split cfg l (String ":" right) w = Done l w.
Proof.
  intros Hc Hne Hl.
  assert (Hpos : (Z.of_nat (String.length left) <=? 0) = false).
  { apply Z.leb_gt. destruct left; [congruence|]. simpl String.length. lia. }
  split; [|split].
  - unfold colon_split. rewrite (sscanf_left_app left right Hne Hl).
    rewrite Hpos, Nat2Z.id, str_drop_app, str_take_app.
    change (":" =? ":")%char with true. cbv iota.
    destruct Hc as [-> | ->]; reflexivity.
  - unfold colon_split, sscanf_left. rewrite (span_until_whole is_colon left Hl).
    replace (match left with
             | EmptyString => -1
             | String _ _ => Z.of_nat (String.length left)
             end) with (Z.of_nat (String.length left))
      by (destruct left; [congruence|reflexivity]).
    rewrite Hpos, Nat2Z.id, str_drop_all, str_take_all.
    destruct Hc as [-> | ->]; reflexivity.
  - reflexivity.
Qed.

(** A word with a colon is no command word. *)
Lemma find_cmd_in (tbl : list (string * cmd)) (word : string) (c : cmd) :
  find_cmd tbl word = Some c -> In (word, c) tbl.
Proof.
  induction tbl as [|[s c0] tbl IH]; simpl; [discriminate|].
  destruct (String.eqb word s) eqn:Heq.
  - intros H. injection H as <-. apply String.eqb_eq in Heq. subst s.
    left. reflexivity.
  - intros H. right. exact (IH H).
Qed.

Lemma none_of_colon_app (a b : string) :
  none_of is_colon (a ++ String ":" b) = false.
Proof.
  induction a as [|c a IH]; simpl; [reflexivity|]. rewrite IH.
  apply andb_false_r.
Qed.

Lemma colon_not_verb (a b : string) :
  lookup_command cfg (a ++ String ":" b) = None.
Proof.
  unfold lookup_command.
  destruct (find_cmd cmd_strings (a ++ String ":" b)) as [c|] eqn:H;
    [|reflexivity].
  exfalso. apply find_cmd_in in H.
  assert (HF : forallb (fun p : string * cmd => none_of is_colon (fst p))
                 cmd_strings = true) by reflexivity.
  rewrite forallb_forall in HF. specialize (HF _ H). simpl in HF.
  rewrite none_of_colon_app in HF. discriminate.
Qed.

Lemma selector_like_word (word : string) :
  selector_like word = false -> sscanf_at_d word = NoMatch \/ word = EmptyString.
Proof.
  destruct word as [|c s]; [right; reflexivity|]. simpl. intros H. left.
  unfold sscanf_at_d, scan_lit. rewrite H. reflexivity.
Qed.

Lemma selector_like_app (a b : string) :
  a <> EmptyString -> selector_like a = false ->
  sscanf_at_d (a ++ b) = NoMatch.
Proof.
  destruct a as [|c s]; [congruence|]. simpl. intros _ H.
  unfold sscanf_at_d, scan_lit. simpl. rewrite H. reflexivity.
Qed.

(** A word of a command of the second switch that is not handled there, on
    an active device that needs no firmware update, is split at the colon. *)
Lemma word_to_colon_split (fuel : nat) (l : locals) (word : string)
  (w : world E) :
  lookup_command cfg word = None -> sscanf_at_d word = NoMatch ->
  rejected cfg (kb w) (command l) = false ->
  active (kb w) = true -> needs_fw_update (kb w) = false ->
  match command l with
  | MACRO => String.eqb word "clear" = false
  | RGB => sscanf_rgb word <> 3
  | DPI | HWANIM | BIND | UNBIND | REBIND | NOTIFY => True
  | _ => False
  end ->
  readcmd_word cfg fuel l word w = colon_split cfg l word w.
Proof.
  intros Hl Hs Hrej Ha Hf Hc.
  rewrite (argument_word E cfg fuel l word w Hl)
    by (intros m s H; rewrite Hs in H; discriminate).
  rewrite gates_eq, Hrej. unfold fw_rejected. rewrite Hf.
  rewrite andb_false_l. cbv iota. simpl orb. cbv iota.
  unfold dispatch_always.
  destruct (command l) eqn:Hcmd; try contradiction;
    rewrite active_gate_eq, Ha; unfold dispatch_active; rewrite Hcmd;
    try reflexivity.
  - (* RGB *)
    destruct (sscanf_rgb word =? 3) eqn:H3; [|reflexivity].
    apply Z.eqb_eq in H3. contradiction.
  - (* MACRO *) rewrite Hc. reflexivity.
Qed.

(** X18.  [MACRO] and [DPI] on an active device get the two sides of the
    first colon: for a word [left:right] one call of [do_macro] with what
    stands before the colon and, without the colon, what stands after it,
    which may hold further colons; for a word without a colon (for [MACRO]
    other than [clear]) one call with that word and an empty right side;
    the word [clear] of [MACRO] is one call of [vtable.macro] instead; and
    a word that starts with a colon is dropped. *)
Theorem macro_colon_split (fuel : nat) (l : locals) (left right : string)
  (w : world E) :
  command l = MACRO \/ command l = DPI ->
  rejected cfg (kb w) (command l) = false ->
  active (kb w) = true -> needs_fw_update (kb w) = false ->
  left <> EmptyString -> none_of is_colon left = true ->
  selector_like left = false ->
  readcmd_word cfg fuel l (left ++ String ":" right) w
  = Done l (after_call cfg
              (vt_do_macro (command l) (mode l) (notifynumber l) left right) w)
  /\ (lookup_command cfg left = None ->
      (command l = MACRO -> left <> "clear") ->
      readcmd_word cfg fuel l left w
      = Done l (after_call cfg
                  (vt_do_macro (command l) (mode l) (notifynumber l) left
                     EmptyString) w))
  /\ (command l = MACRO ->
      readcmd_word cfg fuel l "clear" w
      = Done l (after_call cfg (vt_macro (mode l) (notifynumber l)) w))
  /\ readcmd_word cfg fuel l (String ":" right) w = Done l w.
Proof.
  intros Hc Hrej Ha Hf Hne Hl Hsel.
  destruct (colon_split_macro l left right w Hc Hne Hl) as (H1 & H2 & H3).
  assert (Hcase : forall word,
            String.eqb word "clear" = false ->
            match command l with
            | MACRO => String.eqb word "clear" = false
            | RGB => sscanf_rgb word <> 3
            | DPI | HWANIM | BIND | UNBIND | REBIND | NOTIFY => True
            | _ => False
            end)
    by (intros word Hw; destruct Hc as [-> | ->]; [exact Hw|exact I]).
  split; [|split; [|split]].
  - rewrite word_to_colon_split; try assumption.
    + apply colon_not_verb.
    + apply selector_like_app; assumption.
    + apply Hcase. apply String.eqb_neq. intros Heq.
      pose proof (none_of_colon_app left right) as Hn. rewrite Heq in Hn.
      discriminate.
  - intros Hlook Hclear. rewrite word_to_colon_split; try assumption.
    + destruct (selector_like_word left Hsel) as [H|H]; [exact H|congruence].
    + destruct Hc as [Hm | Hd].
      * rewrite Hm. apply String.eqb_neq. exact (Hclear Hm).
      * rewrite Hd. exact I.
  - intros Hm.
    assert (Hlook : lookup_command cfg "clear" = None) by reflexivity.
    rewrite (argument_word E cfg fuel l "clear" w Hlook)
      by (intros m s H; discriminate).
    rewrite gates_eq, Hrej. unfold fw_rejected. rewrite Hf.
    rewrite andb_false_l. cbv iota. simpl orb. cbv iota.
    unfold dispatch_always. rewrite Hm.
    rewrite active_gate_eq, Ha. unfold dispatch_active. rewrite Hm.
    reflexivity.
  - rewrite word_to_colon_split; try assumption.
    + exact (colon_not_verb EmptyString right).
    + reflexivity.
    + apply Hcase. reflexivity.
Qed.

Lemma none_of_weaken (s : string) :
  none_of is_colon_or_comma s = true -> none_of is_colon s = true.
Proof.
  induction s as [|c s IH]; simpl; [reflexivity|]. intros H.
  apply andb_prop in H. destruct H as [Hc Hs]. rewrite (IH Hs).
  unfold is_colon_or_comma in Hc. unfold is_colon.
  destruct (c =? ":")%char; [discriminate|reflexivity].
Qed.

Lemma none_of_app (stop : ascii -> bool) (p q : string) :
  none_of stop p = true -> none_of stop q = true ->
  none_of stop (p ++ q) = true.
Proof.
  induction p as [|c p IH]; simpl; intros Hp Hq; [exact Hq|].
  apply andb_prop in Hp. destruct Hp as [Hc Hp]. rewrite Hc, (IH Hp Hq).
  reflexivity.
Qed.

Lemma concat_no_colon (names : list string) :
  Forall key_name names ->
  none_of is_colon (String.concat "," names) = true.
Proof.
  induction 1 as [|x xs (_ & _ & Hx) HF IH]; [reflexivity|].
  simpl. destruct xs as [|y ys]; [apply none_of_weaken; exact Hx|].
  apply none_of_app; [apply none_of_weaken; exact Hx|]. exact IH.
Qed.

Lemma scan_keys_names (l : locals) (right : string) (names : list string) :
  forall (n : nat) (pre : string) (w : world E),
    Forall key_name names ->
    (String.length (String.concat "," names) <= n)%nat ->
    scan_keys cfg n l (pre ++ String.concat "," names ++ String ":" right)
      right (String.length pre + String.length (String.concat "," names))
      (String.length pre) w
    = each_key cfg l names right w.
Proof.
  induction names as [|x xs IH]; intros n pre w HF Hn.
  - simpl String.concat. simpl String.length. rewrite Nat.add_0_r.
    destruct n; simpl; [reflexivity|]. rewrite Nat.ltb_irrefl. reflexivity.
  - inversion HF as [|? ? Hx HF']; subst.
    destruct Hx as (Hne & Hlen & Hno).
    assert (Hlx : (0 < String.length x)%nat).
    { destruct x; [congruence|simpl; lia]. }
    assert (Hcat : (String.length x
                    <= String.length (String.concat "," (x :: xs)))%nat).
    { simpl. destruct xs; [lia|]. rewrite str_length_app. lia. }
    destruct n as [|n]; [lia|].
    cbn [scan_keys each_key].
    replace (String.length pre
             <? String.length pre + String.length (String.concat "," (x :: xs)))%nat
      with true by (symmetry; apply Nat.ltb_lt; lia).
    rewrite str_drop_app.
    destruct xs as [|y ys].
    + (* the last name: the colon follows *)
      change (String.concat "," [x]) with x in *.
      unfold sscanf_keyname.
      rewrite (span_until_app is_colon_or_comma x ":" right (Some 10%nat)
                 Hno eq_refl Hlen).
      destruct x as [|c x']; [congruence|].
      unfold bind. destruct (key_command cfg l (String c x') right w)
        as [u w1|r w1|]; try reflexivity.
      replace (pre ++ String c x' ++ String ":" right)%string
        with ((pre ++ String c x') ++ String ":" right)%string
        by apply str_app_assoc.
      rewrite <- (str_length_app pre (String c x')), str_drop_app.
      change (":" =? ",")%char with false. cbv iota.
      specialize (IH n (pre ++ String c x')%string w1 HF').
      change (String.concat "," []) with EmptyString in IH.
      change (String.length "") with 0%nat in IH.
      rewrite Nat.add_0_r in IH. change ("" ++ String ":" right)%string
        with (String ":" right) in IH.
      rewrite str_length_app. rewrite str_length_app in IH.
      apply IH. lia.
    + (* a comma and further names follow *)
      change (String.concat "," (x :: y :: ys))
        with (x ++ String "," (String.concat "," (y :: ys)))%string.
      set (rest := String.concat "," (y :: ys)) in *.
      unfold sscanf_keyname.
      rewrite (str_app_assoc x (String "," rest) (String ":" right)).
      change (String "," rest ++ String ":" right)%string
        with (String "," (rest ++ String ":" right)).
      rewrite (span_until_app is_colon_or_comma x ","
                 (rest ++ String ":" right) (Some 10%nat) Hno eq_refl Hlen).
      destruct x as [|c x']; [congruence|].
      unfold bind. destruct (key_command cfg l (String c x') right w)
        as [u w1|r w1|]; try reflexivity.
      replace (pre ++ String c x' ++ String "," (rest ++ String ":" right))%string
        with ((pre ++ String c x') ++ String "," (rest ++ String ":" right))%string
        by apply str_app_assoc.
      rewrite <- (str_length_app pre (String c x')), str_drop_app.
      change ("," =? ",")%char with true. cbv iota.
      specialize (IH n ((pre ++ String c x') ++ ",")%string w1 HF').
      replace (((pre ++ String c x') ++ ",") ++ rest ++ String ":" right)%string
        with ((pre ++ String c x') ++ String "," (rest ++ String ":" right))%string
        in IH by (rewrite (str_app_assoc (pre ++ String c x') "," _);
                  reflexivity).
      replace (String.length ((pre ++ String c x') ++ ","))
        with (S (String.length (pre ++ String c x'))) in IH
        by (rewrite (str_length_app (pre ++ String c x') ","); simpl; lia).
      replace (String.length pre
               + String.length (String c x' ++ String "," rest))%nat
        with (S (String.length (pre ++ String c x')) + String.length rest)%nat
        by (rewrite !str_length_app; simpl; lia).
      apply IH.
      change (String.concat "," (String c x' :: y :: ys))
        with (String c x' ++ String "," rest)%string in Hn.
      rewrite str_length_app in Hn.
      simpl String.length in *. lia.
Qed.

Lemma colon_split_keys (l : locals) (names : list string) (right : string)
  (w : world E) :
  names <> [] -> Forall key_name names ->
  command l <> MACRO -> command l <> DPI ->
  colon_split cfg l (String.concat "," names ++ String ":" right) w
  = bind (each_key cfg l names right) (fun _ => ret l) w.
Proof.
  intros Hnil HF Hm Hd.
  set (body := String.concat "," names).
  assert (Hne : body <> EmptyString).
  { unfold body. destruct names as [|x xs]; [congruence|].
    inversion HF as [|? ? (Hx & _) _]; subst. simpl.
    destruct xs; [exact Hx|]. destruct x; [congruence|discriminate]. }
  assert (Hpos : (Z.of_nat (String.length body) <=? 0) = false).
  { apply Z.leb_gt. destruct body; [congruence|]. simpl String.length. lia. }
  unfold colon_split.
  rewrite (sscanf_left_app body right Hne (concat_no_colon names HF)).
  rewrite Hpos, Nat2Z.id, str_drop_app.
  change (":" =? ":")%char with true. cbv iota.
  pose proof (scan_keys_names l right names (String.length body) EmptyString) as H.
  simpl append in H. simpl String.length in H. fold body in H.
  assert (Hk : forall w0,
    scan_keys cfg (String.length body) l (body ++ String ":" right) right
      (String.length body) 0 w0 = each_key cfg l names right w0).
  { intros w0. apply H; [exact HF|lia]. }
  destruct (command l); try congruence;
    unfold bind; rewrite Hk; reflexivity.
Qed.

(** X19.  For [rgb], [hwanim], [bind], [unbind], [rebind] and [notify] on an
    active device, the left side of the colon is a list of key names: for
    names that [%10[^:,]] reads whole, separated by commas, the key handling
    (all keys for [all], the key of a number or of a name) runs once for each
    name, in the order written, with the right side as parameter; for [rgb]
    this is so unless the word reads as a hex colour. *)
Theorem key_list_scan (fuel : nat) (l : locals) (names : list string)
  (right : string) (w : world E) :
  key_list_command (command l) = true ->
  rejected cfg (kb w) (command l) = false ->
  active (kb w) = true -> needs_fw_update (kb w) = false ->
  names <> [] -> Forall key_name names ->
  selector_like (String.concat "," names) = false ->
  (command l = RGB ->
   sscanf_rgb (String.concat "," names ++ String ":" right) <> 3) ->
  readcmd_word cfg fuel l (String.concat "," names ++ String ":" right) w
  = bind (each_key cfg l names right) (fun _ => ret l) w.
Proof.
  intros Hk Hrej Ha Hf Hnil HF Hsel Hrgb.
  assert (Hne : String.concat "," names <> EmptyString).
  { destruct names as [|x xs]; [congruence|].
    inversion HF as [|? ? (Hx & _) _]; subst. simpl.
    destruct xs; [exact Hx|]. destruct x; [congruence|discriminate]. }
  rewrite word_to_colon_split; try assumption.
  - apply colon_split_keys; try assumption;
      intros Hc; rewrite Hc in Hk; discriminate.
  - apply colon_not_verb.
  - apply selector_like_app; assumption.
  - destruct (command l) eqn:Hc; try discriminate; try exact I.
    apply Hrgb. reflexivity.
Qed.

End Keys.

(** * The clock difference on instants of the monotonic clock *)

Lemma timespec_diff_ns_normalised (a b : timespec) :
  normalised a -> normalised b ->
  timespec_diff_ns a b = true_diff_ns a b.
Proof.
  intros [Ha Hna] [Hb Hnb].
  unfold timespec_diff_ns, true_diff_ns.
  rewrite (wrap_long_id (tv_sec a - tv_sec b))
    by (unfold LONG_MIN, LONG_MAX; lia).
  rewrite (wrap_long_id (tv_nsec a - tv_nsec b))
    by (unfold LONG_MIN, LONG_MAX; lia).
  set (ds := tv_sec a - tv_sec b). set (dn := tv_nsec a - tv_nsec b).
  assert (Hds : - 9223372034 <= ds <= 9223372034) by (unfold ds; lia).
  assert (Hdn : - 1000000000 < dn < 1000000000) by (unfold dn; lia).
  assert (Hq : 9223372034 < Z.quot (LONG_MAX - dn) 1000000000).
  { rewrite Z.quot_div_nonneg by (unfold LONG_MAX; lia).
    apply Z.lt_le_trans with (9223372035 * 1000000000 / 1000000000).
    - rewrite Z.div_mul by lia. lia.
    - apply Z.div_le_mono; unfold LONG_MAX; lia. }
  replace (Z.quot (LONG_MAX - dn) 1000000000 <=? ds) with false
    by (symmetry; apply Z.leb_gt; lia).
  rewrite andb_false_r.
  rewrite (wrap_long_id (ds * 1000000000))
    by (unfold LONG_MIN, LONG_MAX; lia).
  rewrite wrap_long_id by (unfold LONG_MIN, LONG_MAX; lia).
  lia.
Qed.

(** X20.  On instants as the clock gives them (nanoseconds below one second,
    seconds up to 9223372034, some 292 years) the function is the true
    difference in nanoseconds: swapping the arguments negates it, and it
    is positive exactly when the first instant is the later one. *)
Theorem timespec_diff_ns_order (a b : timespec) :
  normalised a -> normalised b ->
  timespec_diff_ns a b = true_diff_ns a b
  /\ timespec_diff_ns b a = - timespec_diff_ns a b
  /\ (0 < timespec_diff_ns a b <-> later a b).
Proof.
  intros Ha Hb.
  rewrite (timespec_diff_ns_normalised a b Ha Hb).
  rewrite (timespec_diff_ns_normalised b a Hb Ha).
  destruct Ha as [Ha Hna], Hb as [Hb Hnb].
  unfold true_diff_ns, later. split; [reflexivity|]. split; lia.
Qed.

(** * Single commands *)

Section Commands.

Variable E : Type.
Variable cfg : config E.

Lemma lookup_switch : lookup_command cfg "switch" = Some SWITCH.
Proof.
  unfold lookup_command.
  change (find_cmd cmd_strings "switch") with (Some SWITCH).
  unfold option_map, demote. destruct (cfg_OS_MAC cfg); reflexivity.
Qed.

Lemma switch_word (fuel : nat) (l : locals) (w : world E) :
  readcmd_word cfg fuel l "switch" w =
  if needs_fw_update (kb w) then Done (with_command SWITCH l) w
  else if active (kb w) then
    dispatch_active cfg fuel (with_command SWITCH l) "switch" w
  else Done (with_command SWITCH l) w.
Proof.
  unfold readcmd_word. rewrite lookup_switch.
  change (is_action SWITCH) with true. cbv iota.
  unfold readcmd_body. change (sscanf_at_d "switch") with (@NoMatch Z).
  cbv iota. rewrite gates_eq.
  change (command (with_command SWITCH l)) with SWITCH.
  unfold fw_rejected. change (rejected cfg (kb w) SWITCH) with false.
  rewrite orb_false_l. destruct (needs_fw_update (kb w)); [reflexivity|].
  simpl andb. cbv iota. unfold dispatch_always.
  change (command (with_command SWITCH l)) with SWITCH. cbv iota.
  rewrite active_gate_eq.
  change (command (with_command SWITCH l)) with SWITCH.
  destruct (active (kb w)); reflexivity.
Qed.

(** X21.  [switch] to the mode that is current already does nothing: no mutex, no
    call, no change, also on an inactive device and on one that needs a
    firmware update; so at the start of a line, where the pending mode is
    the current one. *)
Theorem switch_to_current_mode (fuel : nat) (l : locals) (w : world E) :
  mode l = currentmode (profile (kb w)) ->
  readcmd_word cfg fuel l "switch" w = Done (with_command SWITCH l) w.
Proof.
  intros Hm. rewrite switch_word.
  destruct (needs_fw_update (kb w)); [reflexivity|].
  destruct (active (kb w)); [|reflexivity].
  unfold dispatch_active.
  change (command (with_command SWITCH l)) with SWITCH. cbv iota.
  unfold bind at 1, get_kb.
  change (mode (with_command SWITCH l)) with (mode l).
  rewrite Hm, Nat.eqb_refl. reflexivity.
Qed.

Lemma mode_then_switch_run (fuel : nat) (l : locals) (s : string) (n : Z)
  (w : world E) :
  numeral s n -> 0 < n <= cfg_MODE_COUNT cfg -> n <= 2147483647 ->
  active (kb w) = true -> needs_fw_update (kb w) = false ->
  currentmode (profile (kb w)) <> Z.to_nat (n - 1) ->
  read_words cfg fuel l ["mode"; s; "switch"] w =
  Done (with_command SWITCH (with_mode (Z.to_nat (n - 1)) (with_command MODE l)))
    (after_call cfg (vt_setmodeindex (Z.to_nat (n - 1)))
       {| kb := set_profile (switch_mode (Z.to_nat (n - 1)) (profile (kb w)))
                  (kb w);
          log := log w
                 ++ [(queued_mutex_lock, kb w);
                     (queued_mutex_unlock,
                      set_profile
                        (switch_mode (Z.to_nat (n - 1)) (profile (kb w)))
                        (kb w))]; reads := reads w |}).
Proof.
  intros Hn Hr Hi Ha Hf Hc.
  pose proof (sscanf_d_numeral s n Hn Hi) as Hd.
  assert (Hmode : lookup_command cfg "mode" = Some MODE).
  { unfold lookup_command.
    change (find_cmd cmd_strings "mode") with (Some MODE).
    unfold option_map, demote. destruct (cfg_OS_MAC cfg); reflexivity. }
  rewrite read_words_cons.
  rewrite (verb_word E cfg fuel l "mode" MODE w Hmode eq_refl).
  cbv beta iota. rewrite read_words_cons.
  assert (Hl : lookup_command cfg s = None).
  { unfold lookup_command.
    rewrite (numeric_not_verb true s EmptyString n Hd). reflexivity. }
  rewrite (argument_word E cfg fuel (with_command MODE l) s w Hl
             (numeric_not_selector true s EmptyString n Hd)).
  rewrite gates_eq. change (command (with_command MODE l)) with MODE.
  unfold fw_rejected. rewrite Hf.
  change (rejected cfg (kb w) MODE) with false. simpl orb. cbv iota.
  unfold dispatch_always. change (command (with_command MODE l)) with MODE.
  cbv iota. rewrite Hd.
  replace (n >? 0) with true by (symmetry; apply Z.gtb_lt; lia).
  replace (n <=? cfg_MODE_COUNT cfg) with true
    by (symmetry; apply Z.leb_le; lia).
  change (true && true) with true. cbv beta iota delta [ret].
  rewrite read_words_cons. rewrite switch_word, Hf, Ha.
  unfold dispatch_active.
  set (l1 := with_mode (Z.to_nat (n - 1)) (with_command MODE l)).
  change (command (with_command SWITCH l1)) with SWITCH. cbv iota.
  change (mode (with_command SWITCH l1)) with (Z.to_nat (n - 1)).
  apply Nat.eqb_neq in Hc.
  cbv beta iota delta [bind get_kb]. rewrite Hc.
  change (negb false) with true.
  cbv beta iota delta [emit modify invoke ret after_call read_words].
  cbn [kb log]. rewrite <- !app_assoc. reflexivity.
Qed.

Lemma nth_error_update_nth {X} (f : X -> X) (xs : list X) :
  forall i j : nat,
    nth_error (update_nth i f xs) j
    = if Nat.eqb j i then option_map f (nth_error xs j) else nth_error xs j.
Proof.
  induction xs as [|x xs IH]; intros i j.
  - destruct i, j; simpl; try reflexivity; destruct (Nat.eqb j i); reflexivity.
  - destruct i as [|i], j as [|j]; simpl; try reflexivity. apply IH.
Qed.

(** X22.  [mode N switch] on an active device: for a numeral [N] from 1 to
    [MODE_COUNT] that is not the current mode, the mutex is taken and
    released and then the device is told the index [N - 1]; on the device
    so told, mode [N - 1] is the current mode, the [triggered] flags of the
    mode left are all 0, and every other mode and every other field are as
    they were. *)
Theorem mode_then_switch (fuel : nat) (l : locals) (s : string) (n : Z)
  (w : world E) :
  numeral s n -> 0 < n <= cfg_MODE_COUNT cfg -> n <= 2147483647 ->
  active (kb w) = true -> needs_fw_update (kb w) = false ->
  currentmode (profile (kb w)) <> Z.to_nat (n - 1) ->
  exists k1 w',
    read_words cfg fuel l ["mode"; s; "switch"] w
    = Done (with_command SWITCH
              (with_mode (Z.to_nat (n - 1)) (with_command MODE l))) w'
    /\ log w'
       = (log w ++ [(queued_mutex_lock, kb w); (queued_mutex_unlock, k1);
                    (vt_setmodeindex (Z.to_nat (n - 1)), k1)])%list
    /\ kb w' = fst (cfg_ext cfg (vt_setmodeindex (Z.to_nat (n - 1))) k1)
    /\ currentmode (profile k1) = Z.to_nat (n - 1)
    /\ (forall i : nat,
          nth_error (modes (profile k1)) i
          = if Nat.eqb i (currentmode (profile (kb w)))
            then option_map
                   (fun md => {| light_forceupdate := light_forceupdate md;
                                 macros_triggered :=
                                   map (fun _ => 0) (macros_triggered md) |})
                   (nth_error (modes (profile (kb w))) i)
            else nth_error (modes (profile (kb w))) i)
    /\ k1 = set_profile (profile k1) (kb w).
Proof.
  intros Hn Hr Hi Ha Hf Hc.
  exists (set_profile (switch_mode (Z.to_nat (n - 1)) (profile (kb w))) (kb w)).
  eexists.
  split; [exact (mode_then_switch_run fuel l s n w Hn Hr Hi Ha Hf Hc)|].
  split; [unfold after_call; cbn [log kb]; rewrite <- app_assoc; reflexivity|].
  split; [reflexivity|]. split; [reflexivity|].
  split; [|reflexivity].
  intros i. cbn [profile set_profile switch_mode modes].
  apply nth_error_update_nth.
Qed.

Lemma land_lor_within (f m a : Z) :
  Z.land a m = a ->
  Z.land (Z.lor (Z.land f (Z.lnot m)) a) m = a
  /\ Z.land (Z.lor (Z.land f (Z.lnot m)) a) (Z.lnot m) = Z.land f (Z.lnot m).
Proof.
  intros Ha. split; apply Z.bits_inj'; intros i Hi;
    rewrite ?Z.land_spec, ?Z.lor_spec, ?Z.land_spec, ?Z.lnot_spec by exact Hi;
    pose proof (f_equal (fun z => Z.testbit z i) Ha) as Hb; cbv beta in Hb;
    rewrite Z.land_spec in Hb;
    destruct (Z.testbit f i), (Z.testbit m i), (Z.testbit a i);
    simpl in *; congruence.
Qed.

Lemma layout_word (fuel : nat) (l : locals) (word : string)
  (w : world E) :
  command l = LAYOUT -> needs_fw_update (kb w) = false ->
  word = "ansi" \/ word = "iso" ->
  Z.land (cfg_FEAT_ANSI cfg) (cfg_FEAT_LMASK cfg) = cfg_FEAT_ANSI cfg ->
  Z.land (cfg_FEAT_ISO cfg) (cfg_FEAT_LMASK cfg) = cfg_FEAT_ISO cfg ->
  exists f : Z,
    readcmd_word cfg fuel l word w
    = Done l {| kb := set_features f (kb w); log := log w; reads := reads w |}
    /\ Z.land f (cfg_FEAT_LMASK cfg)
       = (if String.eqb word "ansi" then cfg_FEAT_ANSI cfg
          else cfg_FEAT_ISO cfg)
    /\ Z.land f (Z.lnot (cfg_FEAT_LMASK cfg))
       = Z.land (features (kb w)) (Z.lnot (cfg_FEAT_LMASK cfg)).
Proof.
  intros Hc Hf Hw Ha Hi.
  assert (Hgo : forall a : Z,
    Z.land a (cfg_FEAT_LMASK cfg) = a ->
    word = "ansi" /\ a = cfg_FEAT_ANSI cfg
    \/ word = "iso" /\ a = cfg_FEAT_ISO cfg ->
    readcmd_word cfg fuel l word w
    = Done l {| kb := set_features
                        (Z.lor (Z.land (features (kb w))
                                  (Z.lnot (cfg_FEAT_LMASK cfg))) a) (kb w);
                log := log w; reads := reads w |}).
  { intros a _ Hcase.
    assert (Hl : lookup_command cfg word = None)
      by (destruct Hcase as [[-> _] | [-> _]]; reflexivity).
    assert (Hs : forall m s, sscanf_at_d word <> Conv m s)
      by (destruct Hcase as [[-> _] | [-> _]]; intros m s; discriminate).
    rewrite (argument_word E cfg fuel l word w Hl Hs), gates_eq.
    unfold fw_rejected. rewrite Hc, Hf.
    change (rejected cfg (kb w) LAYOUT) with false. simpl orb. cbv iota.
    unfold dispatch_always. rewrite Hc.
    destruct Hcase as [[-> ->] | [-> ->]]; reflexivity. }
  destruct Hw as [Hw|Hw].
  - exists (Z.lor (Z.land (features (kb w)) (Z.lnot (cfg_FEAT_LMASK cfg)))
              (cfg_FEAT_ANSI cfg)).
    split; [apply Hgo; [exact Ha|left; split; [exact Hw|reflexivity]]|].
    rewrite Hw. change (String.eqb "ansi" "ansi") with true. cbv iota.
    apply land_lor_within. exact Ha.
  - exists (Z.lor (Z.land (features (kb w)) (Z.lnot (cfg_FEAT_LMASK cfg)))
              (cfg_FEAT_ISO cfg)).
    split; [apply Hgo; [exact Hi|right; split; [exact Hw|reflexivity]]|].
    rewrite Hw. change (String.eqb "iso" "ansi") with false. cbv iota.
    apply land_lor_within. exact Hi.
Qed.

(** X23.  [layout ansi] and [layout iso] replace the layout field of the
    features and nothing else: when the chosen layout lies within
    [FEAT_LMASK], the features the device has afterwards are those of the
    layout under the mask and the old ones outside it, every other field
    of the device is as it was, and nothing is called. *)
Theorem layout_replaces_layout_bits (fuel : nat) (l : locals) (word : string)
  (w : world E) :
  command l = LAYOUT -> needs_fw_update (kb w) = false ->
  word = "ansi" \/ word = "iso" ->
  Z.land (cfg_FEAT_ANSI cfg) (cfg_FEAT_LMASK cfg) = cfg_FEAT_ANSI cfg ->
  Z.land (cfg_FEAT_ISO cfg) (cfg_FEAT_LMASK cfg) = cfg_FEAT_ISO cfg ->
  exists w' : world E,
    readcmd_word cfg fuel l word w = Done l w'
    /\ Z.land (features (kb w')) (cfg_FEAT_LMASK cfg)
       = (if String.eqb word "ansi" then cfg_FEAT_ANSI cfg
          else cfg_FEAT_ISO cfg)
    /\ Z.land (features (kb w')) (Z.lnot (cfg_FEAT_LMASK cfg))
       = Z.land (features (kb w)) (Z.lnot (cfg_FEAT_LMASK cfg))
    /\ kb w' = set_features (features (kb w')) (kb w)
    /\ log w' = log w.
Proof.
  intros Hc Hf Hw Ha Hi.
  destruct (layout_word fuel l word w Hc Hf Hw Ha Hi) as (f & Hr & H1 & H2).
  eexists. split; [exact Hr|]. cbn [kb log features set_features].
  split; [exact H1|]. split; [exact H2|]. split; reflexivity.
Qed.

(** X24.  Where [OS_MAC] is not defined the words [layout], [accel] and
    [scrollspeed] are still recognised, and cancel the pending command:
    [command] becomes [NONE], so the words after them are dropped until the
    next command word. *)
Theorem mac_only_words_cancel (fuel : nat) (l : locals) (word : string)
  (w : world E) :
  cfg_OS_MAC cfg = false ->
  word = "layout" \/ word = "accel" \/ word = "scrollspeed" ->
  readcmd_word cfg fuel l word w = Done (with_command NONE l) w
  /\ forall arg : string,
       lookup_command cfg arg = None ->
       exists l',
         readcmd_word cfg fuel (with_command NONE l) arg w = Done l' w
         /\ command l' = NONE /\ mode l' = mode l.
Proof.
  intros Hmac Hw. split.
  - apply verb_word; [|reflexivity].
    unfold lookup_command, demote. rewrite Hmac.
    destruct Hw as [-> | [-> | ->]]; reflexivity.
  - intros arg Harg.
    exact (quiet_word E cfg fuel (with_command NONE l) arg w eq_refl Harg).
Qed.



End Commands.

(** * The value [readcmd] returns *)

Section Returns.

Variable E : Type.
Variable cfg : config E.

Local Abbreviation stops_here := (stops cfg).

Lemma stops_ret {A} (a : A) (w : world E) : stops_here w (ret a w).
Proof. exists []. symmetry. apply app_nil_r. Qed.

Lemma stops_get_kb (w : world E) : stops_here w (get_kb w).
Proof. exists []. symmetry. apply app_nil_r. Qed.

Lemma stops_modify (f : usbdevice E -> usbdevice E) (w : world E) :
  stops_here w (modify f w).
Proof. exists []. symmetry. apply app_nil_r. Qed.

Lemma stops_uninitialised (w : world E) :
  stops_here w (uninitialised cfg w).
Proof. exists []. symmetry. apply app_nil_r. Qed.

Lemma stops_emit (c : call) (w : world E) : stops_here w (emit c w).
Proof. exists [(c, kb w)]. reflexivity. Qed.

Lemma stops_invoke (c : call) (w : world E) : stops_here w (invoke cfg c w).
Proof. exists [(c, kb w)]. reflexivity. Qed.

Lemma stops_bind {A B} (m : M E A) (f : A -> M E B) (w : world E) :
  stops_here w (m w) ->
  (forall a w', stops_here w' (f a w')) ->
  stops_here w (bind m f w).
Proof.
  intros Hm Hf. unfold bind. destruct (m w) as [a w1|r w1|]; [|exact Hm|exact I].
  destruct Hm as (e1 & H1). specialize (Hf a w1).
  destruct (f a w1) as [b w2|r w2|]; [| |exact I].
  - destruct Hf as (e2 & H2). exists (e1 ++ e2)%list.
    rewrite H2, H1, app_assoc. reflexivity.
  - destruct Hf as [Hr|(Hr & e2 & H2 & pre & c & k & He & Hc & Hs)];
      [left; exact Hr|]. right. split; [exact Hr|].
    exists (e1 ++ e2)%list. split; [rewrite H2, H1, app_assoc; reflexivity|].
    exists (e1 ++ pre)%list, c, k. split; [|split; assumption].
    rewrite He, app_assoc. reflexivity.
Qed.

Lemma stops_TRY (fuel : nat) (a : call) :
  forall w : world E, stops_here w (TRY_WITH_RESET cfg fuel a w).
Proof.
  induction fuel as [|fuel IH]; intros w; [exact I|].
  rewrite TRY_WITH_RESET_eq.
  destruct (snd (cfg_ext cfg a (kb w)) =? 0); [exists [(a, kb w)]; reflexivity|].
  destruct (snd (cfg_ext cfg usb_tryreset (kb (after_call cfg a w))) =? 0)
    eqn:Hr.
  - specialize (IH (after_call cfg usb_tryreset (after_call cfg a w))).
    assert (Hlog : log (after_call cfg usb_tryreset (after_call cfg a w))
                   = (log w ++ [(a, kb w);
                                (usb_tryreset, kb (after_call cfg a w))])%list).
    { unfold after_call. cbn [log kb]. rewrite <- app_assoc. reflexivity. }
    destruct (TRY_WITH_RESET cfg fuel a
                (after_call cfg usb_tryreset (after_call cfg a w)))
      as [u w1|r w1|]; [| |exact I].
    + destruct IH as (e2 & H2). eexists. rewrite H2, Hlog, <- app_assoc.
      reflexivity.
    + destruct IH as [Hz|(Hz & e2 & H2 & pre & c & k & He & Hc & Hs)];
        [left; exact Hz|]. right. split; [exact Hz|].
      eexists. split; [rewrite H2, Hlog, <- app_assoc; reflexivity|].
      exists ([(a, kb w); (usb_tryreset, kb (after_call cfg a w))] ++ pre)%list,
        c, k. split; [|split; assumption].
      rewrite He, app_assoc. reflexivity.
  - right. split; [reflexivity|].
    exists [(a, kb w); (usb_tryreset, kb (after_call cfg a w))].
    split; [unfold after_call; cbn [log kb]; rewrite <- app_assoc; reflexivity|].
    exists [(a, kb w)], usb_tryreset, (kb (after_call cfg a w)).
    split; [reflexivity|]. split; [reflexivity|].
    apply Z.eqb_neq. exact Hr.
Qed.

Lemma stops_for_keys (f : Z -> call) (n : nat) :
  forall (i : nat) (w : world E), stops_here w (for_keys cfg f i n w).
Proof.
  induction n as [|n IH]; intros i w; cbn [for_keys]; [apply stops_ret|].
  apply stops_bind; [apply stops_invoke|]. intros _ w'. apply IH.
Qed.

Ltac stops_step :=
  first
    [ apply stops_ret | apply stops_get_kb | apply stops_modify
    | apply stops_uninitialised | apply stops_emit | apply stops_invoke | apply stops_TRY
    | apply stops_for_keys
    | apply stops_bind; [|intros ? ?; cbv beta]
    | match goal with
      | |- stops _ _ ((if ?b then _ else _) _) => destruct b
      | |- stops _ _ (match ?x with _ => _ end _) => destruct x
      end ].

Lemma stops_key_command (l : locals) (keyname right : string) (w : world E) :
  stops_here w (key_command cfg l keyname right w).
Proof. unfold key_command. repeat stops_step. Qed.

Lemma stops_scan_keys (l : locals) (word right : string) (left : nat)
  (n : nat) :
  forall (position : nat) (w : world E),
    stops_here w (scan_keys cfg n l word right left position w).
Proof.
  induction n as [|n IH]; intros position w; cbn [scan_keys];
    [apply stops_ret|].
  destruct (position <? left)%nat; [|apply stops_ret].
  destruct (sscanf_keyname (str_drop position word)) as [[keyname field]|];
    [|apply stops_ret].
  apply stops_bind; [apply stops_key_command|]. intros _ w'. apply IH.
Qed.

Lemma stops_colon_split (l : locals) (word : string) (w : world E) :
  stops_here w (colon_split cfg l word w).
Proof.
  unfold colon_split. destruct (sscanf_left word <=? 0); [apply stops_ret|].
  destruct (command l);
    repeat first [apply stops_scan_keys | stops_step].
Qed.

Lemma stops_dispatch_active (fuel : nat) (l : locals) (word : string)
  (w : world E) :
  stops_here w (dispatch_active cfg fuel l word w).
Proof.
  unfold dispatch_active.
  destruct (command l) eqn:Hc;
    try apply stops_colon_split;
    try solve [repeat first [apply stops_colon_split | stops_step]].
  (* FWUPDATE *)
  unfold bind. rewrite invoke_eq.
  destruct (snd (cfg_ext cfg (vt_fwupdate (mode l) (notifynumber l) word)
                   (kb w)) =? 0) eqn:Hr; simpl negb; cbv iota.
  - exists [(vt_fwupdate (mode l) (notifynumber l) word, kb w)]. reflexivity.
  - right. split; [reflexivity|].
    exists [(vt_fwupdate (mode l) (notifynumber l) word, kb w)].
    split; [reflexivity|].
    exists [], (vt_fwupdate (mode l) (notifynumber l) word), (kb w).
    split; [reflexivity|]. split; [reflexivity|].
    apply Z.eqb_neq. exact Hr.
Qed.

Lemma stops_active_gate (fuel : nat) (l : locals) (word : string)
  (w : world E) :
  stops_here w (active_gate cfg fuel l word w).
Proof.
  rewrite active_gate_eq. destruct (active (kb w));
    [apply stops_dispatch_active|].
  destruct (command l); repeat stops_step.
Qed.

Lemma stops_dispatch_always (fuel : nat) (l : locals) (word : string)
  (w : world E) :
  stops_here w (dispatch_always cfg fuel l word w).
Proof.
  unfold dispatch_always.
  destruct (command l);
    try apply stops_active_gate;
    repeat first [apply stops_active_gate | stops_step].
Qed.

Lemma stops_word (fuel : nat) (l : locals) (word : string) (w : world E) :
  stops_here w (readcmd_word cfg fuel l word w).
Proof.
  assert (Hg : forall l0, stops_here w (gates cfg fuel l0 word w)).
  { intros l0. rewrite gates_eq.
    destruct (rejected cfg (kb w) (command l0)
              || fw_rejected (kb w) (command l0));
      [apply stops_ret|apply stops_dispatch_always]. }
  assert (Hb : forall l0, stops_here w (readcmd_body cfg fuel l0 word w)).
  { intros l0. unfold readcmd_body.
    destruct (sscanf_at_d word) as [n s| |]; try apply Hg.
    destruct (n <? cfg_OUTFIFO_MAX cfg); [apply stops_ret|apply Hg]. }
  unfold readcmd_word. destruct (lookup_command cfg word) as [c|]; [|apply Hb].
  destruct (is_action c); [apply Hb|apply stops_ret].
Qed.

Lemma stops_words (fuel : nat) (words : list string) :
  forall (l : locals) (w : world E),
    stops_here w (read_words cfg fuel l words w).
Proof.
  induction words as [|word words IH]; intros l w; cbn [read_words];
    [apply stops_ret|].
  apply stops_bind; [apply stops_word|]. intros l' w'. apply IH.
Qed.

Lemma stops_finish (fuel : nat) (l : locals) (w : world E) :
  stops_here w (finish cfg fuel l w).
Proof.
  unfold finish. apply stops_bind; [apply stops_get_kb|]. intros k w1.
  cbv beta. apply stops_bind.
  - destruct (negb (needs_fw_update k)); [|apply stops_ret].
    apply stops_bind.
    + destruct (command l); try apply stops_ret.
      unfold rgb_ratelimit. repeat stops_step.
    + intros _ w2. repeat stops_step.
  - intros _ w2. apply stops_bind.
    + destruct (cfg_NDEBUG cfg); [apply stops_ret|].
      destruct (command l); first [apply stops_ret | apply stops_modify].
    + intros _ w3. left. reflexivity.
Qed.

(** X26.  [readcmd] returns 1 only at a failure: when it does not return 0, the
    value is 1 and the last call made was [usb_tryreset] or [fwupdate], and
    that call reported a failure; after it nothing is called, the flush
    included. *)
Theorem returns_one_after_failure (fuel : nat) (k : usbdevice E)
  (line : string) (r : Z) (w : world E) :
  readcmd cfg fuel k line = Return r w -> r <> 0 ->
  r = 1
  /\ exists pre c k',
       log w = (pre ++ [(c, k')])%list /\ abort_call c = true
       /\ snd (cfg_ext cfg c k') <> 0.
Proof.
  intros Hrun Hr.
  assert (H : stops_here (start k) (readcmd cfg fuel k line)).
  { unfold readcmd. apply stops_bind; [apply stops_words|].
    intros l w'. apply stops_finish. }
  rewrite Hrun in H. destruct H as [H|(H1 & evs & Hl & Hf)]; [contradiction|].
  split; [exact H1|]. simpl in Hl. rewrite Hl. exact Hf.
Qed.

End Returns.

(** * A line on which no call fails *)

Section Success.

Variable E : Type.
Variable cfg : config E.

Hypothesis calls_succeed :
  forall c k, checked_call c = true -> snd (cfg_ext cfg c k) = 0.

Lemma goes_on_bind {A B} (m : M E A) (f : A -> M E B) (w : world E) :
  goes_on (m w) -> (forall a w', goes_on (f a w')) -> goes_on (bind m f w).
Proof.
  intros Hm Hf. unfold bind. destruct (m w) as [a w'|r w'|]; try contradiction.
  apply Hf.
Qed.

Lemma goes_on_TRY (fuel : nat) (a : call) (w : world E) :
  checked_call a = true -> goes_on (TRY_WITH_RESET cfg (S fuel) a w).
Proof.
  intros Ha. rewrite TRY_WITH_RESET_eq, (calls_succeed a (kb w) Ha). exact I.
Qed.

Lemma goes_on_for_keys (f : Z -> call) (n : nat) :
  forall (i : nat) (w : world E), goes_on (for_keys cfg f i n w).
Proof.
  induction n as [|n IH]; intros i w; cbn [for_keys]; [exact I|].
  apply goes_on_bind; [exact I|]. intros _ w'. apply IH.
Qed.

Ltac goes_step :=
  first
    [ exact I
    | apply goes_on_TRY; reflexivity
    | apply goes_on_for_keys
    | apply goes_on_bind; [|intros ? ?; cbv beta]
    | match goal with
      | |- goes_on ((if ?b then _ else _) _) => destruct b
      | |- goes_on (match ?x with _ => _ end _) => destruct x
      end ].

Lemma goes_on_key_command (l : locals) (keyname right : string) (w : world E) :
  goes_on (key_command cfg l keyname right w).
Proof. unfold key_command. repeat goes_step. Qed.

Lemma goes_on_scan_keys (l : locals) (word right : string) (left : nat)
  (n : nat) :
  forall (position : nat) (w : world E),
    goes_on (scan_keys cfg n l word right left position w).
Proof.
  induction n as [|n IH]; intros position w; cbn [scan_keys]; [exact I|].
  destruct (position <? left)%nat; [|exact I].
  destruct (sscanf_keyname (str_drop position word)) as [[keyname field]|];
    [|exact I].
  apply goes_on_bind; [apply goes_on_key_command|]. intros _ w'. apply IH.
Qed.

Lemma goes_on_colon_split (l : locals) (word : string) (w : world E) :
  goes_on (colon_split cfg l word w).
Proof.
  unfold colon_split. destruct (sscanf_left word <=? 0); [exact I|].
  destruct (command l);
    repeat first [apply goes_on_scan_keys | goes_step].
Qed.

Lemma goes_on_dispatch_active (fuel : nat) (l : locals) (word : string)
  (w : world E) :
  goes_on (dispatch_active cfg (S fuel) l word w).
Proof.
  unfold dispatch_active.
  destruct (command l) eqn:Hc;
    try apply goes_on_colon_split;
    try solve [repeat first [apply goes_on_colon_split | goes_step]].
  (* FWUPDATE *)
  unfold bind. rewrite invoke_eq.
  rewrite (calls_succeed (vt_fwupdate (mode l) (notifynumber l) word) (kb w)
             eq_refl).
  exact I.
Qed.

Lemma goes_on_active_gate (fuel : nat) (l : locals) (word : string)
  (w : world E) :
  goes_on (active_gate cfg (S fuel) l word w).
Proof.
  rewrite active_gate_eq. destruct (active (kb w));
    [apply goes_on_dispatch_active|].
  destruct (command l); repeat goes_step.
Qed.

Lemma goes_on_dispatch_always (fuel : nat) (l : locals) (word : string)
  (w : world E) :
  goes_on (dispatch_always cfg (S fuel) l word w).
Proof.
  unfold dispatch_always.
  destruct (command l);
    try apply goes_on_active_gate;
    repeat first [apply goes_on_active_gate | goes_step].
Qed.

Lemma goes_on_word (fuel : nat) (l : locals) (word : string) (w : world E) :
  goes_on (readcmd_word cfg (S fuel) l word w).
Proof.
  assert (Hg : forall l0, goes_on (gates cfg (S fuel) l0 word w)).
  { intros l0. rewrite gates_eq.
    destruct (rejected cfg (kb w) (command l0)
              || fw_rejected (kb w) (command l0));
      [exact I|apply goes_on_dispatch_always]. }
  assert (Hb : forall l0, goes_on (readcmd_body cfg (S fuel) l0 word w)).
  { intros l0. unfold readcmd_body.
    destruct (sscanf_at_d word) as [n s| |]; try apply Hg.
    destruct (n <? cfg_OUTFIFO_MAX cfg); [exact I|apply Hg]. }
  unfold readcmd_word. destruct (lookup_command cfg word) as [c|]; [|apply Hb].
  destruct (is_action c); [apply Hb|exact I].
Qed.

Lemma goes_on_words (fuel : nat) (words : list string) :
  forall (l : locals) (w : world E),
    goes_on (read_words cfg (S fuel) l words w).
Proof.
  induction words as [|word words IH]; intros l w; cbn [read_words];
    [exact I|].
  apply goes_on_bind; [apply goes_on_word|]. intros l' w'. apply IH.
Qed.

Lemma returns_bind {A B} (m : M E A) (f : A -> M E B) (w : world E) :
  goes_on (m w) ->
  (forall a w', exists w'', f a w' = Return 0 w'') ->
  exists w'', bind m f w = Return 0 w''.
Proof.
  intros Hm Hf. unfold bind. destruct (m w) as [a w'|r w'|]; try contradiction.
  apply Hf.
Qed.

Lemma finish_returns (fuel : nat) (l : locals) (w : world E) :
  exists w', finish cfg (S fuel) l w = Return 0 w'.
Proof.
  unfold finish. apply returns_bind; [exact I|]. intros k w0. cbv beta.
  apply returns_bind.
  - destruct (negb (needs_fw_update k)); [|exact I].
    apply goes_on_bind.
    + destruct (command l); try exact I. unfold rgb_ratelimit.
      repeat goes_step.
    + intros _ w1. repeat goes_step.
  - intros _ w1. apply returns_bind.
    + destruct (cfg_NDEBUG cfg); [exact I|]. destruct (command l); exact I.
    + intros _ w2. eexists. reflexivity.
Qed.

(** X27.  When none of the calls whose status is looked at fails, every line
    returns 0, whatever its words: no loop of [readcmd] runs on, and each
    retry loop is left after its first call. *)
Theorem line_returns_zero (fuel : nat) (k : usbdevice E) (line : string) :
  exists w : world E, readcmd cfg (S fuel) k line = Return 0 w.
Proof.
  unfold readcmd. unfold bind.
  pose proof (goes_on_words fuel (strtok_words line) (initial k) (start k))
    as H.
  destruct (read_words cfg (S fuel) (initial k) (strtok_words line) (start k))
    as [l w|r w|]; try contradiction.
  apply finish_returns.
Qed.

End Success.

(** * While a state of the device lasts *)

Section Phases.

Variable E : Type.
Variable cfg : config E.
Variable G : usbdevice E -> Prop.
Variable A : call -> bool.
Variable R : usbdevice E -> usbdevice E -> Prop.

Hypothesis G_dec : forall k, G k \/ ~ G k.
Hypothesis R_refl : forall k, R k k.
Hypothesis R_trans : forall k1 k2 k3, R k1 k2 -> R k2 k3 -> R k1 k3.

Local Abbreviation phase_here := (phase cfg G A R).
Local Abbreviation quiet_here := (quiet cfg G A R).
Local Abbreviation sprung_here := (sprung cfg G A R).
Local Abbreviation linked_here := (linked cfg R).

Lemma linked_from (k0 k k' : usbdevice E) (evs : list (call * usbdevice E)) :
  R k0 k -> linked_here k evs k' -> linked_here k0 evs k'.
Proof.
  intros H0. destruct evs as [|e evs]; simpl.
  - intros H. exact (R_trans _ _ _ H0 H).
  - intros [H1 H2]. split; [exact (R_trans _ _ _ H0 H1)|exact H2].
Qed.

Lemma linked_app (evs1 evs2 : list (call * usbdevice E)) :
  forall k k1 k2,
    linked_here k evs1 k1 -> linked_here k1 evs2 k2 ->
    linked_here k (evs1 ++ evs2) k2.
Proof.
  induction evs1 as [|e evs1 IH]; intros k k1 k2 H1 H2; simpl in *.
  - exact (linked_from _ _ _ _ H1 H2).
  - destruct H1 as [Hr H1]. split; [exact Hr|]. exact (IH _ _ _ H1 H2).
Qed.

Lemma quiet_app (k k1 k2 : usbdevice E) (evs1 evs2 : list (call * usbdevice E)) :
  quiet_here k evs1 k1 -> quiet_here k1 evs2 k2 ->
  quiet_here k (evs1 ++ evs2) k2.
Proof.
  intros (F1 & L1 & _) (F2 & L2 & G2). split; [|split].
  - apply Forall_app. split; assumption.
  - exact (linked_app _ _ _ _ _ L1 L2).
  - exact G2.
Qed.

Lemma quiet_sprung (k k1 : usbdevice E) (evs1 evs2 : list (call * usbdevice E)) :
  quiet_here k evs1 k1 -> sprung_here k1 evs2 ->
  sprung_here k (evs1 ++ evs2).
Proof.
  intros (F1 & L1 & _) (pre & e & post & -> & Fp & Lp & Ha & Hg & Hn).
  exists (evs1 ++ pre)%list, e, post. split; [apply app_assoc|].
  split; [apply Forall_app; split; assumption|].
  split; [exact (linked_app _ _ _ _ _ L1 Lp)|]. auto.
Qed.

Lemma sprung_more (k : usbdevice E) (evs more : list (call * usbdevice E)) :
  sprung_here k evs -> sprung_here k (evs ++ more).
Proof.
  intros (pre & e & post & -> & H). exists pre, e, (post ++ more)%list.
  split; [|exact H]. rewrite <- app_assoc. reflexivity.
Qed.

(** The ways such a part is put together. *)
Lemma phase_done {X} (a : X) (w : world E) :
  G (kb w) -> phase_here w (Done a w).
Proof.
  intros Hg. exists []. split; [symmetry; apply app_nil_r|]. left.
  split; [constructor|]. split; [apply R_refl|exact Hg].
Qed.

Lemma phase_return {X} (w : world E) :
  G (kb w) -> phase_here w (@Return E X 1 w).
Proof.
  intros Hg. exists []. split; [symmetry; apply app_nil_r|]. left.
  split; [reflexivity|].
  split; [constructor|]. split; [apply R_refl|exact Hg].
Qed.

Lemma one_call (c : call) (w : world E) :
  G (kb w) -> A c = true ->
  quiet_here (kb w) [(c, kb w)] (kb (after_call cfg c w))
  \/ sprung_here (kb w) [(c, kb w)].
Proof.
  intros Hg Ha. destruct (G_dec (fst (cfg_ext cfg c (kb w)))) as [Hl|Hl].
  - left. split; [|split].
    + constructor; [|constructor]. split; [exact Ha|]. split; assumption.
    + simpl. split; apply R_refl.
    + exact Hl.
  - right. exists [], (c, kb w), []. split; [reflexivity|].
    split; [constructor|]. split; [apply R_refl|]. auto.
Qed.

Lemma phase_call {X} (a : X) (c : call) (w : world E) :
  G (kb w) -> A c = true -> phase_here w (Done a (after_call cfg c w)).
Proof.
  intros Hg Ha. exists [(c, kb w)]. split; [reflexivity|].
  exact (one_call c w Hg Ha).
Qed.

Lemma phase_call_return {X} (c : call) (w : world E) :
  G (kb w) -> A c = true -> phase_here w (@Return E X 1 (after_call cfg c w)).
Proof.
  intros Hg Ha. exists [(c, kb w)]. split; [reflexivity|].
  destruct (one_call c w Hg Ha) as [H|H]; [left; split; [reflexivity|exact H]|].
  right. exact H.
Qed.

Lemma phase_invoke (c : call) (w : world E) :
  G (kb w) -> A c = true -> phase_here w (invoke cfg c w).
Proof. intros Hg Ha. rewrite invoke_eq. apply phase_call; assumption. Qed.

Lemma phase_modify (f : usbdevice E -> usbdevice E) (w : world E) :
  G (f (kb w)) -> R (kb w) (f (kb w)) -> phase_here w (modify f w).
Proof.
  intros Hg Hr. exists []. split; [symmetry; apply app_nil_r|]. left.
  split; [constructor|]. split; [exact Hr|exact Hg].
Qed.

Lemma phase_bind {X Y} (m : M E X) (f : X -> M E Y) (w : world E) :
  phase_here w (m w) ->
  (forall a w', G (kb w') -> phase_here w' (f a w')) ->
  (forall a w', extends w' (f a w')) ->
  phase_here w (bind m f w).
Proof.
  intros Hm Hf He. unfold bind.
  destruct (m w) as [a w1|r w1|]; [|exact Hm|exact I].
  destruct Hm as (evs1 & L1 & [Hq|Hs]).
  - assert (Hg : G (kb w1)) by (destruct Hq as (_ & _ & Hg); exact Hg).
    specialize (Hf a w1 Hg).
    destruct (f a w1) as [b w2|r w2|]; [| |exact I].
    + destruct Hf as (evs2 & L2 & [Hq2|Hs2]);
        exists (evs1 ++ evs2)%list;
        (split; [rewrite L2, L1, app_assoc; reflexivity|]).
      * left. exact (quiet_app _ _ _ _ _ Hq Hq2).
      * right. exact (quiet_sprung _ _ _ _ Hq Hs2).
    + destruct Hf as (evs2 & L2 & [[Hr Hq2]|Hs2]);
        exists (evs1 ++ evs2)%list;
        (split; [rewrite L2, L1, app_assoc; reflexivity|]).
      * left. split; [exact Hr|]. exact (quiet_app _ _ _ _ _ Hq Hq2).
      * right. exact (quiet_sprung _ _ _ _ Hq Hs2).
  - specialize (He a w1).
    destruct (f a w1) as [b w2|r w2|]; [| |exact I];
      destruct He as (more & L2); exists (evs1 ++ more)%list;
      (split; [rewrite L2, L1, app_assoc; reflexivity|]);
      right; apply sprung_more; exact Hs.
Qed.

Lemma extends_done {X} (a : X) (w : world E) : extends w (Done a w).
Proof. exists []. symmetry. apply app_nil_r. Qed.

Lemma extends_TRY (fuel : nat) (a : call) (w : world E) :
  extends w (TRY_WITH_RESET cfg fuel a w).
Proof.
  pose proof (TRY_WITH_RESET_inv E cfg (fun _ => True) a
                (fun _ _ => I) (fun _ _ => I) fuel w I) as H.
  destruct (TRY_WITH_RESET cfg fuel a w) as [u w'|r w'|]; [| |exact I].
  - destruct H as (_ & evs & Hl & _). exists evs. exact Hl.
  - destruct H as (_ & _ & evs & Hl & _). exists evs. exact Hl.
Qed.

Lemma phase_then {X Y} (m : M E X) (b : Y) (w : world E) :
  phase_here w (m w) -> phase_here w (bind m (fun _ => ret b) w).
Proof.
  intros H. apply phase_bind; [exact H| |].
  - intros _ w' Hg. apply phase_done. exact Hg.
  - intros _ w'. apply extends_done.
Qed.

(** The retry loop of an allowed call, when the reset is allowed too. *)
Lemma phase_TRY (fuel : nat) (a : call) :
  A a = true -> A usb_tryreset = true ->
  forall w : world E, G (kb w) -> phase_here w (TRY_WITH_RESET cfg fuel a w).
Proof.
  intros Ha Hr. induction fuel as [|fuel IH]; intros w Hg; [exact I|].
  cbn [TRY_WITH_RESET]. apply phase_bind.
  - apply phase_invoke; assumption.
  - intros r w1 Hg1. destruct (r =? 0); [apply phase_done; exact Hg1|].
    apply phase_bind.
    + apply phase_invoke; assumption.
    + intros rr w2 Hg2. destruct (rr =? 0); [apply IH; exact Hg2|].
      apply phase_return. exact Hg2.
    + intros rr w2. destruct (rr =? 0); [apply extends_TRY|].
      exists []. symmetry. apply app_nil_r.
  - intros r w1. destruct (r =? 0); [apply extends_done|].
    unfold bind. rewrite invoke_eq.
    destruct (snd (cfg_ext cfg usb_tryreset (kb w1)) =? 0).
    + pose proof (extends_TRY fuel a (after_call cfg usb_tryreset w1)) as H.
      destruct (TRY_WITH_RESET cfg fuel a (after_call cfg usb_tryreset w1))
        as [u w2|r2 w2|]; [| |exact I];
        destruct H as (evs & Hl); exists ((usb_tryreset, kb w1) :: evs);
        rewrite Hl; simpl; rewrite <- app_assoc; reflexivity.
    + exists [(usb_tryreset, kb w1)]. reflexivity.
Qed.

(** The words of a line, given what one word does in the state. *)
Lemma phase_words (fuel : nat) :
  (forall l word w, G (kb w) -> phase_here w (readcmd_word cfg fuel l word w)) ->
  forall (words : list string) (l : locals) (w : world E),
    G (kb w) -> phase_here w (read_words cfg fuel l words w).
Proof.
  intros Hword. induction words as [|word words IH]; intros l w Hg.
  - apply phase_done. exact Hg.
  - cbn [read_words]. apply phase_bind.
    + apply Hword. exact Hg.
    + intros l' w' Hg'. apply IH. exact Hg'.
    + intros l' w'.
      pose proof (keeps_words E cfg (fun _ => True) (fun _ => True)
                    ltac:(kept) ltac:(kept) ltac:(kept) ltac:(kept)
                    ltac:(kept) ltac:(kept) ltac:(kept) ltac:(kept)
                    ltac:(kept) ltac:(kept) ltac:(kept) ltac:(kept)
                    fuel words l' w' I I) as H.
      destruct (read_words cfg fuel l' words w') as [l2 w2|r w2|]; [| |exact I].
      * destruct H as (_ & _ & evs & Hl & _). exists evs. exact Hl.
      * destruct H as (_ & _ & evs & Hl & _). exists evs. exact Hl.
Qed.

End Phases.

(** * The device that needs a firmware update, and the inactive device *)

Section Lasting.

Variable E : Type.
Variable cfg : config E.

Lemma bricked_dec (k : usbdevice E) : bricked k \/ ~ bricked k.
Proof.
  unfold bricked. destruct (needs_fw_update k); [left|right]; congruence.
Qed.

Lemma asleep_dec (k : usbdevice E) : asleep k \/ ~ asleep k.
Proof.
  unfold asleep. destruct (active k), (needs_fw_update k);
    first [left; split; reflexivity | right; intros [H1 H2]; discriminate].
Qed.

(** Where the device changes through calls only, it is the one they leave. *)
Lemma linked_eq_replay (evs : list (call * usbdevice E)) :
  forall k k', linked cfg eq k evs k' -> k' = replay cfg (map fst evs) k.
Proof.
  induction evs as [|e evs IH]; intros k k' H; simpl in *.
  - symmetry. exact H.
  - destruct H as [He H]. rewrite (IH _ _ H). unfold left_by.
    rewrite <- He. reflexivity.
Qed.

(** The command pending after a word, and after the words of a line. *)
Lemma word_command (fuel : nat) (l l' : locals) (word : string)
  (w w' : world E) :
  readcmd_word cfg fuel l word w = Done l' w' ->
  command l' = match lookup_command cfg word with
               | Some c => c
               | None => command l
               end.
Proof.
  assert (Hb : forall l0,
            readcmd_body cfg fuel l0 word w = Done l' w' ->
            command l' = command l0).
  { intros l0 Hr.
    pose proof (keeps_body E cfg (fun _ => True)
                  (fun l1 => command l1 = command l0)
                  ltac:(kept) ltac:(kept) ltac:(kept) ltac:(kept) ltac:(kept)
                  ltac:(kept) ltac:(kept) ltac:(kept) ltac:(kept) ltac:(kept)
                  ltac:(kept) fuel l0 word w I eq_refl) as H.
    rewrite Hr in H. destruct H as (_ & H & _). exact H. }
  unfold readcmd_word. destruct (lookup_command cfg word) as [c|]; [|apply Hb].
  destruct (is_action c).
  - intros Hr. exact (Hb _ Hr).
  - intros Hr. injection Hr as <- _. reflexivity.
Qed.

Lemma words_command (fuel : nat) (words : list string) :
  forall (l l' : locals) (w w' : world E),
    read_words cfg fuel l words w = Done l' w' ->
    command l' = last_command cfg (command l) words.
Proof.
  induction words as [|word words IH]; intros l l' w w' Hr.
  - injection Hr as <- _. reflexivity.
  - rewrite read_words_cons in Hr.
    destruct (readcmd_word cfg fuel l word w) as [l1 w1|r w1|] eqn:Hw;
      try discriminate.
    rewrite (IH _ _ _ _ Hr). unfold last_command. simpl.
    rewrite (word_command _ _ _ _ _ _ Hw). reflexivity.
Qed.

(** One word on a device that needs a firmware update. *)
Lemma brick_phase_word (fuel : nat) (l : locals) (word : string)
  (w : world E) :
  bricked (kb w) ->
  phase cfg bricked brick_call eq w (readcmd_word cfg fuel l word w).
Proof.
  intros Hf.
  destruct (brick_word E cfg fuel l word w Hf) as [l'|l' c Hc|c Hc].
  - apply phase_done; [reflexivity|exact Hf].
  - apply phase_call; try assumption; [apply bricked_dec|reflexivity].
  - apply phase_call_return; try assumption; [apply bricked_dec|reflexivity].
Qed.

(** C3 (as the code has it).  On a device that needs a firmware update:
    if the calls that are still allowed leave it needing the update,
    [readcmd] returns whatever the fuel, every call it makes is [fwupdate],
    [mknotifynode], [rmnotifynode] or [reset] (so the flush with
    [updatergb] and [updatedpi] is skipped), and the device it leaves is the
    one those calls left, with [encounteredleds] cleared exactly when the
    debug build returns 0 from a line whose last command word was [rgb].
    Whatever the calls do: whenever [readcmd] returns, either the device
    needed the update all along, all calls were such calls, the device
    changed through them only (and that [memset]), and nothing was flushed;
    or one such call left the device not needing the update, and up to that
    call all the same holds, while the words after it, and the flush, are no
    longer restricted. *)
Theorem brick_line (fuel : nat) (k : usbdevice E) (line : string) :
  needs_fw_update k = true ->
  ((forall c k', brick_call c = true -> needs_fw_update k' = true ->
                 needs_fw_update (fst (cfg_ext cfg c k')) = true) ->
   exists r w,
     readcmd cfg fuel k line = Return r w
     /\ (r = 0 \/ r = 1)
     /\ Forall (fun c => brick_call c = true) (calls w)
     /\ ~ In (vt_updatergb 0) (calls w) /\ ~ In (vt_updatedpi 0) (calls w)
     /\ kb w = if scratch_cleared cfg r line
               then clear_leds (replay cfg (calls w) k)
               else replay cfg (calls w) k)
  /\ match readcmd cfg fuel k line with
     | Return r w =>
         (r = 0 \/ r = 1)
         /\ ((exists k',
                quiet cfg bricked brick_call eq k (log w) k'
                /\ k' = replay cfg (calls w) k
                /\ kb w = if scratch_cleared cfg r line then clear_leds k'
                          else k')
             \/ sprung cfg bricked brick_call eq k (log w))
     | Done _ _ => False
     | OutOfFuel => True
     end.
Proof.
  intros Hf. split.
  { intros Hext.
    assert (Hno : forall cs c, Forall (fun c => brick_call c = true) cs ->
                               brick_call c = false -> ~ In c cs).
    { intros cs c HF Hc Hin. rewrite Forall_forall in HF.
      specialize (HF c Hin). congruence. }
    destruct (brick_words E cfg fuel (strtok_words line) Hext (initial k)
                (start k) Hf)
      as (cs & HF & [(l' & w' & Hr & Hf' & Hcalls & Hkb)
                    |(w' & Hr & Hcalls & Hkb)]);
      simpl in Hcalls, Hkb; unfold readcmd, bind; rewrite Hr.
    - rewrite (finish_brick E cfg fuel l' w' Hf').
      pose proof (words_command _ _ _ _ _ _ Hr) as Hcmd.
      change (command (initial k)) with NONE in Hcmd.
      eexists; eexists. split; [reflexivity|]. split; [left; reflexivity|].
      assert (Hc : calls (if cfg_NDEBUG cfg then w'
                          else match command l' with
                               | RGB => {| kb := clear_leds (kb w');
                                           log := log w'; reads := reads w' |}
                               | _ => w'
                               end) = cs).
      { rewrite <- Hcalls. destruct (cfg_NDEBUG cfg); [reflexivity|].
        destruct (command l'); reflexivity. }
      rewrite Hc. split; [exact HF|].
      split; [apply Hno; [exact HF|reflexivity]|].
      split; [apply Hno; [exact HF|reflexivity]|].
      rewrite <- Hkb. unfold scratch_cleared. rewrite <- Hcmd.
      change (0 =? 0) with true. rewrite andb_true_l.
      destruct (cfg_NDEBUG cfg); [reflexivity|].
      destruct (command l'); reflexivity.
    - exists 1, w'. split; [reflexivity|]. split; [right; reflexivity|].
      rewrite Hcalls. split; [exact HF|].
      split; [apply Hno; [exact HF|reflexivity]|].
      split; [apply Hno; [exact HF|reflexivity]|].
      exact Hkb. }
  pose proof (keeps_readcmd E cfg (fun _ => True) (fun _ => True)
                ltac:(kept) ltac:(kept) ltac:(kept) ltac:(kept) ltac:(kept)
                ltac:(kept) ltac:(kept) ltac:(kept) ltac:(kept) ltac:(kept)
                ltac:(kept) ltac:(kept) ltac:(kept) ltac:(kept)
                fuel k line I I) as Hk.
  destruct (readcmd cfg fuel k line) as [u w|r w|] eqn:Hrun;
    [exact Hk| |exact I].
  destruct Hk as (Hr01 & _). split; [exact Hr01|].
  pose proof (phase_words E cfg bricked brick_call eq
                (fun _ => eq_refl) (fun _ _ _ H1 H2 => eq_trans H1 H2) fuel
                (brick_phase_word fuel) (strtok_words line) (initial k)
                (start k) Hf) as Hw.
  unfold readcmd, bind in Hrun.
  destruct (read_words cfg fuel (initial k) (strtok_words line) (start k))
    as [l' w'|r' w'|] eqn:Hr; [| |discriminate].
  - destruct Hw as (evs & Hl & [Hq|Hs]); simpl in Hl.
    + assert (Hg : bricked (kb w')) by (destruct Hq as (_ & _ & Hg); exact Hg).
      rewrite (finish_brick E cfg fuel l' w' Hg) in Hrun.
      injection Hrun as <- <-.
      pose proof (words_command _ _ _ _ _ _ Hr) as Hcmd.
      change (command (initial k)) with NONE in Hcmd.
      left. exists (kb w').
      assert (Hlog : log (if cfg_NDEBUG cfg then w'
                          else match command l' with
                               | RGB => {| kb := clear_leds (kb w');
                                           log := log w'; reads := reads w' |}
                               | _ => w'
                               end) = evs).
      { rewrite <- Hl. destruct (cfg_NDEBUG cfg); [reflexivity|].
        destruct (command l'); reflexivity. }
      unfold calls. rewrite Hlog. split; [exact Hq|].
      split; [destruct Hq as (_ & Hlink & _);
              exact (linked_eq_replay _ _ _ Hlink)|].
      unfold scratch_cleared. rewrite <- Hcmd.
      change (0 =? 0) with true. rewrite andb_true_l.
      destruct (cfg_NDEBUG cfg); [reflexivity|].
      destruct (command l'); reflexivity.
    + right.
      pose proof (keeps_finish E cfg (fun _ => True) (fun _ => True)
                    ltac:(kept) ltac:(kept) ltac:(kept) fuel l' w' I I)
        as Hfin.
      rewrite Hrun in Hfin. destruct Hfin as (_ & _ & more & Hm & _).
      rewrite Hm, Hl. apply sprung_more. exact Hs.
  - injection Hrun as <- <-. destruct Hw as (evs & Hl & [[Hr1 Hq]|Hs]);
      simpl in Hl; rewrite Hl.
    + left. exists (kb w'). unfold calls. rewrite Hl. split; [exact Hq|].
      split; [destruct Hq as (_ & Hlink & _);
              exact (linked_eq_replay _ _ _ Hlink)|].
      subst r'. reflexivity.
    + right. exact Hs.
Qed.

(** ** The inactive device *)

Ltac side :=
  first [ apply asleep_dec | exact (fun _ => I) | exact (fun _ _ _ _ _ => I)
        | assumption | reflexivity | exact I ].
Ltac stay := apply (phase_done E cfg asleep idle_call any_change); side.
Ltac and_go_on := apply (phase_then E cfg asleep idle_call any_change); try side.
Ltac change_field :=
  and_go_on; apply (phase_modify E cfg asleep idle_call any_change); side.
Ltac one_call :=
  and_go_on; apply (phase_invoke E cfg asleep idle_call any_change); side.

Lemma idle_phase_gate (fuel : nat) (l : locals) (word : string) (w : world E) :
  asleep (kb w) ->
  phase cfg asleep idle_call any_change w (active_gate cfg fuel l word w).
Proof.
  intros H. rewrite active_gate_eq. destruct H as [Ha Hf]. rewrite Ha.
  assert (H : asleep (kb w)) by (split; assumption).
  destruct (command l); try stay.
  and_go_on. apply (phase_TRY E cfg asleep idle_call any_change); side.
Qed.

Ltac gate := apply idle_phase_gate; assumption.

Lemma idle_phase_dispatch (fuel : nat) (l : locals) (word : string)
  (w : world E) :
  asleep (kb w) ->
  phase cfg asleep idle_call any_change w (dispatch_always cfg fuel l word w).
Proof.
  intros H. unfold dispatch_always.
  destruct (command l) eqn:Hc; try gate.
  - (* DELAY *) stay.
  - (* MODE *)
    destruct (sscanf_d word) as [n s| |]; try stay.
    destruct ((n >? 0) && (n <=? cfg_MODE_COUNT cfg));
      stay.
  - (* LAYOUT *)
    destruct (word =? "ansi")%string; [change_field|].
    destruct (word =? "iso")%string; [change_field|].
    stay.
  - (* ACCEL *)
    destruct (cfg_OS_MAC_LEGACY cfg); [|gate].
    destruct (word =? "on")%string; [change_field|].
    destruct (word =? "off")%string; [change_field|].
    stay.
  - (* SCROLLSPEED *)
    destruct (cfg_OS_MAC_LEGACY cfg); [|gate].
    destruct (sscanf_d word) as [n s| |];
      try gate.
    change_field.
  - (* NOTIFYON *)
    destruct (sscanf_d word) as [n s| |]; try stay.
    one_call.
  - (* NOTIFYOFF *)
    destruct (sscanf_d word) as [n s| |]; try stay.
    destruct (negb (n =? 0)); [|stay].
    one_call.
  - (* FPS *)
    destruct (sscanf_u word) as [n s| |]; try stay.
    destruct (n >? 0); [|stay].
    unfold bind at 1, get_kb. change_field.
  - (* DITHER *)
    destruct (sscanf_u word) as [n s| |]; try stay.
    destruct (n <=? 1); [|stay].
    change_field.
  - (* GET *) one_call.
  - (* RESET *) one_call.
Qed.

Lemma idle_phase_word (fuel : nat) (l : locals) (word : string) (w : world E) :
  asleep (kb w) ->
  phase cfg asleep idle_call any_change w (readcmd_word cfg fuel l word w).
Proof.
  intros H.
  assert (Hg : forall l0, phase cfg asleep idle_call any_change w
                            (gates cfg fuel l0 word w)).
  { intros l0. rewrite gates_eq.
    destruct (rejected cfg (kb w) (command l0)
              || fw_rejected (kb w) (command l0));
      [stay|apply idle_phase_dispatch; exact H]. }
  assert (Hb : forall l0, phase cfg asleep idle_call any_change w
                            (readcmd_body cfg fuel l0 word w)).
  { intros l0. unfold readcmd_body.
    destruct (sscanf_at_d word) as [n s| |]; try apply Hg.
    destruct (n <? cfg_OUTFIFO_MAX cfg); [|apply Hg].
    stay. }
  unfold readcmd_word. destruct (lookup_command cfg word) as [c|]; [|apply Hb].
  destruct (is_action c); [apply Hb|stay].
Qed.

(** C6 (as the code has it).  On a device that is inactive and needs no
    firmware update: the word [active] runs [vtable.active] through the
    retry harness; a pending command that is neither one of the first switch
    nor [ACTIVE] is dropped without a call or a change; if the calls an
    inactive device may receive leave it inactive, then whatever the line,
    the only calls made while its words are read are those of the first
    switch ([mknotifynode], [rmnotifynode], [get], [reset]),
    [vtable.active] and the resets of its harness; and whatever the calls
    do, that holds of the calls up to and including the first that leaves
    the device active or in need of a firmware update, while the words after
    that call are read as on any device. *)
Theorem inactive_device
  (fuel : nat) (l : locals) (word : string) (words : list string)
  (w : world E) :
  active (kb w) = false -> needs_fw_update (kb w) = false ->
  readcmd_word cfg fuel l "active" w
  = bind (TRY_WITH_RESET cfg fuel (vt_active (mode l) (notifynumber l)))
         (fun _ => ret (with_command ACTIVE l)) w
  /\ (command l = ACTIVE ->
      dispatch_always cfg fuel l word w
      = bind (TRY_WITH_RESET cfg fuel (vt_active (mode l) (notifynumber l)))
             (fun _ => ret l) w)
  /\ (always_available (command l) = false -> command l <> ACTIVE ->
      dispatch_always cfg fuel l word w = Done l w)
  /\ ((forall c k, idle_call c = true -> asleep k ->
                   asleep (fst (cfg_ext cfg c k))) ->
      match read_words cfg fuel l words w with
      | Done _ w' | Return _ w' =>
          asleep (kb w') /\ grows (fun e => idle_call (fst e) = true) w w'
      | OutOfFuel => True
      end)
  /\ phase cfg asleep idle_call any_change w (read_words cfg fuel l words w).
Proof.
  intros Ha Hf.
  assert (Hact : forall l0 wd, command l0 = ACTIVE ->
            dispatch_always cfg fuel l0 wd w
            = bind (TRY_WITH_RESET cfg fuel
                      (vt_active (mode l0) (notifynumber l0)))
                   (fun _ => ret l0) w).
  { intros l0 wd Hc. unfold dispatch_always. rewrite Hc.
    rewrite active_gate_eq, Ha, Hc. reflexivity. }
  split.
  { unfold readcmd_word, lookup_command.
    change (find_cmd cmd_strings "active") with (Some ACTIVE).
    replace (option_map (demote cfg) (Some ACTIVE)) with (Some ACTIVE)
      by (unfold demote; destruct (cfg_OS_MAC cfg); reflexivity).
    cbv beta iota. change (is_action ACTIVE) with true. cbv iota.
    unfold readcmd_body.
    change (sscanf_at_d "active") with (@NoMatch Z). cbv iota.
    rewrite gates_eq. unfold fw_rejected. rewrite Hf.
    change (command (with_command ACTIVE l)) with ACTIVE.
    unfold rejected. simpl orb. cbv iota.
    apply (Hact (with_command ACTIVE l) "active"). reflexivity. }
  split; [apply Hact|]. split; [|split].
  - intros Hav Hne. unfold dispatch_always.
    destruct (command l) eqn:Hc; try discriminate; try congruence;
      rewrite active_gate_eq, Ha, Hc; reflexivity.
  - intros Hext. apply idle_words; [exact Hext|]. split; assumption.
  - apply (phase_words E cfg asleep idle_call any_change); try side.
    + intros l0 word0 w0. apply idle_phase_word.
    + split; assumption.
Qed.

End Lasting.

(** * The two devices on concrete lines *)

(** C3 on the line [notifyon 2 rgb ff0000 fwupdate /tmp/blob] with a
    firmware update that leaves the device as it is: one [mknotifynode], one
    [fwupdate], no flush; and on the line [fwupdate /tmp/blob rgb ff0000
    fps 1] with a firmware update that succeeds and clears the flag. *)
Lemma brick_line_witness :
  needs_fw_update kb_brick = true
  /\ (forall c k', brick_call c = true -> needs_fw_update k' = true ->
                   needs_fw_update (fst (cfg_ext cfg_ok c k')) = true)
  /\ calls_of (readcmd cfg_ok 0 kb_brick
                 "notifyon 2 rgb ff0000 fwupdate /tmp/blob")
     = [mknotifynode 2; vt_fwupdate 0 0 "/tmp/blob"]
  /\ (exists r w,
        readcmd cfg_ok 0 kb_brick "notifyon 2 rgb ff0000 fwupdate /tmp/blob"
        = Return r w
        /\ (r = 0 \/ r = 1)
        /\ Forall (fun c => brick_call c = true) (calls w)
        /\ ~ In (vt_updatergb 0) (calls w) /\ ~ In (vt_updatedpi 0) (calls w)
        /\ kb w = if scratch_cleared cfg_ok r
                       "notifyon 2 rgb ff0000 fwupdate /tmp/blob"
                  then clear_leds (replay cfg_ok (calls w) kb_brick)
                  else replay cfg_ok (calls w) kb_brick)
  /\ match readcmd cfg_fwclear 1 kb_brick "fwupdate /tmp/blob rgb ff0000 fps 1"
     with
     | Return r w =>
         (r = 0 \/ r = 1)
         /\ ((exists k',
                quiet cfg_fwclear bricked brick_call eq kb_brick (log w) k'
                /\ k' = replay cfg_fwclear (calls w) kb_brick
                /\ kb w = if scratch_cleared cfg_fwclear r
                               "fwupdate /tmp/blob rgb ff0000 fps 1"
                          then clear_leds k' else k')
             \/ sprung cfg_fwclear bricked brick_call eq kb_brick (log w))
     | Done _ _ => False
     | OutOfFuel => True
     end.
Proof.
  split; [reflexivity|].
  assert (Hext : forall c k', brick_call c = true ->
                   needs_fw_update k' = true ->
                   needs_fw_update (fst (cfg_ext cfg_ok c k')) = true)
    by (intros c k' _ H; exact H).
  split; [exact Hext|].
  split; [vm_compute; reflexivity|].
  split.
  - exact (proj1 (brick_line unit cfg_ok 0 kb_brick
                    "notifyon 2 rgb ff0000 fwupdate /tmp/blob" eq_refl) Hext).
  - destruct (brick_line unit cfg_fwclear 1 kb_brick
                "fwupdate /tmp/blob rgb ff0000 fps 1" eq_refl) as [_ H].
    exact H.
Defined.

(** C3, the counterexample to the claim as stated: the device needs a
    firmware update when the line [fwupdate /tmp/blob rgb ff0000 fps 1] is
    read, and the firmware update succeeds and leaves the device not needing
    one.  The words after it are then obeyed: [rgb ff0000] calls
    [vtable.rgb] for each of the six keys, [fps 1] changes [usbdelay] from 5
    to 10, and the line is flushed with [updatergb] and [updatedpi]. *)
Theorem brick_line_counterexample :
  needs_fw_update kb_brick = true
  /\ usbdelay kb_brick = 5
  /\ (forall k, needs_fw_update (fst (cfg_ext cfg_fwclear
                                        (vt_fwupdate 0 0 "/tmp/blob") k))
                = false)
  /\ exists w,
       readcmd cfg_fwclear 1 kb_brick "fwupdate /tmp/blob rgb ff0000 fps 1"
       = Return 0 w
       /\ calls w
          = [vt_fwupdate 0 0 "/tmp/blob"; vt_rgb 0 (-1) 0 "ff0000";
             vt_rgb 0 (-1) 1 "ff0000"; vt_rgb 0 (-1) 2 "ff0000";
             vt_rgb 0 (-1) 3 "ff0000"; vt_rgb 0 (-1) 4 "ff0000";
             vt_rgb 0 (-1) 5 "ff0000"; vt_updatergb 0; vt_updatedpi 0]
       /\ brick_call (vt_rgb 0 (-1) 0 "ff0000") = false
       /\ In (vt_updatergb 0) (calls w) /\ In (vt_updatedpi 0) (calls w)
       /\ usbdelay (kb w) = 10.
Proof.
  split; [reflexivity|]. split; [reflexivity|]. split; [reflexivity|].
  destruct (readcmd cfg_fwclear 1 kb_brick
              "fwupdate /tmp/blob rgb ff0000 fps 1") as [x w|r w|] eqn:Hrun;
    vm_compute in Hrun; try discriminate.
  injection Hrun as Hr Hw. exists w. subst r.
  split; [reflexivity|]. subst w.
  split; [reflexivity|]. split; [reflexivity|].
  split; [simpl; tauto|]. split; [simpl; tauto|]. reflexivity.
Qed.

(** The debug build on the line [rgb], for a device that needs a firmware
    update and has recorded leds: no call, and [encounteredleds] cleared. *)
Example scenario_brick_debug :
  needs_fw_update kb_brick = true
  /\ encounteredleds kb_brick = [1; 1]
  /\ scratch_cleared cfg_debug 0 "rgb" = true
  /\ exists w,
       readcmd cfg_debug 0 kb_brick "rgb" = Return 0 w
       /\ calls w = []
       /\ encounteredleds (kb w) = [0; 0].
Proof.
  split; [reflexivity|]. split; [reflexivity|]. split; [reflexivity|].
  eexists.
  split; [vm_compute; reflexivity|]. split; reflexivity.
Qed.

(** C6 on the line [rgb ff0000 get :x idle hwload] for an inactive device
    that stays inactive: only [get] is called while the words are read; on
    [active] the device is sent [vtable.active] once; and the words
    [active idle] with a [vtable.active] that activates the device. *)
Lemma inactive_device_witness :
  active (kb (start kb_off)) = false
  /\ needs_fw_update (kb (start kb_off)) = false
  /\ (forall c k, idle_call c = true -> asleep k ->
                  asleep (fst (cfg_ext cfg_ok c k)))
  /\ read_words cfg_ok 1 (initial kb_off)
       ["rgb"; "ff0000"; "get"; ":x"; "idle"; "hwload"] (start kb_off)
     = Done (pending HWLOAD) (after_call cfg_ok (vt_get 0 0 ":x") (start kb_off))
  /\ asleep (kb (after_call cfg_ok (vt_get 0 0 ":x") (start kb_off)))
  /\ calls_of (readcmd cfg_ok 1 kb_off "active")
     = [vt_active 0 0; vt_updatergb 0; vt_updatedpi 0]
  /\ phase cfg_wake asleep idle_call any_change (start kb_off)
       (read_words cfg_wake 1 (initial kb_off) ["active"; "idle"]
          (start kb_off)).
Proof.
  split; [reflexivity|]. split; [reflexivity|].
  assert (Hext : forall c k, idle_call c = true -> asleep k ->
                             asleep (fst (cfg_ext cfg_ok c k)))
    by (intros c k _ H; exact H).
  split; [exact Hext|].
  assert (Hr : read_words cfg_ok 1 (initial kb_off)
                 ["rgb"; "ff0000"; "get"; ":x"; "idle"; "hwload"] (start kb_off)
               = Done (pending HWLOAD)
                      (after_call cfg_ok (vt_get 0 0 ":x") (start kb_off)))
    by (vm_compute; reflexivity).
  split; [exact Hr|].
  split.
  - pose proof (proj1 (proj2 (proj2 (proj2
      (inactive_device unit cfg_ok 1 (initial kb_off) "x"
         ["rgb"; "ff0000"; "get"; ":x"; "idle"; "hwload"] (start kb_off)
         eq_refl eq_refl)))) Hext) as H.
    rewrite Hr in H. exact (proj1 H).
  - split; [vm_compute; reflexivity|].
    exact (proj2 (proj2 (proj2 (proj2
      (inactive_device unit cfg_wake 1 (initial kb_off) "x"
         ["active"; "idle"] (start kb_off) eq_refl eq_refl))))).
Defined.

(** C6, the counterexample to the claim as stated: the device is inactive
    and needs no firmware update when the line is read, and [vtable.active]
    leaves it active.  The words after [active] are then obeyed: on the line
    [active idle] the active-only verb [idle] calls [vtable.idle], and on
    [active name foo] the word [foo] reaches [do_cmd]. *)
Theorem inactive_device_counterexample :
  active kb_off = false /\ needs_fw_update kb_off = false
  /\ (forall k, active (fst (cfg_ext cfg_wake (vt_active 0 0) k)) = true)
  /\ always_available IDLE = false /\ always_available NAME = false
  /\ (exists w,
        readcmd cfg_wake 1 kb_off "active idle" = Return 0 w
        /\ calls w = [vt_active 0 0; vt_idle 0 0; vt_updatergb 0;
                      vt_updatedpi 0])
  /\ (exists w,
        readcmd cfg_wake 1 kb_off "active name foo" = Return 0 w
        /\ calls w = [vt_active 0 0; vt_do_cmd NAME 0 0 0 "foo";
                      vt_updatergb 0; vt_updatedpi 0]).
Proof.
  split; [reflexivity|]. split; [reflexivity|]. split; [reflexivity|].
  split; [reflexivity|]. split; [reflexivity|].
  split; eexists; (split; [vm_compute; reflexivity|reflexivity]).
Qed.

(** The keycode of the key names [#] and [#x] is what the variable holds:
    with a value out of range at the first reading and the 3 of the name
    before at the second, the line [rgb #:ff #3,#:ff] sets key 3 twice; with
    0 at every reading it sets the keys 0, 3 and 0. *)
Example scenario_stale_keycode :
  calls_of (readcmd cfg_stale 1 kb_on "rgb #:ff #3,#:ff")
  = [vt_do_cmd RGB 0 0 3 "ff"; vt_do_cmd RGB 0 0 3 "ff";
     vt_updatergb 0; vt_updatedpi 0]
  /\ calls_of (readcmd cfg_ok 1 kb_on "rgb #:ff #3,#:ff")
     = [vt_do_cmd RGB 0 0 0 "ff"; vt_do_cmd RGB 0 0 3 "ff";
        vt_do_cmd RGB 0 0 0 "ff"; vt_updatergb 0; vt_updatedpi 0].
Proof.
  split; vm_compute; reflexivity.
Qed.

(** * The properties on concrete devices *)

(** [fps 30 hwsave] on the test keyboard: [usbdelay] goes from 5 to 6, up
    to 10 for the save and back to 6. *)
Lemma usbdelay_stays_in_range_witness :
  (forall c k', 2 <= usbdelay k' <= 10 ->
                2 <= usbdelay (fst (cfg_ext cfg_ok c k')) <= 10)
  /\ 2 <= usbdelay kb_on <= 10
  /\ match readcmd cfg_ok 1 kb_on "fps 30 hwsave" with
     | Return r w =>
         (r = 0 \/ r = 1) /\ 2 <= usbdelay (kb w) <= 10
         /\ Forall (fun e => 2 <= usbdelay (snd e) <= 10) (log w)
     | Done _ _ => False
     | OutOfFuel => True
     end.
Proof.
  assert (Hext : forall c k', 2 <= usbdelay k' <= 10 ->
                   2 <= usbdelay (fst (cfg_ext cfg_ok c k')) <= 10)
    by (intros c k' H; exact H).
  assert (Hk : 2 <= usbdelay kb_on <= 10) by (simpl; lia).
  split; [exact Hext|]. split; [exact Hk|].
  exact (usbdelay_stays_in_range cfg_ok 1 kb_on "fps 30 hwsave" Hext Hk).
Defined.

(** [dither 1]. *)
Lemma dither_stays_binary_witness :
  (forall c k', dither k' = 0 \/ dither k' = 1 ->
                dither (fst (cfg_ext cfg_ok c k')) = 0
                \/ dither (fst (cfg_ext cfg_ok c k')) = 1)
  /\ (dither kb_on = 0 \/ dither kb_on = 1)
  /\ match readcmd cfg_ok 1 kb_on "dither 1" with
     | Return r w => dither (kb w) = 0 \/ dither (kb w) = 1
     | Done _ _ => False
     | OutOfFuel => True
     end.
Proof.
  assert (Hext : forall c k', dither k' = 0 \/ dither k' = 1 ->
                   dither (fst (cfg_ext cfg_ok c k')) = 0
                   \/ dither (fst (cfg_ext cfg_ok c k')) = 1)
    by (intros c k' H; exact H).
  assert (Hk : dither kb_on = 0 \/ dither kb_on = 1) by (left; reflexivity).
  split; [exact Hext|]. split; [exact Hk|].
  exact (dither_stays_binary cfg_ok 1 kb_on "dither 1" Hext Hk).
Defined.

(** [mode 3 switch mode 9 switch]: mode 9 does not exist. *)
Lemma mode_stays_in_range_witness :
  (forall c k', (currentmode (profile k') < 6)%nat ->
                (currentmode (profile (fst (cfg_ext cfg_ok c k'))) < 6)%nat)
  /\ (currentmode (profile kb_on) < 6)%nat
  /\ match readcmd cfg_ok 1 kb_on "mode 3 switch mode 9 switch" with
     | Return r w =>
         (currentmode (profile (kb w)) < 6)%nat
         /\ forall c m, In c (calls w) -> mode_of_call c = Some m -> (m < 6)%nat
     | Done _ _ => False
     | OutOfFuel => True
     end.
Proof.
  assert (Hext : forall c k', (currentmode (profile k') < 6)%nat ->
                   (currentmode (profile (fst (cfg_ext cfg_ok c k'))) < 6)%nat)
    by (intros c k' H; exact H).
  assert (Hk : (currentmode (profile kb_on) < 6)%nat) by (simpl; lia).
  split; [exact Hext|]. split; [exact Hk|].
  exact (mode_stays_in_range cfg_ok 1 kb_on "mode 3 switch mode 9 switch"
           Hext Hk).
Defined.

(** [rgb #2:ff0000 all:00ff00 #9:0000ff #:ffffff]: key 9 does not exist,
    and [#] is read with [keycode] unwritten. *)
Lemma key_index_in_bounds_witness :
  (0 < cfg_N_KEYS_EXTENDED cfg_ok)%nat
  /\ match readcmd cfg_ok 1 kb_on "rgb #2:ff0000 all:00ff00 #9:0000ff #:ffffff"
     with
     | Return r w =>
         forall c key, In c (calls w) -> key_of_call c = Some key ->
                       0 <= key < Z.of_nat (cfg_N_KEYS_EXTENDED cfg_ok)
     | Done _ _ => False
     | OutOfFuel => True
     end.
Proof.
  assert (HN : (0 < cfg_N_KEYS_EXTENDED cfg_ok)%nat) by (simpl; lia).
  split; [exact HN|].
  exact (key_index_in_bounds cfg_ok 1 kb_on
           "rgb #2:ff0000 all:00ff00 #9:0000ff #:ffffff" HN).
Defined.

(** [@3 name foo @12 name bar]: channel 12 does not exist. *)
Lemma channel_below_outfifo_max_witness :
  0 < cfg_OUTFIFO_MAX cfg_ok
  /\ match readcmd cfg_ok 1 kb_on "@3 name foo @12 name bar" with
     | Return r w =>
         forall c n, In c (calls w) -> channel_of_call c = Some n ->
                     n < cfg_OUTFIFO_MAX cfg_ok
     | Done _ _ => False
     | OutOfFuel => True
     end.
Proof.
  assert (HO : 0 < cfg_OUTFIFO_MAX cfg_ok) by (simpl; lia).
  split; [exact HO|].
  exact (channel_below_outfifo_max cfg_ok 1 kb_on "@3 name foo @12 name bar"
           HO).
Defined.

(** [pollrate 1 pollrate 0.1]: the test keyboard goes down to 1 ms. *)
Lemma pollrate_within_max_witness :
  (forall c k', maxpollrate (fst (cfg_ext cfg_ok c k')) = maxpollrate k')
  /\ match readcmd cfg_ok 1 kb_on "pollrate 1 pollrate 0.1" with
     | Return r w =>
         forall rate, In (vt_pollrate rate) (calls w) ->
                      cfg_pollrate cfg_ok rate <= maxpollrate kb_on
     | Done _ _ => False
     | OutOfFuel => True
     end.
Proof.
  assert (Hext : forall c k',
            maxpollrate (fst (cfg_ext cfg_ok c k')) = maxpollrate k')
    by (intros c k'; reflexivity).
  split; [exact Hext|].
  exact (pollrate_within_max cfg_ok 1 kb_on "pollrate 1 pollrate 0.1" Hext).
Defined.

(** [bind a:b macro clear] on a keyboard without bindings. *)
Lemma bind_needs_feature_witness :
  Z.land (cfg_FEAT_ANSI cfg_ok) (cfg_FEAT_BIND cfg_ok) = 0
  /\ Z.land (cfg_FEAT_ISO cfg_ok) (cfg_FEAT_BIND cfg_ok) = 0
  /\ Z.land (cfg_FEAT_MOUSEACCEL cfg_ok) (cfg_FEAT_BIND cfg_ok) = 0
  /\ (forall c k', HAS_FEATURES k' (cfg_FEAT_BIND cfg_ok) = false ->
                   HAS_FEATURES (fst (cfg_ext cfg_ok c k')) (cfg_FEAT_BIND cfg_ok)
                   = false)
  /\ HAS_FEATURES kb_plain (cfg_FEAT_BIND cfg_ok) = false
  /\ match readcmd cfg_ok 1 kb_plain "bind a:b macro clear" with
     | Return r w => forall c, In c (calls w) -> bind_call c = false
     | Done _ _ => False
     | OutOfFuel => True
     end.
Proof.
  assert (Hext : forall c k', HAS_FEATURES k' (cfg_FEAT_BIND cfg_ok) = false ->
                   HAS_FEATURES (fst (cfg_ext cfg_ok c k')) (cfg_FEAT_BIND cfg_ok)
                   = false)
    by (intros c k' H; exact H).
  split; [reflexivity|]. split; [reflexivity|]. split; [reflexivity|].
  split; [exact Hext|]. split; [reflexivity|].
  exact (bind_needs_feature cfg_ok 1 kb_plain "bind a:b macro clear"
           eq_refl eq_refl eq_refl Hext eq_refl).
Defined.

(** [notify a] on a keyboard without notifications. *)
Lemma notify_needs_feature_witness :
  Z.land (cfg_FEAT_ANSI cfg_ok) (cfg_FEAT_NOTIFY cfg_ok) = 0
  /\ Z.land (cfg_FEAT_ISO cfg_ok) (cfg_FEAT_NOTIFY cfg_ok) = 0
  /\ Z.land (cfg_FEAT_MOUSEACCEL cfg_ok) (cfg_FEAT_NOTIFY cfg_ok) = 0
  /\ (forall c k', HAS_FEATURES k' (cfg_FEAT_NOTIFY cfg_ok) = false ->
                   HAS_FEATURES (fst (cfg_ext cfg_ok c k'))
                     (cfg_FEAT_NOTIFY cfg_ok) = false)
  /\ HAS_FEATURES kb_plain (cfg_FEAT_NOTIFY cfg_ok) = false
  /\ match readcmd cfg_ok 1 kb_plain "notify a" with
     | Return r w => forall c, In c (calls w) -> notify_call c = false
     | Done _ _ => False
     | OutOfFuel => True
     end.
Proof.
  assert (Hext : forall c k', HAS_FEATURES k' (cfg_FEAT_NOTIFY cfg_ok) = false ->
                   HAS_FEATURES (fst (cfg_ext cfg_ok c k'))
                     (cfg_FEAT_NOTIFY cfg_ok) = false)
    by (intros c k' H; exact H).
  split; [reflexivity|]. split; [reflexivity|]. split; [reflexivity|].
  split; [exact Hext|]. split; [reflexivity|].
  exact (notify_needs_feature cfg_ok 1 kb_plain "notify a"
           eq_refl eq_refl eq_refl Hext eq_refl).
Defined.

(** The words [rgb], [ff0000], [@2]. *)
Lemma strtok_words_concat_witness :
  Forall is_word ["rgb"; "ff0000"; "@2"]
  /\ strtok_words (String.concat " " ["rgb"; "ff0000"; "@2"])
     = ["rgb"; "ff0000"; "@2"].
Proof.
  assert (H : Forall is_word ["rgb"; "ff0000"; "@2"])
    by (repeat constructor; discriminate).
  split; [exact H|].
  exact (strtok_words_concat ["rgb"; "ff0000"; "@2"] H).
Defined.

(** The line [@2 ff0000 a:b] has no command word. *)
Lemma line_without_command_witness :
  Forall (fun word => lookup_command cfg_ok word = None)
    (strtok_words "@2 ff0000 a:b")
  /\ readcmd cfg_ok 1 kb_on "@2 ff0000 a:b"
     = if needs_fw_update kb_on then Return 0 (start kb_on)
       else bind (TRY_WITH_RESET cfg_ok 1 (vt_updatergb 0))
              (fun _ => bind (TRY_WITH_RESET cfg_ok 1 (vt_updatedpi 0))
                 (fun _ => return_ 0)) (start kb_on).
Proof.
  assert (H : Forall (fun word => lookup_command cfg_ok word = None)
                (strtok_words "@2 ff0000 a:b"))
    by (vm_compute; repeat constructor).
  split; [exact H|].
  exact (line_without_command unit cfg_ok 1 kb_on "@2 ff0000 a:b" H).
Defined.

(** The argument [foo] of [name]. *)
Lemma pending_command_persists_witness :
  lookup_command cfg_ok "foo" = None
  /\ match readcmd_word cfg_ok 1 (pending NAME) "foo" (start kb_on) with
     | Done l' _ => command l' = command (pending NAME)
     | _ => True
     end.
Proof.
  split; [reflexivity|].
  exact (pending_command_persists unit cfg_ok 1 (pending NAME) "foo"
           (start kb_on) eq_refl).
Defined.

(** The key [#2] of [rgb]. *)
Lemma key_by_number_witness :
  numeral "2" 2 /\ 2 <= UINT_MAX
  /\ key_command cfg_ok (pending RGB) "#2" "ff0000" (start kb_on) =
     if 2 <? Z.of_nat (cfg_N_KEYS_EXTENDED cfg_ok) then
       bind (invoke cfg_ok
               (vt_do_cmd (command (pending RGB)) (mode (pending RGB))
                  (notifynumber (pending RGB)) 2 "ff0000"))
            (fun _ => ret tt) (start kb_on)
     else
       match find_key (keymap (kb (start kb_on))) "#2" 0
               (cfg_N_KEYS_EXTENDED cfg_ok)
       with
       | Some i =>
           bind (invoke cfg_ok
                   (vt_do_cmd (command (pending RGB)) (mode (pending RGB))
                      (notifynumber (pending RGB)) (Z.of_nat i) "ff0000"))
                (fun _ => ret tt) (start kb_on)
       | None => Done tt (start kb_on)
       end.
Proof.
  assert (Hn : numeral "2" 2) by (split; [discriminate|reflexivity]).
  assert (Hv : 2 <= UINT_MAX) by (unfold UINT_MAX; lia).
  split; [exact Hn|]. split; [exact Hv|].
  exact (key_by_number unit cfg_ok (pending RGB) "2" "ff0000" 2 (start kb_on)
           Hn Hv).
Defined.

(** The macro words [g1:+a,-a], [g1], [clear] and [:x]. *)
Lemma macro_colon_split_witness :
  (command (pending MACRO) = MACRO \/ command (pending MACRO) = DPI)
  /\ rejected cfg_ok (kb (start kb_on)) (command (pending MACRO)) = false
  /\ active (kb (start kb_on)) = true
  /\ needs_fw_update (kb (start kb_on)) = false
  /\ "g1" <> EmptyString /\ none_of is_colon "g1" = true
  /\ selector_like "g1" = false
  /\ calls_of (readcmd cfg_ok 1 kb_on "macro g1:+a,-a clear")
     = [vt_do_macro MACRO 0 0 "g1" "+a,-a"; vt_macro 0 0;
        vt_updatergb 0; vt_updatedpi 0]
  /\ readcmd_word cfg_ok 1 (pending MACRO) ("g1" ++ String ":" "+a,-a")
       (start kb_on)
     = Done (pending MACRO)
         (after_call cfg_ok
            (vt_do_macro (command (pending MACRO)) (mode (pending MACRO))
               (notifynumber (pending MACRO)) "g1" "+a,-a") (start kb_on))
  /\ (lookup_command cfg_ok "g1" = None ->
      (command (pending MACRO) = MACRO -> "g1" <> "clear") ->
      readcmd_word cfg_ok 1 (pending MACRO) "g1" (start kb_on)
      = Done (pending MACRO)
          (after_call cfg_ok
             (vt_do_macro (command (pending MACRO)) (mode (pending MACRO))
                (notifynumber (pending MACRO)) "g1" EmptyString)
             (start kb_on)))
  /\ (command (pending MACRO) = MACRO ->
      readcmd_word cfg_ok 1 (pending MACRO) "clear" (start kb_on)
      = Done (pending MACRO)
          (after_call cfg_ok
             (vt_macro (mode (pending MACRO)) (notifynumber (pending MACRO)))
             (start kb_on)))
  /\ readcmd_word cfg_ok 1 (pending MACRO) (String ":" "+a,-a") (start kb_on)
     = Done (pending MACRO) (start kb_on).
Proof.
  assert (Hc : command (pending MACRO) = MACRO \/ command (pending MACRO) = DPI)
    by (left; reflexivity).
  assert (Hne : "g1" <> EmptyString) by discriminate.
  split; [exact Hc|]. split; [reflexivity|]. split; [reflexivity|].
  split; [reflexivity|]. split; [exact Hne|]. split; [reflexivity|].
  split; [reflexivity|]. split; [vm_compute; reflexivity|].
  exact (macro_colon_split unit cfg_ok 1 (pending MACRO) "g1" "+a,-a"
           (start kb_on) Hc eq_refl eq_refl eq_refl Hne eq_refl eq_refl).
Defined.

(** The keys [esc,#4,b] of [bind]. *)
Lemma key_list_scan_witness :
  key_list_command (command (pending BIND)) = true
  /\ rejected cfg_ok (kb (start kb_on)) (command (pending BIND)) = false
  /\ active (kb (start kb_on)) = true
  /\ needs_fw_update (kb (start kb_on)) = false
  /\ ["esc"; "#4"; "b"] <> []
  /\ Forall key_name ["esc"; "#4"; "b"]
  /\ selector_like (String.concat "," ["esc"; "#4"; "b"]) = false
  /\ (command (pending BIND) = RGB ->
      sscanf_rgb (String.concat "," ["esc"; "#4"; "b"] ++ String ":" "a") <> 3)
  /\ calls_of (readcmd cfg_ok 1 kb_on "bind esc,#4,b:a")
     = [vt_do_cmd BIND 0 0 0 "a"; vt_do_cmd BIND 0 0 4 "a";
        vt_do_cmd BIND 0 0 2 "a"; vt_updatergb 0; vt_updatedpi 0]
  /\ readcmd_word cfg_ok 1 (pending BIND)
       (String.concat "," ["esc"; "#4"; "b"] ++ String ":" "a")
       (start kb_on)
     = bind (each_key cfg_ok (pending BIND) ["esc"; "#4"; "b"] "a")
            (fun _ => ret (pending BIND)) (start kb_on).
Proof.
  assert (Hn : ["esc"; "#4"; "b"] <> []) by discriminate.
  assert (HF : Forall key_name ["esc"; "#4"; "b"]).
  { repeat constructor; try discriminate; simpl; lia. }
  assert (Hrgb : command (pending BIND) = RGB ->
                 sscanf_rgb (String.concat "," ["esc"; "#4"; "b"]
                             ++ String ":" "a") <> 3) by discriminate.
  split; [reflexivity|]. split; [reflexivity|]. split; [reflexivity|].
  split; [reflexivity|]. split; [exact Hn|]. split; [exact HF|].
  split; [reflexivity|]. split; [exact Hrgb|].
  split; [vm_compute; reflexivity|].
  exact (key_list_scan unit cfg_ok 1 (pending BIND) ["esc"; "#4"; "b"] "a"
           (start kb_on) eq_refl eq_refl eq_refl eq_refl Hn HF eq_refl Hrgb).
Defined.

(** The clock at 200 s and [last_rgb] at 100 s. *)
Lemma timespec_diff_ns_order_witness :
  normalised (at_time 200 0) /\ normalised (at_time 100 0)
  /\ timespec_diff_ns (at_time 200 0) (at_time 100 0)
     = true_diff_ns (at_time 200 0) (at_time 100 0)
  /\ timespec_diff_ns (at_time 100 0) (at_time 200 0)
     = - timespec_diff_ns (at_time 200 0) (at_time 100 0)
  /\ (0 < timespec_diff_ns (at_time 200 0) (at_time 100 0)
      <-> later (at_time 200 0) (at_time 100 0)).
Proof.
  assert (Ha : normalised (at_time 200 0)) by (unfold normalised; simpl; lia).
  assert (Hb : normalised (at_time 100 0)) by (unfold normalised; simpl; lia).
  split; [exact Ha|]. split; [exact Hb|].
  exact (timespec_diff_ns_order (at_time 200 0) (at_time 100 0) Ha Hb).
Defined.

(** [switch] at the start of a line. *)
Lemma switch_to_current_mode_witness :
  mode (initial kb_on) = currentmode (profile (kb (start kb_on)))
  /\ readcmd_word cfg_ok 1 (initial kb_on) "switch" (start kb_on)
     = Done (with_command SWITCH (initial kb_on)) (start kb_on).
Proof.
  split; [reflexivity|].
  exact (switch_to_current_mode unit cfg_ok 1 (initial kb_on) (start kb_on)
           eq_refl).
Defined.

(** [mode 3 switch] on the test keyboard, whose mode 0 is current. *)
Lemma mode_then_switch_witness :
  numeral "3" 3 /\ 0 < 3 <= cfg_MODE_COUNT cfg_ok /\ 3 <= 2147483647
  /\ active (kb (start kb_on)) = true
  /\ needs_fw_update (kb (start kb_on)) = false
  /\ currentmode (profile (kb (start kb_on))) <> Z.to_nat (3 - 1)
  /\ calls_of
       (readcmd cfg_ok 1 kb_on "mode 3 switch")
     = [queued_mutex_lock; queued_mutex_unlock; vt_setmodeindex 2;
        vt_updatergb 0; vt_updatedpi 0]
  /\ exists k1 w',
       read_words cfg_ok 1 (initial kb_on) ["mode"; "3"; "switch"]
         (start kb_on)
       = Done (with_command SWITCH
                 (with_mode (Z.to_nat (3 - 1))
                    (with_command MODE (initial kb_on)))) w'
       /\ log w'
          = (log (start kb_on)
             ++ [(queued_mutex_lock, kb (start kb_on));
                 (queued_mutex_unlock, k1);
                 (vt_setmodeindex (Z.to_nat (3 - 1)), k1)])%list
       /\ kb w' = fst (cfg_ext cfg_ok (vt_setmodeindex (Z.to_nat (3 - 1))) k1)
       /\ currentmode (profile k1) = Z.to_nat (3 - 1)
       /\ (forall i : nat,
             nth_error (modes (profile k1)) i
             = if Nat.eqb i (currentmode (profile (kb (start kb_on))))
               then option_map
                      (fun md => {| light_forceupdate := light_forceupdate md;
                                    macros_triggered :=
                                      map (fun _ => 0) (macros_triggered md) |})
                      (nth_error (modes (profile (kb (start kb_on)))) i)
               else nth_error (modes (profile (kb (start kb_on)))) i)
       /\ k1 = set_profile (profile k1) (kb (start kb_on)).
Proof.
  assert (Hn : numeral "3" 3) by (split; [discriminate|reflexivity]).
  assert (Hr : 0 < 3 <= cfg_MODE_COUNT cfg_ok) by (simpl; lia).
  assert (Hi : 3 <= 2147483647) by lia.
  assert (Hc : currentmode (profile (kb (start kb_on))) <> Z.to_nat (3 - 1))
    by discriminate.
  split; [exact Hn|]. split; [exact Hr|]. split; [exact Hi|].
  split; [reflexivity|]. split; [reflexivity|]. split; [exact Hc|].
  split; [vm_compute; reflexivity|].
  exact (mode_then_switch unit cfg_ok 1 (initial kb_on) "3" 3 (start kb_on)
           Hn Hr Hi eq_refl eq_refl Hc).
Defined.

(** [layout iso] in a macOS build: the features 568 = 512 + 56 of the test
    keyboard become 1080 = 1024 + 56. *)
Lemma layout_replaces_layout_bits_witness :
  command (pending LAYOUT) = LAYOUT
  /\ needs_fw_update (kb (start kb_on)) = false
  /\ ("iso" = "ansi" \/ "iso" = "iso")
  /\ Z.land (cfg_FEAT_ANSI cfg_mac) (cfg_FEAT_LMASK cfg_mac)
     = cfg_FEAT_ANSI cfg_mac
  /\ Z.land (cfg_FEAT_ISO cfg_mac) (cfg_FEAT_LMASK cfg_mac)
     = cfg_FEAT_ISO cfg_mac
  /\ features kb_on = 568
  /\ readcmd_word cfg_mac 1 (pending LAYOUT) "iso" (start kb_on)
     = Done (pending LAYOUT)
         {| kb := set_features 1080 kb_on; log := []; reads := 0 |}
  /\ exists w' : world unit,
       readcmd_word cfg_mac 1 (pending LAYOUT) "iso" (start kb_on)
       = Done (pending LAYOUT) w'
       /\ Z.land (features (kb w')) (cfg_FEAT_LMASK cfg_mac)
          = (if String.eqb "iso" "ansi" then cfg_FEAT_ANSI cfg_mac
             else cfg_FEAT_ISO cfg_mac)
       /\ Z.land (features (kb w')) (Z.lnot (cfg_FEAT_LMASK cfg_mac))
          = Z.land (features (kb (start kb_on)))
              (Z.lnot (cfg_FEAT_LMASK cfg_mac))
       /\ kb w' = set_features (features (kb w')) (kb (start kb_on))
       /\ log w' = log (start kb_on).
Proof.
  assert (Hw : "iso" = "ansi" \/ "iso" = "iso") by (right; reflexivity).
  split; [reflexivity|]. split; [reflexivity|]. split; [exact Hw|].
  split; [reflexivity|]. split; [reflexivity|]. split; [reflexivity|].
  split; [vm_compute; reflexivity|].
  exact (layout_replaces_layout_bits unit cfg_mac 1 (pending LAYOUT) "iso"
           (start kb_on) eq_refl eq_refl Hw eq_refl eq_refl).
Defined.

(** [rgb layout ff0000] in a Linux build: the colour is dropped. *)
Lemma mac_only_words_cancel_witness :
  cfg_OS_MAC cfg_ok = false
  /\ ("layout" = "layout" \/ "layout" = "accel" \/ "layout" = "scrollspeed")
  /\ calls_of (readcmd cfg_ok 1 kb_on "rgb layout ff0000")
     = [vt_updatergb 0; vt_updatedpi 0]
  /\ readcmd_word cfg_ok 1 (pending RGB) "layout" (start kb_on)
     = Done (with_command NONE (pending RGB)) (start kb_on)
  /\ forall arg : string,
       lookup_command cfg_ok arg = None ->
       exists l',
         readcmd_word cfg_ok 1 (with_command NONE (pending RGB)) arg
           (start kb_on) = Done l' (start kb_on)
         /\ command l' = NONE /\ mode l' = mode (pending RGB).
Proof.
  assert (Hw : "layout" = "layout" \/ "layout" = "accel"
               \/ "layout" = "scrollspeed") by (left; reflexivity).
  split; [reflexivity|]. split; [exact Hw|].
  split; [vm_compute; reflexivity|].
  exact (mac_only_words_cancel unit cfg_ok 1 (pending RGB) "layout"
           (start kb_on) eq_refl Hw).
Defined.


(** [rgb ff0000 fwupdate blob] with a firmware update that fails: the line
    returns 1 after the [fwupdate], without the flush. *)
Lemma returns_one_after_failure_witness :
  readcmd cfg_fwfail 1 kb_on "rgb ff0000 fwupdate blob"
  = Return 1
      {| kb := kb_on;
         log := map (fun i => (vt_rgb 0 (-1) i "ff0000", kb_on))
                  [0; 1; 2; 3; 4; 5]
                ++ [(vt_fwupdate 0 0 "blob", kb_on)]; reads := 0 |}
  /\ 1 <> 0
  /\ 1 = 1
  /\ exists pre c k',
       log {| kb := kb_on;
              log := map (fun i => (vt_rgb 0 (-1) i "ff0000", kb_on))
                       [0; 1; 2; 3; 4; 5]
                     ++ [(vt_fwupdate 0 0 "blob", kb_on)]; reads := 0 |}
       = (pre ++ [(c, k')])%list
       /\ abort_call c = true /\ snd (cfg_ext cfg_fwfail c k') <> 0.
Proof.
  assert (Hrun : readcmd cfg_fwfail 1 kb_on "rgb ff0000 fwupdate blob"
                 = Return 1
                     {| kb := kb_on;
                        log := map (fun i => (vt_rgb 0 (-1) i "ff0000", kb_on))
                                 [0; 1; 2; 3; 4; 5]
                               ++ [(vt_fwupdate 0 0 "blob", kb_on)]; reads := 0 |})
    by (vm_compute; reflexivity).
  assert (Hr : 1 <> 0) by lia.
  split; [exact Hrun|]. split; [exact Hr|].
  exact (returns_one_after_failure unit cfg_fwfail 1 kb_on
           "rgb ff0000 fwupdate blob" 1 _ Hrun Hr).
Defined.

(** [mode 2 switch rgb ff0000 hwsave] with collaborators that succeed. *)
Lemma line_returns_zero_witness :
  (forall c k, checked_call c = true -> snd (cfg_ext cfg_ok c k) = 0)
  /\ exists w : world unit,
       readcmd cfg_ok (S 0) kb_on "mode 2 switch rgb ff0000 hwsave"
       = Return 0 w.
Proof.
  assert (H : forall c k, checked_call c = true -> snd (cfg_ext cfg_ok c k) = 0)
    by (intros c k _; reflexivity).
  split; [exact H|].
  exact (line_returns_zero unit cfg_ok H 0 kb_on
           "mode 2 switch rgb ff0000 hwsave").
Defined.
